(** * btc.py: set-up and management script of a Counterparty federated node

    A shallow embedding of [src/btc.py].  The script is a command
    dispatcher: it probes the host (files, ports, containers, git
    checkouts), prints messages, and shells out to [docker-compose],
    [docker] and [git].  The embedding keeps that shape:

    - the host is a record of what the probes answer ([Host]);
    - the part of the file system the script itself reads and writes is
      explicit state ([FS]);
    - every externally visible action is recorded, in order, in a trace
      of [Event]s, with the very command line the script formats;
    - [sys.exit] and uncaught exceptions are outcomes of a small
      state/trace/error monad ([Run]).

    What the embedding assumes of the world around the script:

    - paths are POSIX paths and are compared as they are written;
    - the settings file [.btc.config] is kept apart from the other
      files, with the [Default] section [write_config] writes;
    - the commands handed to the shell are recorded, not interpreted:
      what they change on the host is not seen by later probes;
    - file operations of the script itself do not fail for lack of
      space or permission;
    - [parse_args] is the check of the [choices] of each sub-parser on
      an already split command line. *)

From stdpp Require Import base strings list gmap pretty.
From Stdlib Require Import ZArith Lia Ascii.

Local Open Scope Z_scope.
Local Open Scope string_scope.
Local Open Scope list_scope.

(** ** Python primitives used by the script *)

Module Py.

(** The characters that cannot be typed inside a literal. *)
Definition dq : string := String "034"%char EmptyString.
Definition nl : string := String "010"%char EmptyString.

(** [s.startswith(p)] *)
Definition startswith (s p : string) : bool := String.prefix p s.

(** [p in s] for strings *)
Fixpoint contains (p s : string) : bool :=
  String.prefix p s ||
  match s with
  | EmptyString => false
  | String _ s' => contains p s'
  end.

(** [s.endswith(p)] *)
Fixpoint endswith (s p : string) : bool :=
  bool_decide (s = p) ||
  match s with
  | EmptyString => false
  | String _ s' => endswith s' p
  end.

(** [sep.join(l)] *)
Fixpoint join (sep : string) (l : list string) : string :=
  match l with
  | [] => EmptyString
  | [x] => x
  | x :: l' => x +:+ sep +:+ join sep l'
  end.

(** [s.replace(old, new)] for a non-empty [old]: every occurrence,
    left to right, without overlap.  [skip] counts the characters of
    an occurrence that are still to be dropped. *)
Fixpoint replace_go (old new : string) (skip : nat) (s : string) : string :=
  match s with
  | EmptyString => EmptyString
  | String c s' =>
      match skip with
      | S k => replace_go old new k s'
      | O =>
          if String.prefix old s
          then new +:+ replace_go old new (Nat.pred (String.length old)) s'
          else String c (replace_go old new O s')
      end
  end.

Definition replace (old new s : string) : string := replace_go old new O s.

(** [str.strip()] on ASCII text: the white space characters are
    HT, LF, VT, FF, CR, FS, GS, RS, US and the space. *)
Definition isspace (c : ascii) : bool :=
  let n := nat_of_ascii c in
  ((9 <=? n)%nat && (n <=? 13)%nat) || ((28 <=? n)%nat && (n <=? 32)%nat).

Fixpoint lstrip (s : string) : string :=
  match s with
  | EmptyString => EmptyString
  | String c s' => if isspace c then lstrip s' else s
  end.

Fixpoint rstrip (s : string) : string :=
  match s with
  | EmptyString => EmptyString
  | String c s' =>
      match rstrip s' with
      | EmptyString => if isspace c then EmptyString else String c EmptyString
      | r => String c r
      end
  end.

Definition strip (s : string) : string := rstrip (lstrip s).

(** [s[0:1]] *)
Definition first1 (s : string) : string :=
  match s with
  | EmptyString => EmptyString
  | String c _ => String c EmptyString
  end.

(** [f.readlines()] on a text already decoded: the lines keep their
    terminator; a last line without one is a line too. *)
Fixpoint readlines_go (cur : string) (s : string) : list string :=
  match s with
  | EmptyString => if bool_decide (cur = EmptyString) then [] else [cur]
  | String c s' =>
      if bool_decide (c = "010"%char)
      then (cur +:+ nl) :: readlines_go EmptyString s'
      else readlines_go (cur +:+ String c EmptyString) s'
  end.

Definition readlines (s : string) : list string := readlines_go EmptyString s.

(** [os.path.join(a, *p)] of posixpath. *)
Definition path_join2 (path b : string) : string :=
  if startswith b "/" then b
  else if bool_decide (path = EmptyString) || endswith path "/" then path +:+ b
  else path +:+ "/" +:+ b.

Definition path_join (a : string) (p : list string) : string :=
  foldl path_join2 a p.

(** [str(n)] for an integer. *)
Definition str_int (n : Z) : string := pretty n.


(** [s.split(sep)] for a one-character separator. *)
Fixpoint split_go (sep : ascii) (cur : string) (s : string) : list string :=
  match s with
  | EmptyString => [cur]
  | String c s' =>
      if bool_decide (c = sep)
      then cur :: split_go sep EmptyString s'
      else split_go sep (cur +:+ String c EmptyString) s'
  end.

Definition split (sep : ascii) (s : string) : list string :=
  split_go sep EmptyString s.

(** [s[len(p):]] when [s] starts with [p]. *)
Fixpoint strip_prefix (p s : string) : option string :=
  match p, s with
  | EmptyString, _ => Some s
  | String a p', String b s' =>
      if bool_decide (a = b) then strip_prefix p' s' else None
  | String _ _, EmptyString => None
  end.

(** A dictionary literal, looked up with [d[k]]: [None] is [KeyError]. *)
Fixpoint dict_get {V : Type} (d : list (string * V)) (k : string) : option V :=
  match d with
  | [] => None
  | (k', v) :: d' => if bool_decide (k' = k) then Some v else dict_get d' k
  end.

(** [re.match("['\"].*?['\"]", s)]: a quote, then any characters but a
    line feed, up to a further quote. *)
Definition is_quote (c : ascii) : bool :=
  bool_decide (c = "039"%char) || bool_decide (c = "034"%char).

Fixpoint quote_ahead (s : string) : bool :=
  match s with
  | EmptyString => false
  | String c s' =>
      is_quote c || (negb (bool_decide (c = "010"%char)) && quote_ahead s')
  end.

Definition re_match_quoted (s : string) : bool :=
  match s with
  | EmptyString => false
  | String c s' => is_quote c && quote_ahead s'
  end.

End Py.

(** ** The script's tables *)

Definition VERSION : string := "2.4.0".
Definition PROJECT_NAME : string := "bitcoinprotocols".
Definition BTC_CONFIG_FILE : string := ".btc.config".

Definition REPO_BASE_HTTPS (repo : string) : string :=
  "https://github.com/CounterpartyXCP/" +:+ repo +:+ ".git".
Definition REPO_BASE_SSH (repo : string) : string :=
  "git@github.com:CounterpartyXCP/" +:+ repo +:+ ".git".
Definition REPOS_BASE : list string :=
  ["counterparty-lib"; "counterparty-cli"; "addrindexrs"; "xcp-proxy"; "http-addrindexrs"].
Definition REPOS_FULL : list string := REPOS_BASE.

Definition HOST_PORTS_USED : list (string * list Z) :=
  [ ("base", [8332; 18332; 8432; 18432; 4000; 14000; 8097; 18097; 8098; 18098]);
    ("base_extbtc", [8432; 18432; 4000; 14000; 8097; 18097; 8098; 18098]);
    ("full", [8332; 18332; 8432; 18432; 4000; 14000; 8097; 18097; 8098; 18098; 80; 443]) ].

Definition VOLUMES_USED : list (string * list string) :=
  [ ("base", ["bitcoin-data"; "addrindexrs-data"; "counterparty-data"]);
    ("base_extbtc", ["addrindexrs-data"; "counterparty-data"]);
    ("full", ["bitcoin-data"; "addrindexrs-data"; "counterparty-data"]) ].

Definition UPDATE_CHOICES : list string :=
  ["addrindexrs"; "addrindexrs-testnet";
   "counterparty"; "counterparty-testnet"; "xcp-proxy"; "xcp-proxy-testnet";
   "http-addrindexrs"; "http-addrindexrs-testnet"].
Definition REPARSE_CHOICES : list string := ["counterparty"; "counterparty-testnet"].
Definition ROLLBACK_CHOICES : list string := ["counterparty"; "counterparty-testnet"].
Definition VALIDATE_CHOICES : list string := ["counterparty"; "counterparty-testnet"].
Definition VACUUM_CHOICES : list string := ["counterparty"; "counterparty-testnet"].
Definition SHELL_CHOICES : list string :=
  UPDATE_CHOICES ++
  ["mongodb"; "redis"; "bitcoin"; "bitcoin-testnet"; "addrindexrs"; "addrindexrs-testnet"].

Definition CONFIGCHECK_FILES_BASE_EXTERNAL_BITCOIN : list (string * string * string) :=
  [ ("addrindexrs", "addrindexrs.env.default", "addrindexrs.env");
    ("addrindexrs", "addrindexrs.testnet.env.default", "addrindexrs.testnet.env");
    ("counterparty", "client.conf.default", "client.conf");
    ("counterparty", "client.testnet.conf.default", "client.testnet.conf");
    ("counterparty", "server.conf.default", "server.conf");
    ("counterparty", "server.testnet.conf.default", "server.testnet.conf") ].
Definition CONFIGCHECK_FILES_BASE : list (string * string * string) :=
  [ ("bitcoin", "bitcoin.conf.default", "bitcoin.conf");
    ("bitcoin", "bitcoin.testnet.conf.default", "bitcoin.testnet.conf");
    ("addrindexrs", "addrindexrs.env.default", "addrindexrs.env");
    ("addrindexrs", "addrindexrs.testnet.env.default", "addrindexrs.testnet.env");
    ("counterparty", "client.conf.default", "client.conf");
    ("counterparty", "client.testnet.conf.default", "client.testnet.conf");
    ("counterparty", "server.conf.default", "server.conf");
    ("counterparty", "server.testnet.conf.default", "server.testnet.conf") ].
Definition CONFIGCHECK_FILES_FULL : list (string * string * string) := CONFIGCHECK_FILES_BASE.
Definition CONFIGCHECK_FILES : list (string * list (string * string * string)) :=
  [ ("base_extbtc", CONFIGCHECK_FILES_BASE_EXTERNAL_BITCOIN);
    ("base", CONFIGCHECK_FILES_BASE);
    ("full", CONFIGCHECK_FILES_BASE) ].

(** ** The command line, as [parse_args] hands it to [main]

    One constructor per sub-parser, with the operands that sub-parser
    declares.  A [services] operand declared with [nargs='*'] and
    [default=''] is the list of the names given; the default [''] of an
    invocation without names is the empty list here (the script only
    iterates over it, joins it and takes its length, which are the same
    for [''] and for [[]]). *)

Inductive Command : Type :=
| install (config branch : string) (use_ssh_uris : bool)
          (mongodb_interface : string) (no_bootstrap : bool)
| uninstall
| start (services : list string)
| stop (services : list string)
| restart (services : list string)
| reparse (service : string)
| rollback (block_index service : string)
| validate (service : string)
| vacuum (service : string)
| ps
| tail (services : list string) (num_lines : Z)
| logs (services : list string)
| exec (service : string) (cmd : list string)
| shell (service : string)
| update (no_restart : bool) (services : list string)
| rebuild (services : list string) (mongodb_interface : string) (no_cache : bool)
| docker_clean
| configcheck.

Record Args : Type := mkArgs {
  debug : bool;
  no_pull : bool;
  command : Command
}.

(** [args.command] *)
Definition verb (c : Command) : string :=
  match c with
  | install _ _ _ _ _ => "install"
  | uninstall => "uninstall"
  | start _ => "start"
  | stop _ => "stop"
  | restart _ => "restart"
  | reparse _ => "reparse"
  | rollback _ _ => "rollback"
  | validate _ => "validate"
  | vacuum _ => "vacuum"
  | ps => "ps"
  | tail _ _ => "tail"
  | logs _ => "logs"
  | exec _ _ => "exec"
  | shell _ => "shell"
  | update _ _ => "update"
  | rebuild _ _ _ => "rebuild"
  | docker_clean => "docker_clean"
  | configcheck => "configcheck"
  end.

(** ** The host the script runs on *)

(** The address a listening TCP socket is bound to. *)
Inductive BindAddr : Type :=
| AnyAddr                  (* 0.0.0.0 *)
| Addr (ip : string).

(** What the probes of the script answer.  Outputs of shell commands are
    given before [strip()]; [None] is a command that exits non-zero
    ([subprocess.CalledProcessError]). *)
Record Host : Type := mkHost {
  os_name : string;                               (* os.name *)
  geteuid : Z;                                    (* os.geteuid() *)
  getegid : Z;
  logname_out : option string;                    (* logname *)
  sudo_uptime_out : string;                       (* sudo -n uptime 2>&1|grep load|wc -l *)
  SCRIPTDIR : string;
  CURDIR : string;                                (* os.getcwd() *)
  gethostname : string;                           (* socket.gethostname() *)
  listeners : list (BindAddr * Z);                (* listening TCP sockets *)
  docker_inspect_out : string -> option string;   (* container name -> State.Running *)
  docker_volume_mountpoint : string -> option string;
  git_symbolic_ref_out : string -> string;        (* checkout directory -> branch *)
  docker_ps_out : option string;                  (* docker ps -a -q *)
  docker_images_out : option string               (* docker images -q *)
}.

(** Standard-library functions of Python the script calls and the
    embedding does not unfold. *)
Record PyLib : Type := mkPyLib {
  (* difflib.unified_diff(a, b, fromfile, tofile, fromfiledate, tofiledate, n) *)
  unified_diff : list string -> list string -> string -> string -> string -> string -> nat -> list string;
  (* datetime.fromtimestamp(t, timezone.utc).astimezone().isoformat() *)
  isoformat_local : Z -> string;
  (* str.format of a list of strings: its repr *)
  repr_list : list string -> string
}.

(** ** Files *)

Record File : Type := mkFile {
  content : string;
  mtime : Z;
  uid : Z;
  gid : Z
}.

(** The [Default] section of the settings file. *)
Record Settings : Type := mkSettings {
  branch : string;
  config : string
}.

(** The part of the file system the script looks at: the settings file
    [.btc.config] with its parsed content, regular files, directories
    and symbolic links by path.  Links are not followed: the only ones
    the script deals with are its own links to the data volumes. *)
Record FS : Type := mkFS {
  settings_file : option Settings;
  files : gmap string File;
  dirs : gset string;
  symlinks : gmap string string
}.

(** The state the script changes: files, [os.environ], and its global
    [DOCKER_CONFIG_PATH]. *)
Record State : Type := mkState {
  fs : FS;
  environ : gmap string string;
  DOCKER_CONFIG_PATH : option string
}.

(** The globals [setup_env] sets. *)
Record Env : Type := mkEnv {
  IS_WINDOWS : bool;
  SESSION_USER : option string;
  SUDO_CMD : string
}.

(** ** Actions and outcomes *)

Inductive Event : Type :=
| Print (line : string)                  (* print(...) *)
| System (cmd : string)                  (* os.system(cmd) *)
| CheckOutput (cmd : string)             (* subprocess.check_output(cmd, shell=True) *)
| ConnectEx (host : string) (port : Z)   (* socket.connect_ex((host, port)) *)
| WriteConfig (s : Settings)             (* write_config(config) *)
| Remove (path : string)                 (* os.remove *)
| Copy2 (src dst : string)               (* shutil.copy2 *)
| Chown (path : string) (u g : Z)        (* os.chown *)
| Mkdir (path : string)                  (* os.mkdir *)
| Symlink (target link : string)         (* os.symlink *)
| Rmtree (path : string).                (* shutil.rmtree *)

Global Instance Settings_eq_dec : EqDecision Settings.
Proof. solve_decision. Defined.

Global Instance Event_eq_dec : EqDecision Event.
Proof. solve_decision. Defined.

Inductive Outcome (A : Type) : Type :=
| Done (a : A)                 (* the code ran to its end *)
| SysExit (code : Z)           (* sys.exit(code) *)
| Uncaught (exn : string).     (* an exception nobody catches *)
Arguments Done {A} a.
Arguments SysExit {A} code.
Arguments Uncaught {A} exn.

Record Result (A : Type) : Type := mkResult {
  outcome : Outcome A;
  final : State;
  trace : list Event
}.
Arguments mkResult {A} _ _ _.
Arguments outcome {A} _.
Arguments final {A} _.
Arguments trace {A} _.

Definition Run (A : Type) : Type := State -> Result A.

Definition ret {A : Type} (a : A) : Run A :=
  fun st => mkResult (Done a) st [].

Definition bind {A B : Type} (m : Run A) (k : A -> Run B) : Run B :=
  fun st =>
    match m st with
    | mkResult (Done a) st1 tr1 =>
        match k a st1 with
        | mkResult o st2 tr2 => mkResult o st2 (tr1 ++ tr2)
        end
    | mkResult (SysExit c) st1 tr1 => mkResult (SysExit c) st1 tr1
    | mkResult (Uncaught e) st1 tr1 => mkResult (Uncaught e) st1 tr1
    end.

Declare Scope run_scope.
Delimit Scope run_scope with run.
Bind Scope run_scope with Run.
Notation "x ← m ; k" := (bind m (fun x => k))
  (at level 20, m at level 100, k at level 200, only parsing) : run_scope.
Notation "m ;; k" := (bind m (fun _ => k))
  (at level 100, k at level 200, only parsing, right associativity) : run_scope.
Local Open Scope run_scope.

Definition emit (e : Event) : Run unit :=
  fun st => mkResult (Done tt) st [e].
Definition sys_exit {A : Type} (code : Z) : Run A :=
  fun st => mkResult (SysExit code) st [].
Definition raise {A : Type} (exn : string) : Run A :=
  fun st => mkResult (Uncaught exn) st [].
Definition get : Run State :=
  fun st => mkResult (Done st) st [].
Definition put (st : State) : Run unit :=
  fun _ => mkResult (Done tt) st [].
Definition with_fs (f : FS -> FS) (st : State) : State :=
  mkState (f (fs st)) (environ st) (DOCKER_CONFIG_PATH st).
Definition modify_fs (f : FS -> FS) : Run unit :=
  fun st => mkResult (Done tt) (with_fs f st) [].

(** [for x in l: body(x)] *)
Fixpoint for_each {A : Type} (l : list A) (body : A -> Run unit) : Run unit :=
  match l with
  | [] => ret tt
  | x :: l' => body x ;; for_each l' body
  end.

(** The exit status the shell sees. *)
Definition exit_status {A : Type} (o : Outcome A) : Z :=
  match o with
  | Done _ => 0
  | SysExit c => c
  | Uncaught _ => 1
  end.

(** ** The script *)

Section Script.

Variable lib : PyLib.
Variable H : Host.

Definition BTC_CONFIG_PATH : string := Py.path_join (SCRIPTDIR H) [BTC_CONFIG_FILE].

(** *** Primitive actions *)

Definition print (s : string) : Run unit := emit (Print s).

(** [os.system(cmd)]; the script never looks at the status. *)
Definition os_system (cmd : string) : Run unit := emit (System cmd).

(** [subprocess.check_output(cmd, shell=True).decode("utf-8")] *)
Definition check_output (cmd : string) (out : option string) : Run string :=
  emit (CheckOutput cmd) ;;
  match out with
  | Some o => ret o
  | None => raise "CalledProcessError"
  end.

(** [os.path.exists(p)] for a path other than the settings file. *)
Definition os_path_exists (f : FS) (p : string) : bool :=
  bool_decide (p ∈ dom (files f)) || bool_decide (p ∈ dirs f).

(** [os.path.lexists(p)] *)
Definition os_path_lexists (f : FS) (p : string) : bool :=
  os_path_exists f p || bool_decide (p ∈ dom (symlinks f)).

(** [os.path.exists(BTC_CONFIG_PATH)] *)
Definition config_exists (f : FS) : bool :=
  match settings_file f with Some _ => true | None => false end.

Definition set_settings (s : option Settings) (f : FS) : FS :=
  mkFS s (files f) (dirs f) (symlinks f).
Definition set_file (p : string) (x : File) (f : FS) : FS :=
  mkFS (settings_file f) (<[p := x]> (files f)) (dirs f) (symlinks f).
Definition add_dir (p : string) (f : FS) : FS :=
  mkFS (settings_file f) (files f) ({[p]} ∪ dirs f) (symlinks f).
Definition add_symlink (target link : string) (f : FS) : FS :=
  mkFS (settings_file f) (files f) (dirs f) (<[link := target]> (symlinks f)).

(** A path is inside the tree rooted at [root]. *)
Definition under (root p : string) : bool :=
  bool_decide (p = root) || Py.startswith p (root +:+ "/").

Definition remove_tree (root : string) (f : FS) : FS :=
  mkFS (settings_file f)
       (filter (fun kv => under root kv.1 = false) (files f))
       (filter (fun p => under root p = false) (dirs f))
       (filter (fun kv => under root kv.1 = false) (symlinks f)).

Definition setenv (k v : string) : Run unit :=
  fun st => mkResult (Done tt)
              (mkState (fs st) (<[k := v]> (environ st)) (DOCKER_CONFIG_PATH st)) [].

Definition set_docker_config_path (p : string) : Run unit :=
  fun st => mkResult (Done tt) (mkState (fs st) (environ st) (Some p)) [].

(** *** [write_config] *)
Definition write_config (s : Settings) : Run unit :=
  emit (WriteConfig s) ;;
  modify_fs (set_settings (Some s)).

(** *** [run_compose_cmd] *)

(** The command line [run_compose_cmd] formats. *)
Definition compose_cmdline (env : Env) (docker_config_path cmd : string) : string :=
  SUDO_CMD env +:+ " docker-compose -f " +:+ docker_config_path
  +:+ " -p " +:+ PROJECT_NAME +:+ " " +:+ cmd.

Definition run_compose_cmd (env : Env) (cmd : string) : Run unit :=
  st ← get;
  match DOCKER_CONFIG_PATH st with
  | None => raise "AssertionError"
  | Some path =>
      if bool_decide (path = EmptyString) then raise "AssertionError" else
      match environ st !! "BTC_RELEASE_TAG" with
      | None => raise "KeyError"
      | Some tag =>
          if bool_decide (tag = EmptyString) then raise "AssertionError" else
          os_system (compose_cmdline env path cmd)
      end
  end.

(** *** [is_port_open]

    The socket layer: a connection to [(dest, port)] is accepted by a
    listener on that port bound to [dest] itself or to every address;
    [connect_ex] answers 0 then, and [ECONNREFUSED] otherwise. *)
Definition accepts (dest : string) (port : Z) (l : BindAddr * Z) : bool :=
  (l.2 =? port)%Z &&
  match l.1 with
  | AnyAddr => true
  | Addr ip => bool_decide (ip = dest)
  end.

Definition connect_ex (dest : string) (port : Z) : Z :=
  if existsb (accepts dest port) (listeners H) then 0 else 111.

Definition is_port_open (port : Z) : Run bool :=
  emit (ConnectEx "127.0.0.1" port) ;;
  ret (connect_ex "127.0.0.1" port =? 0)%Z.

(** *** [setup_env] *)
Definition setup_env : Run Env :=
  p ← (if negb (bool_decide (os_name H = "nt")) then
         out ← check_output "logname" (logname_out H);
         let session_user := Py.strip out in
         if bool_decide (session_user = EmptyString) then raise "AssertionError" else
         out' ← check_output ("sudo -n uptime 2>&1|grep " +:+ Py.dq +:+ "load" +:+ Py.dq +:+ "|wc -l")
                             (Some (sudo_uptime_out H));
         ret (mkEnv false (Some session_user) "sudo -E",
              bool_decide (Py.strip out' = "1"))
       else
         ret (mkEnv true None EmptyString, true));
  let env := p.1 in
  let IS_SUDO_ACTIVE := p.2 in
  (if negb (bool_decide (os_name H = "nt")) && (geteuid H =? 0)%Z then
     print "Please run this script as a non-root user." ;;
     sys_exit 1
   else ret tt) ;;
  (if negb IS_SUDO_ACTIVE then
     print "This script requires root access (via sudo) to run. Please enter your sudo password below." ;;
     os_system "bash -c 'sudo whoami > /dev/null'"
   else ret tt) ;;
  ret env.

(** *** [parse_args]: the [choices] of the sub-parsers; argparse exits
    with status 2 on an operand outside them. *)
Definition choices_ok (c : Command) : bool :=
  match c with
  | install cfg br _ _ _ =>
      bool_decide (cfg ∈ ["base"; "base_extbtc"; "full"]) &&
      bool_decide (br ∈ ["master"; "develop"])
  | reparse s => bool_decide (s ∈ REPARSE_CHOICES)
  | rollback _ s => bool_decide (s ∈ ROLLBACK_CHOICES)
  | validate s => bool_decide (s ∈ VALIDATE_CHOICES)
  | vacuum s => bool_decide (s ∈ VACUUM_CHOICES)
  | exec s _ => bool_decide (s ∈ SHELL_CHOICES)
  | shell s => bool_decide (s ∈ SHELL_CHOICES)
  | _ => true
  end.

Definition parse_args (a : Args) : Run Args :=
  if choices_ok (command a) then ret a else sys_exit 2.

(** [str.format] of [SESSION_USER], which is [None] on Windows. *)
Definition fmt_user (env : Env) : string :=
  match SESSION_USER env with
  | Some u => u
  | None => "None"
  end.

(** Source-control commands run as the original user, so that the
    permissions are right. *)
Definition git_cmdline (env : Env) (git_cmd : string) : string :=
  if negb (IS_WINDOWS env) then
    SUDO_CMD env +:+ " -u " +:+ fmt_user env +:+ " bash -c "
    +:+ Py.dq +:+ git_cmd +:+ Py.dq
  else
    git_cmd.

Definition run_git (env : Env) (git_cmd : string) : Run unit :=
  os_system (git_cmdline env git_cmd).

(** *** [is_container_running] *)
Definition container_name (service : string) : string :=
  "bitcoinprotocols_" +:+ service +:+ "_1".

Definition inspect_cmdline (env : Env) (service : string) : string :=
  SUDO_CMD env +:+ " docker inspect --format=" +:+ Py.dq
  +:+ "{{ .State.Running }}" +:+ Py.dq +:+ " " +:+ container_name service.

Definition is_container_running (env : Env) (service : string)
           (abort_on_not_exist : bool) : Run (option bool) :=
  emit (CheckOutput (inspect_cmdline env service)) ;;
  match docker_inspect_out H (container_name service) with
  | Some out => ret (Some (bool_decide (Py.strip out = "true")))
  | None =>
      if abort_on_not_exist then
        print ("Container " +:+ service +:+ " doesn't seem to exist'") ;;
        sys_exit 1
      else ret None
  end.

(** *** [get_docker_volume_path]: the [Mountpoint] of the first entry
    of the JSON answer, [None] when the inspection fails. *)
Definition get_docker_volume_path (env : Env) (volume_name : string) : Run (option string) :=
  emit (CheckOutput (SUDO_CMD env +:+ " docker volume inspect " +:+ volume_name)) ;;
  ret (docker_volume_mountpoint H volume_name).

(** *** [config_check] *)

Definition linejunk_filter (x : string) : bool :=
  (0 <? String.length (Py.strip x))%nat &&
  negb (bool_decide (Py.first1 (Py.strip x) = "#")).

Definition config_check_pair (spec : string * string * string) : Run unit :=
  let '(dirname, fromfile, tofile) := spec in
  st ← get;
  let fromfilepath := Py.path_join (SCRIPTDIR H) ["config"; dirname; fromfile] in
  if negb (os_path_exists (fs st) fromfilepath) then
    print ("Config file not found at " +:+ fromfilepath)
  else
  let tofilepath := Py.path_join (SCRIPTDIR H) ["config"; dirname; tofile] in
  if negb (os_path_exists (fs st) tofilepath) then
    print ("Config file not found at " +:+ tofilepath)
  else
  match files (fs st) !! fromfilepath with
  | None => raise "IsADirectoryError"
  | Some ff =>
  match files (fs st) !! tofilepath with
  | None => raise "IsADirectoryError"
  | Some tf =>
      let fromdate := isoformat_local lib (mtime ff) in
      let todate := isoformat_local lib (mtime tf) in
      let fromlines := List.filter linejunk_filter (Py.readlines (content ff)) in
      let tolines := List.filter linejunk_filter (Py.readlines (content tf)) in
      let diff := unified_diff lib fromlines tolines fromfile tofile fromdate todate 3 in
      let diff_string := Py.join EmptyString diff in
      if (0 <? String.length diff_string)%nat then
        print ("Found these differences in the file " +:+ tofilepath +:+ ":" +:+ Py.nl) ;;
        print diff_string
      else
        print (Py.path_join dirname [tofile] +:+ ": OK")
  end
  end.

Definition config_check (build_config : string) : Run unit :=
  match Py.dict_get CONFIGCHECK_FILES build_config with
  | None => raise "KeyError"
  | Some pairs => for_each pairs config_check_pair
  end.

(** *** Globbing

    [glob] lists what is there when it is called; the embedding takes
    the paths of the files and directories of the model, in the order
    of their set.  A pattern [*] matches no name with a leading dot
    and no ["/"]. *)
Definition all_paths (f : FS) : list string :=
  elements (dom (files f) ∪ dirs f).

Definition visible_name (c : string) : bool :=
  negb (bool_decide (c = EmptyString)) && negb (Py.startswith c ".").

(** [glob.iglob(os.path.join(SCRIPTDIR, 'config', '**/*.default'), recursive=True)] *)
Definition matches_default (p : string) : bool :=
  match Py.strip_prefix (Py.path_join (SCRIPTDIR H) ["config"] +:+ "/") p with
  | None => false
  | Some rel =>
      forallb visible_name (Py.split "/" rel) && Py.endswith rel ".default"
  end.

Definition glob_defaults (f : FS) : list string :=
  List.filter matches_default (all_paths f).

(** [glob.glob(os.path.join(service_dir_path, "*.egg-info"))] *)
Definition matches_egg_info (service_dir_path p : string) : bool :=
  match Py.strip_prefix (Py.path_join service_dir_path [EmptyString]) p with
  | None => false
  | Some name =>
      visible_name name && negb (Py.contains "/" name) && Py.endswith name ".egg-info"
  end.

Definition glob_egg_info (f : FS) (service_dir_path : string) : list string :=
  List.filter (matches_egg_info service_dir_path) (all_paths f).

(** *** The steps of [install] *)

(** The port check: the first required port that answers stops the
    installation. *)
Definition port_in_use_message (port : Z) : string :=
  "Cannot install, as it appears a process is already listening on host port "
  +:+ Py.str_int port.

Definition check_ports (ports : list Z) : Run unit :=
  for_each ports (fun port =>
    open ← is_port_open port;
    if open then
      print (port_in_use_message port) ;;
      sys_exit 1
    else ret tt).

(** Check out the source trees that are not there yet. *)
Definition clone_repo (env : Env) (use_ssh_uris : bool) (repo_branch repo : string) : Run unit :=
  let repo_url := if use_ssh_uris then REPO_BASE_SSH repo else REPO_BASE_HTTPS repo in
  let repo_dir := Py.path_join (SCRIPTDIR H) ["src"; repo] in
  st ← get;
  if negb (os_path_exists (fs st) repo_dir) then
    let git_cmd := "git clone -b " +:+ repo_branch +:+ " " +:+ repo_url +:+ " " +:+ repo_dir in
    run_git env git_cmd
  else ret tt.

(** [shutil.copy2(src, dst)]: content and times of [src]; the copy
    belongs to the user who runs the script. *)
Definition copy2 (src dst : string) : Run unit :=
  st ← get;
  match files (fs st) !! src with
  | None => raise "IsADirectoryError"
  | Some x =>
      emit (Copy2 src dst) ;;
      modify_fs (set_file dst (mkFile (content x) (mtime x) (geteuid H) (getegid H)))
  end.

(** [os.chown(path, uid, gid)] *)
Definition chown (path : string) (u g : Z) : Run unit :=
  st ← get;
  match files (fs st) !! path with
  | None => raise "FileNotFoundError"
  | Some x =>
      emit (Chown path u g) ;;
      modify_fs (set_file path (mkFile (content x) (mtime x) u g))
  end.

(** Copy over the configs from [.default] to active versions, if they
    do not already exist. *)
Definition materialize_config (env : Env) (default_config : string) : Run unit :=
  let active_config := Py.replace ".default" EmptyString default_config in
  st ← get;
  if negb (os_path_exists (fs st) active_config) then
    print ("Generating config from defaults at " +:+ active_config +:+ " ...") ;;
    copy2 default_config active_config ;;
    st' ← get;
    match files (fs st') !! default_config with
    | None => raise "FileNotFoundError"
    | Some default_config_stat =>
        if negb (IS_WINDOWS env) then
          chown active_config (uid default_config_stat) (gid default_config_stat)
        else ret tt
    end
  else ret tt.

Definition materialize_configs (env : Env) : Run unit :=
  st ← get;
  for_each (glob_defaults (fs st)) (materialize_config env).

(** Symlinks to the data volumes, for ease of use. *)
Definition link_volume (env : Env) (data_dir volume : string) : Run unit :=
  let symlink_path := Py.path_join data_dir [Py.replace "-data" EmptyString volume] in
  let volume_name := PROJECT_NAME +:+ "_" +:+ volume in
  mountpoint_path ← get_docker_volume_path env volume_name;
  st ← get;
  match mountpoint_path with
  | Some mp =>
      if negb (os_path_lexists (fs st) symlink_path) then
        emit (Symlink mp symlink_path) ;;
        modify_fs (add_symlink mp symlink_path) ;;
        print ("For convenience, symlinking " +:+ mp +:+ " to " +:+ symlink_path)
      else ret tt
  | None => ret tt
  end.

Definition link_volumes (env : Env) (build_config : string) : Run unit :=
  if negb (IS_WINDOWS env) then
    let data_dir := Py.path_join (SCRIPTDIR H) ["data"] in
    st ← get;
    (if negb (os_path_exists (fs st) data_dir) then
       emit (Mkdir data_dir) ;;
       modify_fs (add_dir data_dir)
     else ret tt) ;;
    match Py.dict_get VOLUMES_USED build_config with
    | None => raise "KeyError"
    | Some volumes => for_each volumes (link_volume env data_dir)
    end
  else ret tt.

Definition do_install (env : Env) (use_docker_pulls config_existed : bool)
           (build_config repo_branch : string) (use_ssh_uris : bool) : Run unit :=
  (if config_existed then
     print "Cannot install, as it appears a configuration already exists. Please run the 'uninstall' command first" ;;
     sys_exit 1
   else ret tt) ;;
  (* check port usage *)
  match Py.dict_get HOST_PORTS_USED build_config with
  | None => raise "KeyError"
  | Some ports => check_ports ports
  end ;;
  (* check out the necessary source trees *)
  let REPOS := if bool_decide (build_config = "base") then REPOS_BASE else REPOS_FULL in
  for_each REPOS (clone_repo env use_ssh_uris repo_branch) ;;
  (* make sure we have the newest image for each service *)
  (if use_docker_pulls then
     run_compose_cmd env "pull --ignore-pull-failures"
   else
     print "skipping docker pull command") ;;
  materialize_configs env ;;
  link_volumes env build_config ;;
  (* launch *)
  run_compose_cmd env "up -d".

(** *** The steps of [update] *)

Definition validate_services (services : list string) : Run unit :=
  if bool_decide (services ≠ [EmptyString]) then
    for_each services (fun service =>
      if negb (bool_decide (service ∈ UPDATE_CHOICES)) then
        print ("Invalid service: " +:+ service) ;;
        sys_exit 1
      else ret tt)
  else ret tt.

Definition service_dirs (service_base : string) : list string :=
  if bool_decide (service_base = "counterparty") then
    [ Py.path_join (SCRIPTDIR H) ["src"; "counterparty-lib"];
      Py.path_join (SCRIPTDIR H) ["src"; "counterparty-cli"] ]
  else [service_base].

Definition git_pull_cmd (service_dir_path service_branch : string) : string :=
  "cd " +:+ service_dir_path +:+ "; git pull origin " +:+ service_branch
  +:+ "; cd " +:+ CURDIR H.

Definition rm_rf_cmdline (env : Env) (path : string) : string :=
  SUDO_CMD env +:+ " bash -c " +:+ Py.dq +:+ "rm -rf " +:+ path +:+ Py.dq.

Definition remove_egg (env : Env) (path : string) : Run unit :=
  print ("Removing egg path " +:+ path) ;;
  if negb (IS_WINDOWS env) then
    os_system (rm_rf_cmdline env path)
  else
    st ← get;
    if bool_decide (path ∈ dirs (fs st)) then
      emit (Rmtree path) ;;
      modify_fs (remove_tree path)
    else raise "NotADirectoryError".

Definition symbolic_ref_cmd (service_dir_path : string) : string :=
  "cd " +:+ service_dir_path +:+ ";git symbolic-ref --short -q HEAD;cd " +:+ CURDIR H.

Definition update_service_dir (env : Env) (service_base service_dir : string) : Run unit :=
  let service_dir_path := Py.path_join (SCRIPTDIR H) ["src"; service_dir] in
  st ← get;
  if negb (os_path_exists (fs st) service_dir_path) then ret tt else
  out ← check_output (symbolic_ref_cmd service_dir_path)
                     (Some (git_symbolic_ref_out H service_dir_path));
  let service_branch := Py.strip out in
  if bool_decide (service_branch = EmptyString) then
    print "Unknown service git branch name, or repo in detached state" ;;
    sys_exit 1
  else
  run_git env (git_pull_cmd service_dir_path service_branch) ;;
  (* delete installed egg *)
  if bool_decide (service_base ∈ ["counterparty"; "armory-utxsvr"]) then
    st' ← get;
    for_each (glob_egg_info (fs st') service_dir_path) (remove_egg env)
  else ret tt.

(** [while services_to_update: service = services_to_update.pop(0) ...];
    the result is [git_has_updated]. *)
Fixpoint update_loop (env : Env) (no_restart : bool)
         (services_to_update git_has_updated : list string) : Run (list string) :=
  match services_to_update with
  | [] => ret git_has_updated
  | service :: services_to_update' =>
      let service_base := Py.replace "-testnet" EmptyString service in
      git_has_updated' ←
        (if negb (bool_decide (service_base ∈ git_has_updated)) then
           for_each (service_dirs service_base) (update_service_dir env service_base) ;;
           ret (git_has_updated ++ [service_base])%list
         else ret git_has_updated);
      (* and restart container *)
      (if negb no_restart then run_compose_cmd env ("restart " +:+ service) else ret tt) ;;
      update_loop env no_restart services_to_update' git_has_updated'
  end.

Definition do_update (env : Env) (no_restart : bool) (services : list string) : Run unit :=
  validate_services services ;;
  let services_to_update :=
    if negb (bool_decide (0 < length services)%nat) then UPDATE_CHOICES else services in
  update_loop env no_restart services_to_update [] ;;
  ret tt.

(** *** [docker_clean] *)
Definition do_docker_clean (env : Env) : Run unit :=
  out ← check_output (SUDO_CMD env +:+ " docker ps -a -q") (docker_ps_out H);
  let docker_containers := Py.split "010" out in
  out' ← check_output (SUDO_CMD env +:+ " docker images -q") (docker_images_out H);
  let docker_images := Py.split "010" out' in
  for_each docker_containers (fun container =>
    if bool_decide (container = EmptyString) then ret tt
    else os_system (SUDO_CMD env +:+ " docker rm " +:+ container)) ;;
  for_each docker_images (fun image =>
    if bool_decide (image = EmptyString) then ret tt
    else os_system (SUDO_CMD env +:+ " docker rmi " +:+ image)) ;;
  sys_exit 1.

(** *** [main] *)

Definition arg_mongodb_interface (c : Command) : string :=
  match c with
  | install _ _ _ m _ => m
  | rebuild _ m _ => m
  | _ => "127.0.0.1"
  end.

Definition arg_no_bootstrap (c : Command) : bool :=
  match c with
  | install _ _ _ _ nb => nb
  | _ => false
  end.

(** The command line of [shell] for a running container. *)
Definition shell_cmdline (env : Env) (service : string) : string :=
  SUDO_CMD env +:+ " docker exec -i -t " +:+ container_name service +:+ " bash".

Definition dispatch (env : Env) (use_docker_pulls config_existed : bool)
           (build_config repo_branch : string) (c : Command) : Run unit :=
  match c with
  | install _ _ use_ssh_uris _ _ =>
      do_install env use_docker_pulls config_existed build_config repo_branch use_ssh_uris
  | uninstall =>
      run_compose_cmd env "down" ;;
      emit (Remove BTC_CONFIG_PATH) ;;
      modify_fs (set_settings None)
  | start services => run_compose_cmd env ("start " +:+ Py.join " " services)
  | stop services => run_compose_cmd env ("stop " +:+ Py.join " " services)
  | restart services => run_compose_cmd env ("restart " +:+ Py.join " " services)
  | reparse service =>
      run_compose_cmd env ("stop " +:+ service) ;;
      run_compose_cmd env ("run -e COMMAND=reparse " +:+ service)
  | rollback block_index service =>
      run_compose_cmd env ("stop " +:+ service) ;;
      run_compose_cmd env ("run -e COMMAND='rollback " +:+ block_index +:+ "' " +:+ service)
  | validate service =>
      run_compose_cmd env ("stop " +:+ service) ;;
      run_compose_cmd env ("run -e COMMAND=checkdb " +:+ service)
  | vacuum service =>
      run_compose_cmd env ("stop " +:+ service) ;;
      run_compose_cmd env ("run -e COMMAND=vacuum " +:+ service)
  | tail services num_lines =>
      run_compose_cmd env ("logs -f --tail=" +:+ Py.str_int num_lines +:+ " "
                           +:+ Py.join " " services)
  | logs services => run_compose_cmd env ("logs " +:+ Py.join " " services)
  | ps => run_compose_cmd env "ps"
  | exec service cmd =>
      let cmd' :=
        match cmd with
        | [c0] =>
            if Py.re_match_quoted c0 then repr_list lib cmd
            else Py.dq +:+ Py.replace Py.dq ("\" +:+ Py.dq) (Py.join " " cmd) +:+ Py.dq
        | _ => Py.dq +:+ Py.replace Py.dq ("\" +:+ Py.dq) (Py.join " " cmd) +:+ Py.dq
        end in
      os_system (SUDO_CMD env +:+ " docker exec -i -t " +:+ container_name service
                 +:+ " bash -c " +:+ cmd')
  | shell service =>
      container_running ← is_container_running env service true;
      match container_running with
      | Some true => os_system (shell_cmdline env service)
      | _ =>
          print "Container is not running -- creating a transient container with a 'bash' shell entrypoint..." ;;
          run_compose_cmd env ("run --no-deps --rm --entrypoint bash " +:+ service)
      end
  | update no_restart services => do_update env no_restart services
  | configcheck => config_check build_config
  | rebuild services _ no_cache =>
      (if use_docker_pulls then
         run_compose_cmd env ("pull --ignore-pull-failures " +:+ Py.join " " services)
       else
         print "skipping docker pull command") ;;
      (if no_cache then
         run_compose_cmd env ("build --no-cache " +:+ Py.join " " services)
       else ret tt) ;;
      run_compose_cmd env ("up -d --build --force-recreate --no-deps " +:+ Py.join " " services)
  | docker_clean => ret tt
  end.

Definition docker_config_path_of (build_config : string) : string :=
  let docker_config_file := "docker-compose." +:+ build_config +:+ ".yml" in
  Py.path_join (SCRIPTDIR H) [docker_config_file].

(** If the settings file does not exist, only [install] may be run;
    it writes the default settings.  The result is [config_existed]. *)
Definition require_settings (c : Command) : Run bool :=
  st ← get;
  let config_existed := config_exists (fs st) in
  (if negb config_existed then
     match c with
     | install cfg br _ _ _ =>
         (* write default config *)
         write_config (mkSettings br cfg)
     | _ =>
         print ("config file " +:+ BTC_CONFIG_FILE
                +:+ " does not exist. Please run the 'install' command first") ;;
         sys_exit 1
     end
   else ret tt) ;;
  ret config_existed.

(** Load and read the settings; set the session up from them. *)
Definition load_settings (c : Command) : Run Settings :=
  st ← get;
  match settings_file (fs st) with
  | None => raise "AssertionError"
  | Some cfg =>
      let build_config := config cfg in
      set_docker_config_path (docker_config_path_of build_config) ;;
      let repo_branch := branch cfg in
      setenv "BTC_RELEASE_TAG"
             (if bool_decide (repo_branch = "master") then "latest" else repo_branch) ;;
      setenv "HOSTNAME_BASE" (gethostname H) ;;
      setenv "MONGODB_HOST_INTERFACE" (arg_mongodb_interface c) ;;
      setenv "NO_BOOTSTRAP" (if arg_no_bootstrap c then "true" else "false") ;;
      ret cfg
  end.

Definition main (argv : Args) : Run unit :=
  env ← setup_env;
  args ← parse_args argv;
  let use_docker_pulls := negb (no_pull args) in
  (* run utility commands (docker_clean) if specified *)
  if bool_decide (verb (command args) = "docker_clean") then
    do_docker_clean env
  else
    (* for all other commands *)
    config_existed ← require_settings (command args);
    cfg ← load_settings (command args);
    (* perform action for the specified command *)
    dispatch env use_docker_pulls config_existed (config cfg) (branch cfg) (command args).

End Script.

(** ** Reading the trace *)

(** A repository clone. *)
Definition is_clone (e : Event) : bool :=
  match e with
  | System cmd => Py.contains "git clone" cmd
  | _ => false
  end.

(** An invocation of the container engine or of the orchestration
    engine ([docker ...], [docker-compose ...]). *)
Definition is_container_engine (e : Event) : bool :=
  match e with
  | System cmd => Py.contains "docker" cmd
  | CheckOutput cmd => Py.contains "docker" cmd
  | _ => false
  end.

(** A repository operation of [update]: branch read, pull, artifact
    cleanup. *)
Definition is_repo_operation (e : Event) : bool :=
  match e with
  | System cmd => Py.contains "git " cmd || Py.contains "rm -rf" cmd
  | CheckOutput cmd => Py.contains "git " cmd
  | Rmtree _ => true
  | _ => false
  end.

(** A write to the file system by the script itself. *)
Definition is_fs_write (e : Event) : bool :=
  match e with
  | WriteConfig _ | Remove _ | Copy2 _ _ | Chown _ _ _
  | Mkdir _ | Symlink _ _ | Rmtree _ => true
  | _ => false
  end.

(** What [setup_env] can do, whatever the host. *)
Definition setup_events : list Event :=
  [ CheckOutput "logname";
    CheckOutput ("sudo -n uptime 2>&1|grep " +:+ Py.dq +:+ "load" +:+ Py.dq +:+ "|wc -l");
    Print "Please run this script as a non-root user.";
    Print "This script requires root access (via sudo) to run. Please enter your sudo password below.";
    System "bash -c 'sudo whoami > /dev/null'" ].

(** The message of every verb but [install] on a host without settings. *)
Definition not_installed_message : string :=
  "config file " +:+ BTC_CONFIG_FILE
  +:+ " does not exist. Please run the 'install' command first".

(** The state in which [main] dispatches the verb: the environment of
    the orchestration engine is set from the settings. *)
Definition session_state (H : Host) (cfg : Settings) (c : Command) (st : State) : State :=
  mkState (fs st)
    (<["NO_BOOTSTRAP" := if arg_no_bootstrap c then "true" else "false"]>
     (<["MONGODB_HOST_INTERFACE" := arg_mongodb_interface c]>
      (<["HOSTNAME_BASE" := gethostname H]>
       (<["BTC_RELEASE_TAG" :=
            if bool_decide (branch cfg = "master") then "latest" else branch cfg]>
        (environ st)))))
    (Some (docker_config_path_of H (config cfg))).

(** The state of a host on which [install] has just written the
    settings. *)
Definition settings_written (s : Settings) (st : State) : State :=
  with_fs (set_settings (Some s)) st.

(** A state in which [run_compose_cmd] passes its assertions. *)
Definition compose_ready (st : State) (path : string) : Prop :=
  DOCKER_CONFIG_PATH st = Some path /\ path <> EmptyString /\
  exists tag, environ st !! "BTC_RELEASE_TAG" = Some tag /\ tag <> EmptyString.

(** ** Examples to run the script on *)

Module Example.

(** A stand-in for [difflib]: nothing for equal sequences, a header
    and both sides otherwise. *)
Definition lib : PyLib :=
  mkPyLib
    (fun a b fromfile tofile _ _ _ =>
       if bool_decide (a = b) then []
       else ("--- " +:+ fromfile +:+ Py.nl) :: ("+++ " +:+ tofile +:+ Py.nl) :: (a ++ b)%list)
    (fun t => pretty t)
    (fun l => "[" +:+ Py.join ", " l +:+ "]").

(** A Linux host: user [alice], sudo already primed, [bitcoind]
    listening on the loopback port 8332, no container yet. *)
Definition host : Host :=
  mkHost "posix" 1000 1000 (Some ("alice" +:+ Py.nl)) ("1" +:+ Py.nl)
         "/opt/fednode" "/home/alice" "node1"
         [(Addr "127.0.0.1", 8332)]
         (fun _ => None) (fun _ => None) (fun _ => "master" +:+ Py.nl)
         (Some ("c0ffee" +:+ Py.nl)) (Some EmptyString).

(** The same host once the containers exist and are stopped. *)
Definition stopped_host : Host :=
  mkHost "posix" 1000 1000 (Some ("alice" +:+ Py.nl)) ("1" +:+ Py.nl)
         "/opt/fednode" "/home/alice" "node1"
         [(Addr "127.0.0.1", 8332)]
         (fun _ => Some ("false" +:+ Py.nl)) (fun _ => None) (fun _ => "master" +:+ Py.nl)
         (Some ("c0ffee" +:+ Py.nl)) (Some EmptyString).

(** A host whose only listener on a required port is bound to its
    LAN address. *)
Definition lan_host : Host :=
  mkHost "posix" 1000 1000 (Some ("alice" +:+ Py.nl)) ("1" +:+ Py.nl)
         "/opt/fednode" "/home/alice" "node1"
         [(Addr "192.168.1.5", 8332)]
         (fun _ => None) (fun _ => None) (fun _ => "master" +:+ Py.nl)
         (Some EmptyString) (Some EmptyString).

Definition env : Env := mkEnv false (Some "alice") "sudo -E".

(** Nothing installed. *)
Definition fresh : State := mkState (mkFS None ∅ ∅ ∅) ∅ None.

(** After [install base master]. *)
Definition settings : Settings := mkSettings "master" "base".
Definition installed : State := mkState (mkFS (Some settings) ∅ ∅ ∅) ∅ None.

End Example.


(** ** Reading the files after a run *)

(** What a run of the materialization keeps: every file that is there
    stays as it is, and nothing but files is touched. *)
Definition keeps_files (st st' : State) : Prop :=
  files (fs st) ⊆ files (fs st') /\
  settings_file (fs st') = settings_file (fs st) /\
  dirs (fs st') = dirs (fs st) /\
  symlinks (fs st') = symlinks (fs st) /\
  environ st' = environ st /\
  DOCKER_CONFIG_PATH st' = DOCKER_CONFIG_PATH st.

(** The active counterpart of a template. *)
Definition active_of (default_config : string) : string :=
  Py.replace ".default" EmptyString default_config.

(** Every file of [st'] that [f0] does not have is the active
    counterpart of one of the [templates] of [f0], was absent from
    [f0], and is a copy of that template. *)
Definition created_from (f0 : FS) (templates : list string) (st' : State) : Prop :=
  forall p y,
    files f0 !! p = None -> files (fs st') !! p = Some y ->
    exists t x,
      t ∈ templates /\ p = active_of t /\ os_path_exists f0 p = false /\
      files f0 !! t = Some x /\ content y = content x /\ mtime y = mtime x.

(** The actions of the materialization: messages, and copies of a
    template to its counterpart (with the change of owner) where [f0]
    had nothing. *)
Definition materialization_event (f0 : FS) (templates : list string) (e : Event) : Prop :=
  match e with
  | Print _ => True
  | Copy2 src dst => src ∈ templates /\ dst = active_of src /\ os_path_exists f0 dst = false
  | Chown path _ _ => os_path_exists f0 path = false
  | _ => False
  end.

Module ExampleFiles.

(** A config tree with two templates; the operator has edited
    [bitcoin.conf], [server.conf] is not there yet. *)
Definition bitcoin_default : File := mkFile ("rpcuser=rpc" +:+ Py.nl) 100 1000 1000.
Definition bitcoin_edited : File :=
  mkFile ("# local note" +:+ Py.nl +:+ Py.nl +:+ "rpcuser=rpc" +:+ Py.nl) 200 1000 1000.
Definition server_default : File := mkFile ("[Default]" +:+ Py.nl) 100 1000 1000.

Definition tree : gmap string File :=
  <["/opt/fednode/config/bitcoin/bitcoin.conf.default" := bitcoin_default]>
  (<["/opt/fednode/config/bitcoin/bitcoin.conf" := bitcoin_edited]>
   (<["/opt/fednode/config/counterparty/server.conf.default" := server_default]> ∅)).

Definition configured : State :=
  mkState (mkFS (Some Example.settings) tree
                {["/opt/fednode/config"; "/opt/fednode/config/bitcoin";
                  "/opt/fednode/config/counterparty"]} ∅)
          ∅ None.

End ExampleFiles.

(** ** The lines [configcheck] ignores, in the words of the specification

    A line is left out of the comparison when it is blank or when its
    first non-whitespace character is ['#']. *)





(** ** Reading the pulls of [update] *)

(** The base service of a service name. *)
Definition base_of (service : string) : string :=
  Py.replace "-testnet" EmptyString service.

(** The checkout directory [update] visits for an entry of
    [service_dirs], and the directories of a base service. *)
Definition repo_path (H : Host) (service_dir : string) : string :=
  Py.path_join (SCRIPTDIR H) ["src"; service_dir].

Definition repo_paths (H : Host) (service_base : string) : list string :=
  map (repo_path H) (service_dirs H service_base).

(** The source-control pull [update] issues in a checkout directory:
    the branch is the one [git symbolic-ref] names there. *)
Definition pull_event (H : Host) (env : Env) (service_dir_path : string) : Event :=
  System (git_cmdline env
            (git_pull_cmd H service_dir_path
               (Py.strip (git_symbolic_ref_out H service_dir_path)))).

(** How often an action occurs in a trace. *)
Definition occurrences (e : Event) (tr : list Event) : nat :=
  length (List.filter (fun e' => bool_decide (e' = e)) tr).

(** The two environments [setup_env] can produce. *)
Definition env_ok (env : Env) : Prop :=
  env = mkEnv true None EmptyString \/
  exists user, env = mkEnv false (Some user) "sudo -E".

(** A run that only removes files: what is there afterwards was there
    before; the session is as it was. *)
Definition shrinks (st st' : State) : Prop :=
  (forall p, os_path_exists (fs st') p = true -> os_path_exists (fs st) p = true) /\
  environ st' = environ st /\
  DOCKER_CONFIG_PATH st' = DOCKER_CONFIG_PATH st.

(** The root of the checkouts, [SCRIPTDIR/src]. *)
Definition src_root (H : Host) : string := Py.path_join (SCRIPTDIR H) ["src"].

(** The names of the checkouts under [src_root], by base service. *)
Definition repo_names (service_base : string) : list string :=
  if bool_decide (service_base = "counterparty")
  then ["counterparty-lib"; "counterparty-cli"]
  else [service_base].

(** The base services [update] can meet once the list is validated:
    those of [UPDATE_CHOICES], and the empty name. *)
Definition update_bases : list string :=
  ["addrindexrs"; "counterparty"; "xcp-proxy"; "http-addrindexrs"; EmptyString].


Module ExampleRepos.

(** The installed host with the two checkouts of [counterparty]. *)
Definition checked_out : State :=
  mkState (mkFS (Some Example.settings) ∅
                {["/opt/fednode/src";
                  "/opt/fednode/src/counterparty-lib";
                  "/opt/fednode/src/counterparty-cli"]} ∅)
          ∅ None.

End ExampleRepos.

(** ** Reading the commands of a run *)

(** The probe of the sudo credentials in [setup_env]. *)
Definition sudo_probe_cmd : string :=
  "sudo -n uptime 2>&1|grep " +:+ Py.dq +:+ "load" +:+ Py.dq +:+ "|wc -l".

(** What [setup_env] does when the sudo credentials are not cached. *)
Definition sudo_priming : list Event :=
  [ Print "This script requires root access (via sudo) to run. Please enter your sudo password below.";
    System "bash -c 'sudo whoami > /dev/null'" ].

(** The message of [install] on a host that has settings. *)
Definition already_installed_message : string :=
  "Cannot install, as it appears a configuration already exists. Please run the 'uninstall' command first".

(** The clone of a repository by [install]. *)
Definition clone_event (H : Host) (env : Env) (use_ssh_uris : bool)
           (repo_branch repo : string) : Event :=
  System (git_cmdline env
            ("git clone -b " +:+ repo_branch +:+ " "
             +:+ (if use_ssh_uris then REPO_BASE_SSH repo else REPO_BASE_HTTPS repo)
             +:+ " " +:+ Py.path_join (SCRIPTDIR H) ["src"; repo])).

(** The checkout of a repository is not there. *)
Definition repo_missing (H : Host) (f : FS) (repo : string) : bool :=
  negb (os_path_exists f (Py.path_join (SCRIPTDIR H) ["src"; repo])).

(** The removal of a container and of an image by [docker_clean]. *)
Definition docker_rm_event (env : Env) (container : string) : Event :=
  System (SUDO_CMD env +:+ " docker rm " +:+ container).
Definition docker_rmi_event (env : Env) (image : string) : Event :=
  System (SUDO_CMD env +:+ " docker rmi " +:+ image).

(** The lines of an output that name something. *)
Definition named_lines (out : string) : list string :=
  List.filter (fun l => negb (bool_decide (l = EmptyString))) (Py.split "010" out).

(** The restart of a service by [update]. *)
Definition restart_event (env : Env) (docker_config_path service : string) : Event :=
  System (compose_cmdline env docker_config_path ("restart " +:+ service)).

(** An invocation of the orchestration engine that restarts
    something. *)
Definition is_restart (env : Env) (docker_config_path : string) (e : Event) : bool :=
  match e with
  | System cmd => Py.startswith cmd (compose_cmdline env docker_config_path "restart ")
  | _ => false
  end.

(** The services [update] works on: all of them when none is named. *)
Definition services_to_update (services : list string) : list string :=
  match services with
  | [] => UPDATE_CHOICES
  | _ => services
  end.

(** Every double quote of a string is preceded by a backslash. *)
Fixpoint quotes_escaped_go (after_backslash : bool) (s : string) : bool :=
  match s with
  | EmptyString => true
  | String c s' =>
      (negb (bool_decide (c = "034"%char)) || after_backslash)
      && quotes_escaped_go (bool_decide (c = "\"%char)) s'
  end.

Definition quotes_escaped (s : string) : bool := quotes_escaped_go false s.

(** The link [install] makes to a data volume, and the name the
    container engine knows the volume by. *)
Definition data_dir (H : Host) : string := Py.path_join (SCRIPTDIR H) ["data"].
Definition volume_link (H : Host) (volume : string) : string :=
  Py.path_join (data_dir H) [Py.replace "-data" EmptyString volume].
Definition volume_name (volume : string) : string := PROJECT_NAME +:+ "_" +:+ volume.


Module ExampleHosts.

(** The example host with the script run by root. *)
Definition root_host : Host :=
  mkHost "posix" 0 0 (Some ("root" +:+ Py.nl)) ("1" +:+ Py.nl)
         "/opt/fednode" "/root" "node1"
         [] (fun _ => None) (fun _ => None) (fun _ => "master" +:+ Py.nl)
         (Some EmptyString) (Some EmptyString).

(** The example host before the sudo password was given. *)
Definition unprimed_host : Host :=
  mkHost "posix" 1000 1000 (Some ("alice" +:+ Py.nl)) ("0" +:+ Py.nl)
         "/opt/fednode" "/home/alice" "node1"
         [] (fun _ => None) (fun _ => None) (fun _ => "master" +:+ Py.nl)
         (Some EmptyString) (Some EmptyString).

(** A session without a login name (no controlling terminal). *)
Definition no_tty_host : Host :=
  mkHost "posix" 1000 1000 None ("1" +:+ Py.nl)
         "/opt/fednode" "/home/alice" "node1"
         [] (fun _ => None) (fun _ => None) (fun _ => "master" +:+ Py.nl)
         (Some EmptyString) (Some EmptyString).

(** A Windows host. *)
Definition windows_host : Host :=
  mkHost "nt" 0 0 None EmptyString
         "/c/fednode" "/c/Users/alice" "node1"
         [] (fun _ => None) (fun _ => None) (fun _ => "master" +:+ Py.nl)
         (Some EmptyString) (Some EmptyString).

Definition windows_env : Env := mkEnv true None EmptyString.

(** A host where only the testnet [bitcoind] runs, on the loopback
    port 18332. *)
Definition testnet_host : Host :=
  mkHost "posix" 1000 1000 (Some ("alice" +:+ Py.nl)) ("1" +:+ Py.nl)
         "/opt/fednode" "/home/alice" "node1"
         [(Addr "127.0.0.1", 18332)]
         (fun _ => None) (fun _ => None) (fun _ => "master" +:+ Py.nl)
         (Some EmptyString) (Some EmptyString).

(** A host with free ports, two containers, one image and the data
    volume of [counterparty]; the checkout of [addrindexrs] is in
    detached state. *)
Definition docker_host : Host :=
  mkHost "posix" 1000 1000 (Some ("alice" +:+ Py.nl)) ("1" +:+ Py.nl)
         "/opt/fednode" "/home/alice" "node1"
         []
         (fun _ => Some ("true" +:+ Py.nl))
         (fun v => if bool_decide (v = "bitcoinprotocols_counterparty-data")
                   then Some "/var/lib/docker/volumes/bitcoinprotocols_counterparty-data/_data"
                   else None)
         (fun p => if bool_decide (p = "/opt/fednode/src/addrindexrs")
                   then Py.nl else "develop" +:+ Py.nl)
         (Some ("c0ffee" +:+ Py.nl +:+ "decaf0" +:+ Py.nl))
         (Some ("1mage" +:+ Py.nl)).

(** An installation on the [develop] branch. *)
Definition develop_settings : Settings := mkSettings "develop" "full".

(** The same, in a shell that exports values of its own for the
    names the script sets. *)
Definition installed_develop_custom : State :=
  mkState (mkFS (Some develop_settings) ∅ ∅ ∅)
          (<["MONGODB_HOST_INTERFACE" := "0.0.0.0"]> (<["NO_BOOTSTRAP" := "true"]> ∅))
          None.

(** An installed host with the checkout of [addrindexrs]. *)
Definition with_addrindexrs : State :=
  mkState (mkFS (Some Example.settings) ∅
                {["/opt/fednode/src"; "/opt/fednode/src/addrindexrs"]} ∅)
          ∅ None.

End ExampleHosts.

(** ** Reading the files after an installation *)

(** A run that only adds: every file, directory and link that was
    there is there unchanged, and the settings and the session are as
    they were. *)
Definition grows (st st' : State) : Prop :=
  files (fs st) ⊆ files (fs st') /\
  dirs (fs st) ⊆ dirs (fs st') /\
  symlinks (fs st) ⊆ symlinks (fs st') /\
  settings_file (fs st') = settings_file (fs st) /\
  environ st' = environ st /\
  DOCKER_CONFIG_PATH st' = DOCKER_CONFIG_PATH st.

(** An action that takes something away. *)
Definition is_removal (e : Event) : bool :=
  match e with
  | Remove _ | Rmtree _ => true
  | _ => false
  end.

(** Every link of [st'] that [f0] does not have is the link of one of
    the [volumes], points to the mount point the container engine
    reports for that volume, and took the place of nothing. *)
Definition linked_from (H : Host) (f0 : FS) (volumes : list string) (st' : State) : Prop :=
  forall link target,
    symlinks f0 !! link = None -> symlinks (fs st') !! link = Some target ->
    exists volume,
      volume ∈ volumes /\ link = volume_link H volume /\
      docker_volume_mountpoint H (volume_name volume) = Some target /\
      os_path_lexists f0 link = false.


(** The volumes of a profile; none for a profile the table lacks. *)
Definition volumes_of (build_config : string) : list string :=
  default [] (Py.dict_get VOLUMES_USED build_config).

Module ExampleVolumes.

(** The installed host with a stale link in place of the data link of
    [counterparty]. *)
Definition stale_link : State :=
  mkState (mkFS (Some Example.settings) ∅ {["/opt/fednode/data"]}
                (<["/opt/fednode/data/counterparty" := "/mnt/old"]> ∅))
          ∅ None.

(** A host without settings where the two checkouts of [counterparty]
    are there already. *)
Definition checked_out_fresh : State :=
  mkState (mkFS None ∅
                {["/opt/fednode/src";
                  "/opt/fednode/src/counterparty-lib";
                  "/opt/fednode/src/counterparty-cli"]} ∅)
          ∅ None.


(** A config tree whose only template belongs to root. *)
Definition root_templates : State :=
  mkState (mkFS None
                (<["/opt/fednode/config/counterparty/server.conf.default" :=
                     mkFile ("[Default]" +:+ Py.nl) 100 0 0]> ∅)
                {["/opt/fednode/config"; "/opt/fednode/config/counterparty"]} ∅)
          ∅ None.

(** An installed host with the checkout of [counterparty-lib], its
    egg-info directory and a file inside a sub-directory. *)
Definition with_egg : State :=
  mkState (mkFS (Some Example.settings)
                (<["/opt/fednode/src/counterparty-lib/docs/notes.egg-info" :=
                     mkFile EmptyString 100 1000 1000]> ∅)
                {["/opt/fednode/src"; "/opt/fednode/src/counterparty-lib";
                  "/opt/fednode/src/counterparty-lib/docs";
                  "/opt/fednode/src/counterparty-lib/counterparty_lib.egg-info"]} ∅)
          ∅ None.

(** A host without settings where every source tree is checked out. *)
Definition all_checked_out : State :=
  mkState (mkFS None ∅
                {["/opt/fednode/src";
                  "/opt/fednode/src/counterparty-lib";
                  "/opt/fednode/src/counterparty-cli";
                  "/opt/fednode/src/addrindexrs";
                  "/opt/fednode/src/xcp-proxy";
                  "/opt/fednode/src/http-addrindexrs"]} ∅)
          ∅ None.

(** An installed Windows host with the checkout of [counterparty-lib]
    and its egg-info directory. *)
Definition windows_checkout : State :=
  mkState (mkFS (Some Example.settings) ∅
                {["/c/fednode/src"; "/c/fednode/src/counterparty-lib";
                  "/c/fednode/src/counterparty-lib/counterparty_lib.egg-info"]} ∅)
          ∅ None.

End ExampleVolumes.

(** ** What is kept for POSIX hosts *)

(** A command that goes through [sudo], a change of owner, and the
    making of the data directory and of its links. *)
Definition is_posix_only (e : Event) : bool :=
  match e with
  | System cmd | CheckOutput cmd => Py.startswith cmd "sudo"
  | Chown _ _ _ | Mkdir _ | Symlink _ _ => true
  | _ => false
  end.
(** * Properties *)

(** ** The Python primitives on small inputs *)

Example replace_testnet :
  Py.replace "-testnet" EmptyString "counterparty-testnet" = "counterparty".
Proof. reflexivity. Qed.

Example replace_default :
  Py.replace ".default" EmptyString "/opt/x/config/bitcoin/bitcoin.conf.default"
  = "/opt/x/config/bitcoin/bitcoin.conf".
Proof. reflexivity. Qed.

Example strip_comment : Py.strip "  # c  " = "# c".
Proof. reflexivity. Qed.

Example readlines_keeps_terminators :
  Py.readlines ("a=1" +:+ Py.nl +:+ Py.nl +:+ "b") = ["a=1" +:+ Py.nl; Py.nl; "b"].
Proof. reflexivity. Qed.

Example linejunk_filter_lines :
  map linejunk_filter ["a=1" +:+ Py.nl; Py.nl; "   " +:+ Py.nl; "  # note" +:+ Py.nl; "a # b"]
  = [true; false; false; false; true].
Proof. reflexivity. Qed.

Example path_join_absolute :
  Py.path_join "/opt/x" ["src"; "/opt/x/src/counterparty-lib"] = "/opt/x/src/counterparty-lib".
Proof. reflexivity. Qed.

Example str_int_port : Py.str_int 8332 = "8332".
Proof. vm_compute. reflexivity. Qed.

Example split_lines : Py.split "010" ("c0ffee" +:+ Py.nl) = ["c0ffee"; EmptyString].
Proof. reflexivity. Qed.

(** A whole installation on a host whose loopback ports are free: five
    clones, the settings, and [up -d] at the end. *)
Example install_on_free_host :
  let r := main Example.lib Example.lan_host
                (mkArgs false false (install "base" "master" false "127.0.0.1" false))
                Example.fresh in
  outcome r = Done tt /\
  settings_file (fs (final r)) = Some (mkSettings "master" "base") /\
  length (List.filter is_clone (trace r)) = 5%nat /\
  last (trace r) =
    Some (System "sudo -E docker-compose -f /opt/fednode/docker-compose.base.yml -p bitcoinprotocols up -d").
Proof. vm_compute. done. Qed.

(** ** The monad *)

Lemma result_eta {A} (r : Result A) : r = mkResult (outcome r) (final r) (trace r).
Proof. by destruct r. Qed.

Lemma bind_run {A B} (m : Run A) (k : A -> Run B) st a st1 tr1 :
  m st = mkResult (Done a) st1 tr1 ->
  bind m k st =
  mkResult (outcome (k a st1)) (final (k a st1)) (tr1 ++ trace (k a st1)).
Proof. intros E. unfold bind. rewrite E. by destruct (k a st1). Qed.

Lemma bind_run_exit {A B} (m : Run A) (k : A -> Run B) st c st1 tr1 :
  m st = mkResult (SysExit c) st1 tr1 ->
  bind m k st = mkResult (SysExit c) st1 tr1.
Proof. intros E. unfold bind. by rewrite E. Qed.

Lemma bind_run_uncaught {A B} (m : Run A) (k : A -> Run B) st e st1 tr1 :
  m st = mkResult (Uncaught e) st1 tr1 ->
  bind m k st = mkResult (Uncaught e) st1 tr1.
Proof. intros E. unfold bind. by rewrite E. Qed.

(** Unfold the monad and split on the tests the run meets. *)
Ltac run_unfold :=
  unfold bind, ret, emit, sys_exit, raise, get, put, modify_fs; simpl.

Ltac run_split :=
  repeat (simpl;
    match goal with
    | |- context [if ?b then _ else _] => destruct b eqn:?
    | |- context [match ?o with Some _ => _ | None => _ end] => destruct o eqn:?
    end).

(** ** [setup_env] *)

Ltac setup_cases H :=
  unfold setup_env, check_output, print, os_system; run_unfold; run_split.

Lemma setup_env_final H st : final (setup_env H st) = st.
Proof. setup_cases H; reflexivity. Qed.

Lemma setup_env_events H st : Forall (fun e => e ∈ setup_events) (trace (setup_env H st)).
Proof.
  setup_cases H;
    repeat (apply Forall_cons; split; [unfold setup_events; set_solver|]);
    apply Forall_nil_2.
Qed.

Lemma setup_env_outcome H st :
  (exists env, outcome (setup_env H st) = Done env) \/
  outcome (setup_env H st) = SysExit 1 \/
  (exists e, outcome (setup_env H st) = Uncaught e).
Proof. setup_cases H; eauto. Qed.

Lemma setup_env_run H st env :
  outcome (setup_env H st) = Done env ->
  setup_env H st = mkResult (Done env) st (trace (setup_env H st)).
Proof.
  intros E. rewrite (result_eta (setup_env H st)) at 1.
  by rewrite E, setup_env_final.
Qed.

Lemma setup_env_Forall (P : Event -> Prop) H st :
  Forall P setup_events -> Forall P (trace (setup_env H st)).
Proof.
  intros HP. eapply Forall_impl; [apply setup_env_events|].
  intros e He. simpl in He. rewrite Forall_forall in HP. by apply HP.
Qed.

(** ** [run_compose_cmd] *)

Lemma docker_config_path_nonempty H b : docker_config_path_of H b <> EmptyString.
Proof.
  unfold docker_config_path_of, Py.path_join, Py.path_join2. simpl.
  destruct (SCRIPTDIR H); simpl; [done|].
  case_match; done.
Qed.

Lemma run_compose_cmd_ready env cmd st path :
  compose_ready st path ->
  run_compose_cmd env cmd st = mkResult (Done tt) st [System (compose_cmdline env path cmd)].
Proof.
  intros (Hp & Hne & tag & Ht & Htne).
  unfold run_compose_cmd, os_system. run_unfold.
  rewrite Hp, Ht.
  rewrite !bool_decide_eq_false_2 by done. reflexivity.
Qed.

Lemma session_state_ready H cfg c st :
  branch cfg <> EmptyString ->
  compose_ready (session_state H cfg c st) (docker_config_path_of H (config cfg)).
Proof.
  intros Hb. split; [done|]. split; [apply docker_config_path_nonempty|].
  exists (if bool_decide (branch cfg = "master") then "latest" else branch cfg).
  split.
  - unfold session_state. simpl.
    rewrite !lookup_insert_ne by done. apply lookup_insert_eq.
  - case_bool_decide; done.
Qed.

(** ** The prologue of [main] *)

Lemma require_settings_installed c st cfg :
  settings_file (fs st) = Some cfg ->
  require_settings c st = mkResult (Done true) st [].
Proof.
  intros Hcfg. unfold require_settings, config_exists. run_unfold. by rewrite Hcfg.
Qed.

Lemma require_settings_install cfg br ssh m nb st :
  settings_file (fs st) = None ->
  require_settings (install cfg br ssh m nb) st =
  mkResult (Done false) (settings_written (mkSettings br cfg) st)
           [WriteConfig (mkSettings br cfg)].
Proof.
  intros Hcfg. unfold require_settings, config_exists, write_config. run_unfold.
  by rewrite Hcfg.
Qed.

Lemma require_settings_missing c st :
  settings_file (fs st) = None ->
  verb c <> "install" ->
  require_settings c st = mkResult (SysExit 1) st [Print not_installed_message].
Proof.
  intros Hcfg Hv. unfold require_settings, config_exists, print. run_unfold.
  rewrite Hcfg. by destruct c.
Qed.

Lemma load_settings_run H c st cfg :
  settings_file (fs st) = Some cfg ->
  load_settings H c st = mkResult (Done cfg) (session_state H cfg c st) [].
Proof.
  intros Hcfg. unfold load_settings, setenv, set_docker_config_path. run_unfold.
  by rewrite Hcfg.
Qed.

(** On an installed host [main] sets the session up and dispatches. *)
Lemma main_installed lib H d np c st env cfg :
  outcome (setup_env H st) = Done env ->
  choices_ok c = true ->
  verb c <> "docker_clean" ->
  settings_file (fs st) = Some cfg ->
  main lib H (mkArgs d np c) st =
  let r := dispatch lib H env (negb np) true (config cfg) (branch cfg) c
                    (session_state H cfg c st) in
  mkResult (outcome r) (final r) (trace (setup_env H st) ++ trace r).
Proof.
  intros Hs Hc Hv Hcfg. unfold main.
  rewrite (bind_run _ _ _ _ _ _ (setup_env_run H st env Hs)).
  unfold parse_args, command. rewrite Hc.
  rewrite (bind_run _ _ st (mkArgs d np c) st []) by done.
  unfold command, no_pull. rewrite bool_decide_eq_false_2 by done.
  rewrite (bind_run _ _ _ _ _ _ (require_settings_installed c st cfg Hcfg)).
  rewrite (bind_run _ _ _ _ _ _ (load_settings_run H c st cfg Hcfg)).
  done.
Qed.

(** When the probe of the environment fails, [main] ends with it. *)
Lemma main_setup_failed lib H argv st :
  (forall env, outcome (setup_env H st) <> Done env) ->
  exit_status (outcome (main lib H argv st)) = 1 /\
  final (main lib H argv st) = st /\
  trace (main lib H argv st) = trace (setup_env H st).
Proof.
  intros Hfail. unfold main.
  pose proof (result_eta (setup_env H st)) as Heta. rewrite setup_env_final in Heta.
  destruct (setup_env_outcome H st) as [(env & He)|[He|(e & He)]].
  - by destruct (Hfail env).
  - rewrite He in Heta. by rewrite (bind_run_exit _ _ _ _ _ _ Heta).
  - rewrite He in Heta. by rewrite (bind_run_uncaught _ _ _ _ _ _ Heta).
Qed.

(** An operand outside the [choices] ends [main] with status 2. *)
Lemma main_parse_failed lib H d np c st env :
  outcome (setup_env H st) = Done env ->
  choices_ok c = false ->
  main lib H (mkArgs d np c) st = mkResult (SysExit 2) st (trace (setup_env H st)).
Proof.
  intros Hs Hc. unfold main.
  rewrite (bind_run _ _ _ _ _ _ (setup_env_run H st env Hs)).
  unfold parse_args, command. rewrite Hc.
  rewrite (bind_run_exit _ _ st 2 st []) by done.
  simpl. by rewrite app_nil_r.
Qed.

(** Without settings, every verb but [install] and [docker_clean] stops
    at the check of the settings file. *)
Lemma main_not_installed lib H d np c st env :
  outcome (setup_env H st) = Done env ->
  choices_ok c = true ->
  verb c <> "install" ->
  verb c <> "docker_clean" ->
  settings_file (fs st) = None ->
  main lib H (mkArgs d np c) st =
  mkResult (SysExit 1) st (trace (setup_env H st) ++ [Print not_installed_message]).
Proof.
  intros Hs Hc Hi Hd Hcfg. unfold main.
  rewrite (bind_run _ _ _ _ _ _ (setup_env_run H st env Hs)).
  unfold parse_args, command. rewrite Hc.
  rewrite (bind_run _ _ st (mkArgs d np c) st []) by done.
  unfold command, no_pull. rewrite bool_decide_eq_false_2 by done.
  rewrite (bind_run_exit _ _ _ _ _ _ (require_settings_missing c st Hcfg Hi)).
  done.
Qed.

(** Without settings, [install] writes them first and dispatches with
    what it reads back. *)
Lemma main_install_fresh lib H d np cfg br ssh m nb st env :
  outcome (setup_env H st) = Done env ->
  choices_ok (install cfg br ssh m nb) = true ->
  settings_file (fs st) = None ->
  main lib H (mkArgs d np (install cfg br ssh m nb)) st =
  let c := install cfg br ssh m nb in
  let s := mkSettings br cfg in
  let r := dispatch lib H env (negb np) false cfg br c
                    (session_state H s c (settings_written s st)) in
  mkResult (outcome r) (final r) (trace (setup_env H st) ++ WriteConfig s :: trace r).
Proof.
  intros Hs Hc Hcfg. unfold main.
  rewrite (bind_run _ _ _ _ _ _ (setup_env_run H st env Hs)).
  unfold parse_args, command. rewrite Hc.
  rewrite (bind_run _ _ st (mkArgs d np (install cfg br ssh m nb)) st []) by done.
  unfold command, no_pull. rewrite bool_decide_eq_false_2 by done.
  rewrite (bind_run _ _ _ _ _ _ (require_settings_install cfg br ssh m nb st Hcfg)).
  rewrite (bind_run _ _ _ _ _ _
             (load_settings_run H (install cfg br ssh m nb)
                (settings_written (mkSettings br cfg) st) (mkSettings br cfg) eq_refl)).
  done.
Qed.

(** ** Substrings *)

Lemma prefix_app p a b : String.prefix p a = true -> String.prefix p (a +:+ b) = true.
Proof.
  revert a. induction p as [|c p IH]; intros a.
  - intros _. by destruct (a +:+ b).
  - destruct a as [|c' a]; simpl; [done|].
    destruct (Ascii.ascii_dec c c'); [apply IH|done].
Qed.

Lemma contains_app_l p a b : Py.contains p a = true -> Py.contains p (a +:+ b) = true.
Proof.
  induction a as [|c a IH]; simpl.
  - rewrite orb_false_r. destruct p; [|done]. intros _. by destruct b.
  - intros [Hp|Hc]%orb_true_iff; apply orb_true_iff.
    + left. by apply (prefix_app p (String c a) b).
    + right. by apply IH.
Qed.

Lemma contains_app_r p a b : Py.contains p b = true -> Py.contains p (a +:+ b) = true.
Proof.
  intros Hb. induction a as [|c a IH]; simpl; [done|].
  apply orb_true_iff. by right.
Qed.

Lemma compose_is_container_engine env path cmd :
  is_container_engine (System (compose_cmdline env path cmd)) = true.
Proof.
  unfold is_container_engine, compose_cmdline.
  apply contains_app_r. reflexivity.
Qed.

Lemma setup_no_container_engine H st :
  List.filter is_container_engine (trace (setup_env H st)) = [].
Proof.
  pose proof (setup_env_events H st) as Hev.
  induction Hev as [|e tr He _ IH]; [done|].
  simpl. rewrite IH.
  unfold setup_events in He.
  repeat (apply elem_of_cons in He as [->|He]; [reflexivity|]).
  by apply elem_of_nil in He.
Qed.

(** ** Maintenance verbs *)

(** C9: on an installed host, [rollback B S] invokes the orchestration
    engine exactly twice: it stops service [S], then runs [S] once with
    [COMMAND='rollback B']. *)
Theorem rollback_stop_then_run lib H d np B S st env cfg :
  outcome (setup_env H st) = Done env ->
  S ∈ ROLLBACK_CHOICES ->
  settings_file (fs st) = Some cfg ->
  branch cfg <> EmptyString ->
  let r := main lib H (mkArgs d np (rollback B S)) st in
  let compose := compose_cmdline env (docker_config_path_of H (config cfg)) in
  let invocations :=
    [ System (compose ("stop " +:+ S));
      System (compose ("run -e COMMAND='rollback " +:+ B +:+ "' " +:+ S)) ] in
  outcome r = Done tt /\
  trace r = trace (setup_env H st) ++ invocations /\
  List.filter is_container_engine (trace r) = invocations.
Proof.
  intros Hs HS Hcfg Hb r compose invocations.
  assert (Hr : r = mkResult (Done tt) (session_state H cfg (rollback B S) st)
                            (trace (setup_env H st) ++ invocations)).
  { subst r. rewrite (main_installed lib H d np _ st env cfg); try done;
      [|by apply bool_decide_eq_true_2].
    pose proof (session_state_ready H cfg (rollback B S) st Hb) as Hready.
    unfold dispatch.
    rewrite (bind_run _ _ _ _ _ _ (run_compose_cmd_ready _ _ _ _ Hready)).
    by rewrite (run_compose_cmd_ready _ _ _ _ Hready). }
  rewrite Hr. cbn [outcome trace]. split; [done|]. split; [done|].
  rewrite List.filter_app, setup_no_container_engine.
  subst invocations compose. cbn [List.filter app].
  by rewrite !compose_is_container_engine.
Qed.

Lemma rollback_stop_then_run_witness :
  let r := main Example.lib Example.host
                (mkArgs false false (rollback "450000" "counterparty")) Example.installed in
  outcome r = Done tt /\
  List.filter is_container_engine (trace r) =
  [ System "sudo -E docker-compose -f /opt/fednode/docker-compose.base.yml -p bitcoinprotocols stop counterparty";
    System "sudo -E docker-compose -f /opt/fednode/docker-compose.base.yml -p bitcoinprotocols run -e COMMAND='rollback 450000' counterparty" ].
Proof.
  pose proof (rollback_stop_then_run Example.lib Example.host false false
                "450000" "counterparty" Example.installed Example.env Example.settings) as W.
  destruct W as (Ho & _ & Hf).
  - reflexivity.
  - vm_compute; repeat constructor.
  - reflexivity.
  - discriminate.
  - split; [exact Ho | exact Hf].
Defined.

(** ** Verbs on a host without settings *)

(** C1 (amended): while the settings file is absent, every verb other
    than [install] and [docker_clean] fails without any side effect: the
    exit status is not zero, files, environment and globals are left as
    they were, and beyond the probe of the environment that opens every
    invocation the run does at most print the directive to run
    [install] first; once the probe and the argument parser have
    accepted the invocation, it prints that directive and exits with
    status 1. *)
Theorem other_verbs_need_install lib H d np c st :
  settings_file (fs st) = None ->
  verb c <> "install" ->
  verb c <> "docker_clean" ->
  let r := main lib H (mkArgs d np c) st in
  exit_status (outcome r) <> 0 /\
  final r = st /\
  (trace r = trace (setup_env H st) \/
   trace r = trace (setup_env H st) ++ [Print not_installed_message]) /\
  (forall env, outcome (setup_env H st) = Done env -> choices_ok c = true ->
     outcome r = SysExit 1 /\
     trace r = trace (setup_env H st) ++ [Print not_installed_message]).
Proof.
  intros Hcfg Hi Hd r. subst r.
  destruct (setup_env_outcome H st) as [(env & He)|Hfail].
  - destruct (choices_ok c) eqn:Hc.
    + rewrite (main_not_installed lib H d np c st env) by done.
      cbn [outcome trace final exit_status].
      split; [done|]. split; [done|]. split; [by right|done].
    + rewrite (main_parse_failed lib H d np c st env) by done.
      cbn [outcome trace final exit_status].
      split; [done|]. split; [done|]. split; [by left|done].
  - destruct (main_setup_failed lib H (mkArgs d np c) st) as (Hx & Hf & Ht).
    { intros env He. destruct Hfail as [Hs|(e & Hs)]; congruence. }
    split; [lia|]. split; [done|]. split; [by left|].
    intros env He. destruct Hfail as [Hs|(e & Hs)]; congruence.
Qed.

Lemma other_verbs_need_install_witness :
  let r := main Example.lib Example.host
                (mkArgs false false (rollback "450000" "counterparty")) Example.fresh in
  outcome r = SysExit 1 /\
  trace r = trace (setup_env Example.host Example.fresh)
            ++ [Print "config file .btc.config does not exist. Please run the 'install' command first"] /\
  final r = Example.fresh.
Proof.
  pose proof (other_verbs_need_install Example.lib Example.host false false
                (rollback "450000" "counterparty") Example.fresh) as W.
  destruct W as (_ & Hf & _ & W).
  - reflexivity.
  - discriminate.
  - discriminate.
  - destruct (W Example.env) as (Ho & Ht); [reflexivity|reflexivity|].
    split; [exact Ho|]. split; [exact Ht | exact Hf].
Defined.

(** C1 as stated fails for [docker_clean]: without settings it prints no
    directive and removes the containers the host lists. *)
Lemma docker_clean_runs_without_settings :
  let r := main Example.lib Example.host (mkArgs false false docker_clean) Example.fresh in
  settings_file (fs Example.fresh) = None /\
  verb docker_clean <> "install" /\
  outcome r = SysExit 1 /\
  trace r = trace (setup_env Example.host Example.fresh)
            ++ [ CheckOutput "sudo -E docker ps -a -q";
                 CheckOutput "sudo -E docker images -q";
                 System "sudo -E docker rm c0ffee" ] /\
  ~ In (Print not_installed_message) (trace r).
Proof.
  split; [reflexivity|]. split; [discriminate|].
  split; [vm_compute; reflexivity|]. split; [vm_compute; reflexivity|].
  vm_compute. intros [?|[?|[?|[?|[?|[]]]]]]; discriminate.
Qed.

(** ** [shell] *)

(** C8 (amended): on an installed host, for every service of the shell
    allow-list whose container exists, [shell] opens an interactive
    shell inside the container when it is running, and otherwise falls
    back to a transient container ([run --no-deps --rm --entrypoint
    bash]); when the container does not exist, it reports so and exits
    with status 1. *)
Theorem shell_exec_or_transient lib H d np S st env cfg :
  outcome (setup_env H st) = Done env ->
  S ∈ SHELL_CHOICES ->
  settings_file (fs st) = Some cfg ->
  branch cfg <> EmptyString ->
  let r := main lib H (mkArgs d np (shell S)) st in
  let compose := compose_cmdline env (docker_config_path_of H (config cfg)) in
  let inspect := CheckOutput (inspect_cmdline env S) in
  match docker_inspect_out H (container_name S) with
  | Some out =>
      outcome r = Done tt /\
      trace r =
        trace (setup_env H st) ++ inspect ::
        (if bool_decide (Py.strip out = "true")
         then [ System (shell_cmdline env S) ]
         else [ Print "Container is not running -- creating a transient container with a 'bash' shell entrypoint...";
                System (compose ("run --no-deps --rm --entrypoint bash " +:+ S)) ])
  | None =>
      outcome r = SysExit 1 /\
      trace r =
        trace (setup_env H st) ++
        [ inspect; Print ("Container " +:+ S +:+ " doesn't seem to exist'") ]
  end.
Proof.
  intros Hs HS Hcfg Hb r compose inspect. subst r.
  rewrite (main_installed lib H d np _ st env cfg); try done;
    [|by apply bool_decide_eq_true_2].
  pose proof (session_state_ready H cfg (shell S) st Hb) as Hready.
  set (st1 := session_state H cfg (shell S) st) in *.
  unfold dispatch, is_container_running, print, os_system.
  destruct (docker_inspect_out H (container_name S)) as [out|].
  - destruct (bool_decide (Py.strip out = "true")).
    + by run_unfold.
    + rewrite (bind_run _ _ st1 (Some false) st1 [CheckOutput (inspect_cmdline env S)]) by done.
      rewrite (bind_run _ _ st1 tt st1
                 [Print "Container is not running -- creating a transient container with a 'bash' shell entrypoint..."])
        by done.
      by rewrite (run_compose_cmd_ready _ _ _ _ Hready).
  - by run_unfold.
Qed.

Lemma shell_exec_or_transient_witness :
  let r := main Example.lib Example.stopped_host
                (mkArgs false false (shell "counterparty")) Example.installed in
  outcome r = Done tt /\
  trace r =
    trace (setup_env Example.stopped_host Example.installed) ++
    [ CheckOutput (inspect_cmdline Example.env "counterparty");
      Print "Container is not running -- creating a transient container with a 'bash' shell entrypoint...";
      System "sudo -E docker-compose -f /opt/fednode/docker-compose.base.yml -p bitcoinprotocols run --no-deps --rm --entrypoint bash counterparty" ].
Proof.
  pose proof (shell_exec_or_transient Example.lib Example.stopped_host false false
                "counterparty" Example.installed Example.env Example.settings) as W.
  apply W.
  - reflexivity.
  - vm_compute; repeat constructor.
  - reflexivity.
  - discriminate.
Defined.

(** C8 as stated fails when the container of the service does not
    exist: it is not running, and [shell] exits with status 1 without a
    transient container. *)
Lemma shell_fails_without_container :
  let r := main Example.lib Example.host
                (mkArgs false false (shell "counterparty")) Example.installed in
  "counterparty" ∈ SHELL_CHOICES /\
  docker_inspect_out Example.host (container_name "counterparty") = None /\
  outcome r = SysExit 1 /\
  trace r =
    trace (setup_env Example.host Example.installed) ++
    [ CheckOutput (inspect_cmdline Example.env "counterparty");
      Print "Container counterparty doesn't seem to exist'" ] /\
  List.filter (fun e => match e with System _ => true | _ => false end) (trace r) = [].
Proof.
  split; [vm_compute; repeat constructor|].
  split; [reflexivity|].
  split; [vm_compute; reflexivity|].
  split; vm_compute; reflexivity.
Qed.

(** ** The port check of [install] *)

Lemma is_port_open_run H port st :
  is_port_open H port st =
  mkResult (Done (connect_ex H "127.0.0.1" port =? 0)%Z) st [ConnectEx "127.0.0.1" port].
Proof. reflexivity. Qed.

Lemma check_ports_cons_open H q ports st :
  connect_ex H "127.0.0.1" q = 0 ->
  check_ports H (q :: ports) st =
  mkResult (SysExit 1) st [ConnectEx "127.0.0.1" q; Print (port_in_use_message q)].
Proof.
  intros Hq. unfold check_ports. cbn [for_each].
  match goal with
  | |- bind ?m _ _ = _ =>
      assert (Hbody : m st = mkResult (SysExit 1) st
                [ConnectEx "127.0.0.1" q; Print (port_in_use_message q)])
  end.
  { rewrite (bind_run _ _ _ _ _ _ (is_port_open_run H q st)). by rewrite Hq. }
  by rewrite (bind_run_exit _ _ _ _ _ _ Hbody).
Qed.

Lemma check_ports_cons_closed H q ports st :
  connect_ex H "127.0.0.1" q <> 0 ->
  check_ports H (q :: ports) st =
  let r := check_ports H ports st in
  mkResult (outcome r) (final r) (ConnectEx "127.0.0.1" q :: trace r).
Proof.
  intros Hq. unfold check_ports. cbn [for_each].
  match goal with
  | |- bind ?m _ _ = _ =>
      assert (Hbody : m st = mkResult (Done tt) st [ConnectEx "127.0.0.1" q])
  end.
  { rewrite (bind_run _ _ _ _ _ _ (is_port_open_run H q st)).
    apply Z.eqb_neq in Hq. by rewrite Hq. }
  by rewrite (bind_run _ _ _ _ _ _ Hbody).
Qed.

(** The check stops at the first required port that answers. *)
Lemma check_ports_blocked H ports st :
  (exists p, p ∈ ports /\ connect_ex H "127.0.0.1" p = 0) ->
  exists before p after,
    ports = before ++ p :: after /\
    connect_ex H "127.0.0.1" p = 0 /\
    check_ports H ports st =
    mkResult (SysExit 1) st
             (map (ConnectEx "127.0.0.1") (before ++ [p]) ++ [Print (port_in_use_message p)]).
Proof.
  induction ports as [|q ports IH]; intros (p & Hin & Hp).
  - by apply elem_of_nil in Hin.
  - destruct (decide (connect_ex H "127.0.0.1" q = 0)) as [Hq|Hq].
    + exists [], q, ports. split; [done|]. split; [done|].
      by rewrite check_ports_cons_open.
    + apply elem_of_cons in Hin as [->|Hin]; [done|].
      destruct IH as (before & p' & after & -> & Hp' & Hrun); [by exists p|].
      exists (q :: before), p', after. split; [done|]. split; [done|].
      rewrite check_ports_cons_closed by done. by rewrite Hrun.
Qed.

Lemma check_ports_free H ports st :
  (forall p, p ∈ ports -> connect_ex H "127.0.0.1" p <> 0) ->
  check_ports H ports st = mkResult (Done tt) st (map (ConnectEx "127.0.0.1") ports).
Proof.
  induction ports as [|q ports IH]; intros Hfree; [done|].
  rewrite check_ports_cons_closed by (apply Hfree; by left).
  rewrite IH; [done|]. intros p Hp. apply Hfree. by right.
Qed.

Lemma connect_ex_refused H dest port :
  (forall a, (a, port) ∈ listeners H -> exists ip, a = Addr ip /\ ip <> dest) ->
  connect_ex H dest port <> 0.
Proof.
  intros Hl. unfold connect_ex.
  destruct (existsb (accepts dest port) (listeners H)) eqn:E; [|done].
  apply existsb_exists in E as ([a q] & Hin & Hacc).
  unfold accepts in Hacc. simpl in Hacc.
  apply andb_true_iff in Hacc as [Hq Ha]. apply Z.eqb_eq in Hq. subst q.
  apply list_elem_of_In in Hin.
  destruct (Hl a Hin) as (ip & -> & Hne).
  by apply bool_decide_eq_true in Ha.
Qed.

(** C10: the port check of [install] probes a required port by a
    connection to 127.0.0.1 and by nothing else; the check stops the
    installation exactly when such a connection succeeds for some
    required port; listeners bound to another address only let it
    pass. *)
Theorem port_check_probes_loopback_only H cfg ports st :
  Py.dict_get HOST_PORTS_USED cfg = Some ports ->
  let r := check_ports H ports st in
  (forall port st', trace (is_port_open H port st') = [ConnectEx "127.0.0.1" port] /\
     outcome (is_port_open H port st') = Done (connect_ex H "127.0.0.1" port =? 0)%Z) /\
  Forall (fun e => (exists p, p ∈ ports /\ e = ConnectEx "127.0.0.1" p) \/
                   (exists p, e = Print (port_in_use_message p))) (trace r) /\
  (outcome r = SysExit 1 <-> exists p, p ∈ ports /\ connect_ex H "127.0.0.1" p = 0) /\
  (outcome r = Done tt <-> forall p, p ∈ ports -> connect_ex H "127.0.0.1" p <> 0) /\
  ((forall a p, p ∈ ports -> (a, p) ∈ listeners H ->
      exists ip, a = Addr ip /\ ip <> "127.0.0.1") ->
   outcome r = Done tt /\ final r = st).
Proof.
  intros _ r.
  assert (Hcases :
    (exists p, p ∈ ports /\ connect_ex H "127.0.0.1" p = 0) \/
    (forall p, p ∈ ports -> connect_ex H "127.0.0.1" p <> 0)).
  { clear r. induction ports as [|q ports IH]; [right; intros p Hp; by apply elem_of_nil in Hp|].
    destruct (decide (connect_ex H "127.0.0.1" q = 0)) as [Hq|Hq].
    - left. exists q. split; [by left|done].
    - destruct IH as [(p & Hp & Hz)|Hfree].
      + left. exists p. split; [by right|done].
      + right. intros p [->|Hp]%elem_of_cons; auto. }
  split; [intros port st'; by rewrite is_port_open_run|].
  destruct Hcases as [Hblocked|Hfree].
  - destruct (check_ports_blocked H ports st Hblocked)
      as (before & p & after & Hports & Hp & Hrun).
    assert (Hpin : p ∈ ports) by (rewrite Hports; apply elem_of_app; right; left).
    subst r. rewrite Hrun. cbn [outcome final trace]. split; [|split; [|split]].
    + apply Forall_app. split.
      * apply Forall_forall. intros e (q & -> & Hq)%list_elem_of_fmap.
        left. exists q. split; [|done]. rewrite Hports.
        apply elem_of_app in Hq as [Hq|Hq%list_elem_of_singleton]; apply elem_of_app;
          [by left|right; subst q; left].
      * apply Forall_singleton. right. by exists p.
    + split; [by intros _|done].
    + split; [done|]. intros Hall. by destruct (Hall p Hpin).
    + intros Hall. exfalso. apply (connect_ex_refused H "127.0.0.1" p); [|done].
      intros a Ha. by apply (Hall a p).
  - subst r. rewrite (check_ports_free H ports st Hfree). cbn [outcome final trace].
    split; [|split; [|split]].
    + apply Forall_forall. intros e (q & -> & Hq)%list_elem_of_fmap.
      left. by exists q.
    + split; [done|]. intros (p & Hp & Hz). by destruct (Hfree p Hp).
    + done.
    + done.
Qed.

Lemma port_check_probes_loopback_only_witness :
  let r := check_ports Example.lan_host
             [8332; 18332; 8432; 18432; 4000; 14000; 8097; 18097; 8098; 18098] Example.fresh in
  (Addr "192.168.1.5", 8332) ∈ listeners Example.lan_host /\
  outcome r = Done tt /\ final r = Example.fresh.
Proof.
  pose proof (port_check_probes_loopback_only Example.lan_host "base"
                [8332; 18332; 8432; 18432; 4000; 14000; 8097; 18097; 8098; 18098]
                Example.fresh) as W.
  destruct W as (_ & _ & _ & _ & W); [reflexivity|].
  split; [by left|].
  apply W. intros a p _ Ha.
  apply list_elem_of_singleton in Ha. inversion Ha; subst.
  by exists "192.168.1.5".
Defined.

(** ** [install] on a host without settings *)

(** With a required port in use, the installation stops at the port
    check, after the settings were written. *)
Lemma install_blocked lib H d np cfg br ssh m nb st env ports :
  outcome (setup_env H st) = Done env ->
  choices_ok (install cfg br ssh m nb) = true ->
  settings_file (fs st) = None ->
  Py.dict_get HOST_PORTS_USED cfg = Some ports ->
  (exists p, p ∈ ports /\ connect_ex H "127.0.0.1" p = 0) ->
  exists before p after,
    ports = before ++ p :: after /\
    connect_ex H "127.0.0.1" p = 0 /\
    main lib H (mkArgs d np (install cfg br ssh m nb)) st =
    mkResult (SysExit 1)
      (session_state H (mkSettings br cfg) (install cfg br ssh m nb)
                     (settings_written (mkSettings br cfg) st))
      (trace (setup_env H st) ++ WriteConfig (mkSettings br cfg) ::
       map (ConnectEx "127.0.0.1") (before ++ [p]) ++ [Print (port_in_use_message p)]).
Proof.
  intros Hs Hc Hcfg Hports Hopen.
  rewrite (main_install_fresh lib H d np cfg br ssh m nb st env) by done.
  set (st1 := session_state _ _ _ _).
  destruct (check_ports_blocked H ports st1 Hopen) as (before & p & after & Hsplit & Hp & Hrun).
  exists before, p, after. split; [done|]. split; [done|].
  cbv zeta. unfold dispatch, do_install. rewrite Hports.
  rewrite (bind_run _ _ st1 tt st1 []) by done.
  by rewrite (bind_run_exit _ _ _ _ _ _ Hrun).
Qed.

(** C2 (what the code does at the failing input and at every other
    blocked installation): with a required port in use, [install] on a
    host without settings exits with status 1 and leaves the settings
    file it wrote before the port check behind. *)
Theorem blocked_install_leaves_settings lib H d np cfg br ssh m nb st env ports :
  settings_file (fs st) = None ->
  outcome (setup_env H st) = Done env ->
  choices_ok (install cfg br ssh m nb) = true ->
  Py.dict_get HOST_PORTS_USED cfg = Some ports ->
  (exists p, p ∈ ports /\ connect_ex H "127.0.0.1" p = 0) ->
  let r := main lib H (mkArgs d np (install cfg br ssh m nb)) st in
  outcome r = SysExit 1 /\
  settings_file (fs (final r)) = Some (mkSettings br cfg) /\
  settings_file (fs (final r)) <> settings_file (fs st) /\
  In (WriteConfig (mkSettings br cfg)) (trace r).
Proof.
  intros Hcfg Hs Hc Hports Hopen r. subst r.
  destruct (install_blocked lib H d np cfg br ssh m nb st env ports)
    as (before & p & after & _ & _ & ->); try done.
  cbn [outcome final trace session_state fs settings_written with_fs set_settings settings_file].
  rewrite Hcfg. split; [done|]. split; [done|]. split; [done|].
  apply in_or_app. right. by left.
Qed.

Lemma blocked_install_leaves_settings_witness :
  let r := main Example.lib Example.host
                (mkArgs false false (install "base" "master" false "127.0.0.1" false))
                Example.fresh in
  settings_file (fs Example.fresh) = None /\
  outcome r = SysExit 1 /\
  settings_file (fs (final r)) = Some (mkSettings "master" "base").
Proof.
  pose proof (blocked_install_leaves_settings Example.lib Example.host false false
                "base" "master" false "127.0.0.1" false Example.fresh Example.env
                [8332; 18332; 8432; 18432; 4000; 14000; 8097; 18097; 8098; 18098]) as W.
  destruct W as (Ho & Hf & _ & _).
  - reflexivity.
  - reflexivity.
  - reflexivity.
  - reflexivity.
  - exists 8332. split; [by left|reflexivity].
  - split; [reflexivity|]. split; [exact Ho | exact Hf].
Defined.



(** ** [update]: validation of the service list *)

Lemma validate_services_rejects services st :
  services <> [EmptyString] ->
  Exists (fun s => s ∉ UPDATE_CHOICES) services ->
  exists s, s ∈ services /\ (s ∉ UPDATE_CHOICES) /\
    validate_services services st =
    mkResult (SysExit 1) st [Print ("Invalid service: " +:+ s)].
Proof.
  intros Hne Hbad. unfold validate_services.
  rewrite bool_decide_eq_true_2 by done. clear Hne.
  induction Hbad as [s l Hs|s l Hl IH].
  - exists s. split; [by left|]. split; [done|].
    cbn [for_each]. rewrite (bool_decide_eq_false_2 (s ∈ UPDATE_CHOICES)) by done.
    by rewrite (bind_run_exit _ _ st 1 st [Print ("Invalid service: " +:+ s)]).
  - destruct (decide (s ∈ UPDATE_CHOICES)) as [Hs|Hs].
    + destruct IH as (s' & Hin & Hbad & Hrun).
      exists s'. split; [by right|]. split; [done|].
      cbn [for_each]. rewrite (bool_decide_eq_true_2 (s ∈ UPDATE_CHOICES)) by done.
      rewrite (bind_run _ _ st tt st []) by done. by rewrite Hrun.
    + exists s. split; [by left|]. split; [done|].
      cbn [for_each]. rewrite (bool_decide_eq_false_2 (s ∈ UPDATE_CHOICES)) by done.
      by rewrite (bind_run_exit _ _ st 1 st [Print ("Invalid service: " +:+ s)]).
Qed.

Lemma validate_services_accepts services st :
  Forall (fun s => s ∈ UPDATE_CHOICES) services ->
  validate_services services st = mkResult (Done tt) st [].
Proof.
  intros Hok. unfold validate_services. case_bool_decide as Hne; [|done]. clear Hne.
  induction Hok as [|s l Hs _ IH]; [done|].
  cbn [for_each]. rewrite (bool_decide_eq_true_2 (s ∈ UPDATE_CHOICES)) by done.
  rewrite (bind_run _ _ st tt st []) by done. by rewrite IH.
Qed.

(** C3 (amended): an explicit service list, other than the list of the
    single empty name, that holds a name outside [UPDATE_CHOICES] makes
    [update] end with exit status 1, whatever the host: nothing it did
    was a repository operation (branch read, pull, artifact cleanup) or
    a command of the container or orchestration engine, and the files
    are as they were. *)
Theorem update_rejects_invalid_service lib H d np nr services st :
  services <> [EmptyString] ->
  Exists (fun s => s ∉ UPDATE_CHOICES) services ->
  let r := main lib H (mkArgs d np (update nr services)) st in
  exit_status (outcome r) = 1 /\
  Forall (fun e => is_repo_operation e = false /\ is_container_engine e = false) (trace r) /\
  fs (final r) = fs st.
Proof.
  intros Hne Hbad r. subst r.
  assert (Hsetup : Forall (fun e => is_repo_operation e = false /\ is_container_engine e = false)
                          (trace (setup_env H st))).
  { apply setup_env_Forall. unfold setup_events. repeat constructor. }
  destruct (setup_env_outcome H st) as [(env & He)|Hfail].
  - destruct (settings_file (fs st)) as [cfg|] eqn:Hcfg.
    + rewrite (main_installed lib H d np _ st env cfg) by done.
      destruct (validate_services_rejects services
                  (session_state H cfg (update nr services) st) Hne Hbad)
        as (s & _ & _ & Hrun).
      cbv zeta. unfold dispatch, do_update.
      rewrite (bind_run_exit _ _ _ _ _ _ Hrun).
      cbn [outcome final trace exit_status session_state fs].
      split; [done|]. split; [|done].
      apply Forall_app. split; [done|]. by repeat constructor.
    + rewrite (main_not_installed lib H d np _ st env) by done.
      cbn [outcome final trace exit_status].
      split; [done|]. split; [|done].
      apply Forall_app. split; [done|]. by repeat constructor.
  - destruct (main_setup_failed lib H (mkArgs d np (update nr services)) st)
      as (Hx & -> & ->).
    + intros env He. destruct Hfail as [Hf|(e & Hf)]; congruence.
    + done.
Qed.

Lemma update_rejects_invalid_service_witness :
  let r := main Example.lib Example.host
                (mkArgs false false (update false ["counterparty"; "bitcoin"]))
                Example.installed in
  exit_status (outcome r) = 1 /\
  Forall (fun e => is_repo_operation e = false /\ is_container_engine e = false) (trace r) /\
  fs (final r) = fs Example.installed.
Proof.
  apply (update_rejects_invalid_service Example.lib Example.host false false false
           ["counterparty"; "bitcoin"] Example.installed).
  - discriminate.
  - apply Exists_cons_tl, Exists_cons_hd.
    intros Hin. vm_compute in Hin.
    repeat (apply elem_of_cons in Hin as [Hin|Hin]; [discriminate|]).
    by apply elem_of_nil in Hin.
Defined.

(** C3 as stated fails for the explicit list of the single empty name
    ([btc update '']): the empty name is outside [UPDATE_CHOICES], the
    validation is skipped, and the orchestration engine is asked to
    restart. *)
Lemma update_accepts_empty_name :
  let r := main Example.lib Example.host
                (mkArgs false false (update false [EmptyString])) Example.installed in
  (EmptyString ∉ UPDATE_CHOICES) /\
  outcome r = Done tt /\
  trace r =
    trace (setup_env Example.host Example.installed) ++
    [ System "sudo -E docker-compose -f /opt/fednode/docker-compose.base.yml -p bitcoinprotocols restart " ] /\
  Exists (fun e => is_container_engine e = true) (trace r).
Proof.
  split.
  - intros Hin. vm_compute in Hin.
    repeat (apply elem_of_cons in Hin as [Hin|Hin]; [discriminate|]).
    by apply elem_of_nil in Hin.
  - split; [vm_compute; reflexivity|]. split; [vm_compute; reflexivity|].
    vm_compute. do 2 apply Exists_cons_tl. by apply Exists_cons_hd.
Qed.

(** ** Config materialization *)

Lemma os_path_exists_false f p :
  os_path_exists f p = false -> files f !! p = None /\ p ∉ dirs f.
Proof.
  unfold os_path_exists. intros [Hf Hd]%orb_false_iff.
  apply bool_decide_eq_false in Hf, Hd. split; [|done].
  by apply not_elem_of_dom.
Qed.

Lemma os_path_exists_file f p x : files f !! p = Some x -> os_path_exists f p = true.
Proof.
  intros Hx. unfold os_path_exists. apply orb_true_iff. left.
  apply bool_decide_eq_true. by apply elem_of_dom.
Qed.

(** One template: nothing when the active file is there, a copy of the
    template (owned like it, except on Windows) otherwise. *)
Lemma materialize_config_run H env t st :
  let a := active_of t in
  let generating := Print ("Generating config from defaults at " +:+ a +:+ " ...") in
  materialize_config H env t st =
  if os_path_exists (fs st) a then mkResult (Done tt) st []
  else match files (fs st) !! t with
       | None => mkResult (Uncaught "IsADirectoryError") st [generating]
       | Some x =>
           if IS_WINDOWS env then
             mkResult (Done tt)
               (with_fs (set_file a (mkFile (content x) (mtime x) (geteuid H) (getegid H))) st)
               [generating; Copy2 t a]
           else
             mkResult (Done tt)
               (with_fs (set_file a (mkFile (content x) (mtime x) (uid x) (gid x))) st)
               [generating; Copy2 t a; Chown a (uid x) (gid x)]
       end.
Proof.
  intros a generating. unfold materialize_config. fold (active_of t). fold a.
  rewrite (bind_run _ _ st st st []) by done.
  destruct (os_path_exists (fs st) a) eqn:Hex; [done|].
  cbn [negb app]. unfold print.
  rewrite (bind_run _ _ st tt st [generating]) by done.
  destruct (files (fs st) !! t) as [x|] eqn:Ht.
  - assert (Hne : a <> t).
    { intros ->. by rewrite (os_path_exists_file _ _ _ Ht) in Hex. }
    set (st1 := with_fs (set_file a (mkFile (content x) (mtime x) (geteuid H) (getegid H))) st).
    assert (Hcopy : copy2 H t a st = mkResult (Done tt) st1 [Copy2 t a]).
    { unfold copy2. rewrite (bind_run _ _ st st st []) by done. by rewrite Ht. }
    rewrite (bind_run _ _ _ _ _ _ Hcopy).
    rewrite (bind_run _ _ st1 st1 st1 []) by done.
    assert (Ht1 : files (fs st1) !! t = Some x).
    { subst st1. cbn [with_fs fs set_file files]. by rewrite lookup_insert_ne. }
    rewrite Ht1. destruct (IS_WINDOWS env); cbn [negb]; [done|].
    unfold chown. rewrite (bind_run _ _ st1 st1 st1 []) by done.
    assert (Ha1 : files (fs st1) !! a =
                  Some (mkFile (content x) (mtime x) (geteuid H) (getegid H))).
    { subst st1. cbn [with_fs fs set_file files]. by rewrite lookup_insert_eq. }
    rewrite Ha1. unfold emit, modify_fs, bind. cbn [content mtime app].
    f_equal. subst st1. unfold with_fs, set_file. cbn [fs files settings_file dirs symlinks environ DOCKER_CONFIG_PATH].
    by rewrite insert_insert_eq.
  - assert (Hcopy : copy2 H t a st = mkResult (Uncaught "IsADirectoryError") st []).
    { unfold copy2. rewrite (bind_run _ _ st st st []) by done. by rewrite Ht. }
    by rewrite (bind_run_uncaught _ _ _ _ _ _ Hcopy).
Qed.

Lemma keeps_files_refl st : keeps_files st st.
Proof. by repeat split. Qed.

Lemma keeps_files_trans st1 st2 st3 :
  keeps_files st1 st2 -> keeps_files st2 st3 -> keeps_files st1 st3.
Proof.
  intros (Hf & Hs & Hd & Hl & He & Hp) (Hf' & Hs' & Hd' & Hl' & He' & Hp').
  repeat split; try congruence. by transitivity (files (fs st2)).
Qed.

Lemma os_path_exists_mono f f' p :
  files f ⊆ files f' -> dirs f' = dirs f ->
  os_path_exists f p = true -> os_path_exists f' p = true.
Proof.
  intros Hf Hd Hex. unfold os_path_exists in *. rewrite Hd.
  apply orb_true_iff in Hex as [Hex|Hex]; apply orb_true_iff; [left|by right].
  apply bool_decide_eq_true in Hex. apply bool_decide_eq_true.
  apply elem_of_dom in Hex as [x Hx]. apply elem_of_dom. exists x.
  by eapply lookup_weaken.
Qed.

Lemma keeps_files_exists st st' p :
  keeps_files st st' -> os_path_exists (fs st) p = true -> os_path_exists (fs st') p = true.
Proof. intros (Hf & _ & Hd & _). by apply os_path_exists_mono. Qed.

Lemma keeps_files_set_file st a x :
  os_path_exists (fs st) a = false -> keeps_files st (with_fs (set_file a x) st).
Proof.
  intros [Hnone _]%os_path_exists_false. repeat split.
  cbn [with_fs fs set_file files]. by apply insert_subseteq.
Qed.

Lemma materialize_config_keeps H env t st :
  keeps_files st (final (materialize_config H env t st)).
Proof.
  rewrite materialize_config_run. cbv zeta.
  destruct (os_path_exists (fs st) _) eqn:Hex; [apply keeps_files_refl|].
  destruct (files (fs st) !! t); [|apply keeps_files_refl].
  destruct (IS_WINDOWS env); by apply keeps_files_set_file.
Qed.

Lemma for_each_cons {A} (x : A) l body st :
  for_each (x :: l) body st = bind (body x) (fun _ => for_each l body) st.
Proof. reflexivity. Qed.

(** The three ways a step of a loop can end. *)
Lemma step_cases (m : Run unit) st :
  (m st = mkResult (Done tt) (final (m st)) (trace (m st))) \/
  (exists c, m st = mkResult (SysExit c) (final (m st)) (trace (m st))) \/
  (exists e, m st = mkResult (Uncaught e) (final (m st)) (trace (m st))).
Proof.
  destruct (m st) as [[[]|c|e] st1 tr1]; cbn [final trace]; eauto.
Qed.

Lemma materialize_loop_keeps H env l st :
  keeps_files st (final (for_each l (materialize_config H env) st)).
Proof.
  revert st. induction l as [|t l IH]; intros st; [apply keeps_files_refl|].
  rewrite for_each_cons.
  pose proof (materialize_config_keeps H env t st) as Hstep.
  destruct (step_cases (materialize_config H env t) st) as [Hr|[(c & Hr)|(e & Hr)]].
  - rewrite (bind_run _ _ _ _ _ _ Hr). cbn [final].
    eapply keeps_files_trans; [exact Hstep|apply IH].
  - by rewrite (bind_run_exit _ _ _ _ _ _ Hr).
  - by rewrite (bind_run_uncaught _ _ _ _ _ _ Hr).
Qed.

Lemma glob_defaults_exist H f t : t ∈ glob_defaults H f -> os_path_exists f t = true.
Proof.
  unfold glob_defaults, all_paths. intros Ht%list_elem_of_In.
  apply filter_In in Ht as [Ht%list_elem_of_In _].
  apply elem_of_elements, elem_of_union in Ht as [Ht|Ht];
    unfold os_path_exists; apply orb_true_iff; [left|right]; by apply bool_decide_eq_true.
Qed.

Lemma materialize_loop_created H env f0 templates l st :
  (forall t, t ∈ templates -> os_path_exists f0 t = true) ->
  (forall t, t ∈ l -> t ∈ templates) ->
  files f0 ⊆ files (fs st) ->
  dirs (fs st) = dirs f0 ->
  created_from f0 templates st ->
  let r := for_each l (materialize_config H env) st in
  created_from f0 templates (final r) /\
  Forall (materialization_event f0 templates) (trace r) /\
  (outcome r = Done tt ->
   forall t, t ∈ l -> os_path_exists (fs (final r)) (active_of t) = true).
Proof.
  intros Htpl. revert st. induction l as [|t l IH]; intros st Hl Hsub Hdirs Hcr r.
  { subst r. cbn. split; [done|]. split; [done|]. intros _ t Ht. by apply elem_of_nil in Ht. }
  subst r. rewrite for_each_cons.
  assert (Ht : t ∈ templates) by (apply Hl; by left).
  assert (Hl' : forall t', t' ∈ l -> t' ∈ templates) by (intros t' Ht'; apply Hl; by right).
  pose proof (materialize_config_run H env t st) as Hrun. cbv zeta in Hrun.
  pose proof (materialize_loop_keeps H env l) as Hkeep.
  destruct (os_path_exists (fs st) (active_of t)) eqn:Hex.
  - (* the active file is there: nothing happens *)
    rewrite (bind_run _ _ _ _ _ _ Hrun). cbn [app outcome final trace].
    destruct (IH st Hl' Hsub Hdirs Hcr) as (Hcr' & Hev & Hall).
    split; [done|]. split; [done|].
    intros Hdone t' [->|Ht']%elem_of_cons; [|by apply Hall].
    by apply (keeps_files_exists st).
  - assert (Hex0 : os_path_exists f0 (active_of t) = false).
    { destruct (os_path_exists f0 (active_of t)) eqn:E; [|done].
      by rewrite (os_path_exists_mono f0 (fs st) _ Hsub Hdirs E) in Hex. }
    destruct (files (fs st) !! t) as [x|] eqn:Hx.
    + (* the template is copied *)
      assert (Hx0 : files f0 !! t = Some x).
      { destruct (files f0 !! t) as [x0|] eqn:E.
        - by rewrite (lookup_weaken _ _ _ _ E Hsub) in Hx.
        - destruct (Hcr t x E Hx) as (_ & _ & _ & _ & Habs & _).
          by rewrite (Htpl t Ht) in Habs. }
      pose proof (os_path_exists_false _ _ Hex) as [Hnone _].
      set (new := if IS_WINDOWS env
                  then mkFile (content x) (mtime x) (geteuid H) (getegid H)
                  else mkFile (content x) (mtime x) (uid x) (gid x)).
      set (st1 := with_fs (set_file (active_of t) new) st).
      assert (Hstep : exists tr,
                 materialize_config H env t st = mkResult (Done tt) st1 tr /\
                 Forall (materialization_event f0 templates) tr).
      { subst st1 new. destruct (IS_WINDOWS env); eexists; (split; [exact Hrun|]);
          repeat (apply Forall_cons; split; [by cbn|]); apply Forall_nil_2. }
      destruct Hstep as (tr & Hstep & Htr).
      rewrite (bind_run _ _ _ _ _ _ Hstep).
      assert (Hsub1 : files f0 ⊆ files (fs st1)).
      { subst st1. cbn [with_fs fs set_file files].
        by apply insert_subseteq_r; [apply os_path_exists_false in Hex0 as []|]. }
      assert (Hcr1 : created_from f0 templates st1).
      { intros p y Hp0 Hp1. subst st1. cbn [with_fs fs set_file files] in Hp1.
        destruct (decide (active_of t = p)) as [<-|Hne].
        - rewrite lookup_insert_eq in Hp1. injection Hp1 as <-.
          exists t, x. repeat split; try done; subst new; by destruct (IS_WINDOWS env).
        - rewrite lookup_insert_ne in Hp1 by done. by apply Hcr. }
      destruct (IH st1 Hl' Hsub1 Hdirs Hcr1) as (Hcr' & Hev & Hall).
      cbn [outcome final trace].
      split; [done|]. split; [by apply Forall_app|].
      intros Hdone t' [->|Ht']%elem_of_cons; [|by apply Hall].
      apply (keeps_files_exists st1); [apply Hkeep|].
      apply (os_path_exists_file _ _ new). subst st1.
      cbn [with_fs fs set_file files]. apply lookup_insert_eq.
    + (* the template is a directory: the copy fails *)
      rewrite (bind_run_uncaught _ _ _ _ _ _ Hrun). cbn [outcome final trace].
      split; [done|]. split; [by repeat constructor|]. done.
Qed.

(** C7: the config materialization of [install] never overwrites or
    modifies a file that exists: every file of the initial file system
    is there unchanged afterwards, settings, directories and links are
    untouched; a file that appears is the active counterpart of a
    template [*.default] found under the config tree, was absent, and
    holds a copy of that template; and when the run comes to its end
    every template found has its active counterpart. *)
Theorem materialize_never_overwrites H env st :
  let r := materialize_configs H env st in
  let templates := glob_defaults H (fs st) in
  (forall p x, files (fs st) !! p = Some x -> files (fs (final r)) !! p = Some x) /\
  created_from (fs st) templates (final r) /\
  Forall (materialization_event (fs st) templates) (trace r) /\
  keeps_files st (final r) /\
  (outcome r = Done tt ->
   forall t, t ∈ templates -> os_path_exists (fs (final r)) (active_of t) = true).
Proof.
  intros r templates. subst r. unfold materialize_configs.
  rewrite (bind_run _ _ st st st []) by done. fold templates.
  cbn [outcome final trace app].
  pose proof (materialize_loop_keeps H env templates st) as Hkeep.
  destruct (materialize_loop_created H env (fs st) templates templates st)
    as (Hcr & Hev & Hall); try done.
  { intros t Ht. by apply (glob_defaults_exist H). }
  { intros p y Hp0 Hp1. congruence. }
  split; [|done].
  intros p x Hp. destruct Hkeep as (Hsub & _). by eapply lookup_weaken.
Qed.

Example materialize_keeps_edited_config :
  let r := materialize_configs Example.host Example.env ExampleFiles.configured in
  files (fs (final r)) !! "/opt/fednode/config/bitcoin/bitcoin.conf"
    = Some ExampleFiles.bitcoin_edited /\
  files (fs (final r)) !! "/opt/fednode/config/counterparty/server.conf"
    = Some ExampleFiles.server_default /\
  trace r =
    [ Print "Generating config from defaults at /opt/fednode/config/counterparty/server.conf ...";
      Copy2 "/opt/fednode/config/counterparty/server.conf.default"
            "/opt/fednode/config/counterparty/server.conf";
      Chown "/opt/fednode/config/counterparty/server.conf" 1000 1000 ].
Proof. vm_compute. done. Qed.

(** ** [configcheck] *)







(** Whatever is there, a pair only prints. *)
Lemma config_check_pair_frame lib H spec st :
  final (config_check_pair lib H spec st) = st /\
  Forall (fun e => is_fs_write e = false) (trace (config_check_pair lib H spec st)).
Proof.
  destruct spec as [[dirname fromfile] tofile]. unfold config_check_pair, print.
  rewrite (bind_run _ _ st st st []) by done. cbn [final trace app].
  repeat (match goal with
          | |- context [if ?b then _ else _] => destruct b
          | |- context [match ?o with Some _ => _ | None => _ end] => destruct o
          end; cbn [negb]);
    try (split; [done|by repeat constructor]).
Qed.

Lemma for_each_frame {A} (P : Event -> Prop) (l : list A) (body : A -> Run unit) st :
  (forall x st', final (body x st') = st' /\ Forall P (trace (body x st'))) ->
  final (for_each l body st) = st /\ Forall P (trace (for_each l body st)).
Proof.
  intros Hbody. induction l as [|x l IH]; [by split|].
  rewrite for_each_cons. destruct (Hbody x st) as [Hf Ht].
  destruct (step_cases (body x) st) as [Hr|[(c & Hr)|(e & Hr)]]; rewrite Hf in Hr.
  - rewrite (bind_run _ _ _ _ _ _ Hr). cbn [final trace].
    destruct IH as [IHf IHt]. split; [done|]. by apply Forall_app.
  - by rewrite (bind_run_exit _ _ _ _ _ _ Hr).
  - by rewrite (bind_run_uncaught _ _ _ _ _ _ Hr).
Qed.

Lemma config_check_frame lib H build_config st :
  final (config_check lib H build_config st) = st /\
  Forall (fun e => is_fs_write e = false) (trace (config_check lib H build_config st)).
Proof.
  unfold config_check. destruct (Py.dict_get CONFIGCHECK_FILES build_config); [|by split].
  apply for_each_frame. intros spec st'. apply config_check_pair_frame.
Qed.





(** ** [update]: the pulls *)

Lemma append_assoc (a b c : string) : (a +:+ b) +:+ c = a +:+ (b +:+ c).
Proof.
  induction a as [|x a IH]; [done|].
  change (String x ((a +:+ b) +:+ c) = String x (a +:+ (b +:+ c))). by rewrite IH.
Qed.

Lemma append_nonempty_r (a b : string) : b <> EmptyString -> a +:+ b <> EmptyString.
Proof. by destruct a, b. Qed.

Lemma endswith_slash_src (a : string) : Py.endswith (a +:+ "src") "/" = false.
Proof.
  induction a as [|c a IH]; [done|].
  change (String c a +:+ "src") with (String c (a +:+ "src")).
  cbn [Py.endswith]. rewrite IH, orb_false_r.
  apply bool_decide_eq_false. intros [= _ Hnil].
  by apply (append_nonempty_r a "src") in Hnil.
Qed.

Lemma src_root_form H :
  Py.startswith (SCRIPTDIR H) "/" = true ->
  Py.startswith (src_root H) "/" = true /\
  Py.endswith (src_root H) "/" = false /\
  src_root H <> EmptyString.
Proof.
  intros Habs. unfold src_root, Py.path_join, Py.path_join2. cbn [foldl].
  change (Py.startswith "src" "/") with false. cbv iota.
  destruct (SCRIPTDIR H) as [|c s] eqn:HS; [done|].
  assert (Hc : c = "/"%char).
  { unfold Py.startswith in Habs. cbn [String.prefix] in Habs.
    by destruct (Ascii.ascii_dec "/" c). }
  subst c.
  assert (Hslash : Py.startswith (String "/" s) "/" = true).
  { unfold Py.startswith. cbn [String.prefix].
    destruct (Ascii.ascii_dec "/" "/"); [by destruct s|done]. }
  destruct (bool_decide (String "/" s = EmptyString) || Py.endswith (String "/" s) "/").
  - split; [by apply prefix_app|]. split; [apply endswith_slash_src|].
    by apply append_nonempty_r.
  - split; [by apply prefix_app|]. split; [|by apply append_nonempty_r].
    rewrite <- (append_assoc (String "/" s) "/" "src"). apply endswith_slash_src.
Qed.

(** A checkout directory given by a relative name. *)
Lemma repo_path_relative H n :
  Py.startswith (SCRIPTDIR H) "/" = true ->
  Py.startswith n "/" = false ->
  Py.path_join (SCRIPTDIR H) ["src"; n] = src_root H +:+ "/" +:+ n.
Proof.
  intros Habs Hn. destruct (src_root_form H Habs) as (_ & Hend & Hne).
  change (Py.path_join (SCRIPTDIR H) ["src"; n]) with (Py.path_join2 (src_root H) n).
  unfold Py.path_join2. rewrite Hn, Hend, orb_false_r.
  by rewrite bool_decide_eq_false_2.
Qed.

(** A checkout directory given by its absolute path, as [update] does
    for the two repositories of [counterparty]. *)
Lemma repo_path_absolute H n :
  Py.startswith (SCRIPTDIR H) "/" = true ->
  Py.path_join (SCRIPTDIR H) ["src"; src_root H +:+ "/" +:+ n] = src_root H +:+ "/" +:+ n.
Proof.
  intros Habs. destruct (src_root_form H Habs) as (Hstart & _ & _).
  change (Py.path_join (SCRIPTDIR H) ["src"; src_root H +:+ "/" +:+ n])
    with (Py.path_join2 (src_root H) (src_root H +:+ "/" +:+ n)).
  unfold Py.path_join2.
  assert (Hs : Py.startswith (src_root H +:+ "/" +:+ n) "/" = true).
  { unfold Py.startswith in *. by apply prefix_app. }
  by rewrite Hs.
Qed.

Lemma repo_paths_names H b :
  Py.startswith (SCRIPTDIR H) "/" = true ->
  b ∈ update_bases ->
  repo_paths H b = map (fun n => src_root H +:+ "/" +:+ n) (repo_names b).
Proof.
  intros Habs Hb. unfold repo_paths, repo_path, service_dirs, repo_names.
  case_bool_decide as Hc.
  - cbn [map]. fold (src_root H).
    assert (Hlib : Py.path_join (SCRIPTDIR H) ["src"; "counterparty-lib"]
                   = src_root H +:+ "/" +:+ "counterparty-lib")
      by (by apply repo_path_relative).
    assert (Hcli : Py.path_join (SCRIPTDIR H) ["src"; "counterparty-cli"]
                   = src_root H +:+ "/" +:+ "counterparty-cli")
      by (by apply repo_path_relative).
    rewrite Hlib, Hcli. by rewrite !repo_path_absolute.
  - cbn [map]. f_equal. apply repo_path_relative; [done|].
    unfold update_bases in Hb.
    repeat (apply elem_of_cons in Hb as [->|Hb]; [done|]).
    by apply elem_of_nil in Hb.
Qed.

(** *** Telling the actions of [update] apart *)

Lemma setup_env_env_ok H st env : outcome (setup_env H st) = Done env -> env_ok env.
Proof.
  unfold env_ok. setup_cases H; intros [= <-]; eauto.
Qed.

(** Peel equal heads off two concatenations, then compare what is
    left by its first characters. *)
Ltac peel_append H :=
  rewrite ?append_assoc in H;
  repeat (apply (inj (String.append _)) in H; rewrite ?append_assoc in H).

Lemma pull_event_inj H env n m :
  env_ok env ->
  n ∈ flat_map repo_names update_bases ->
  m ∈ flat_map repo_names update_bases ->
  pull_event H env (src_root H +:+ "/" +:+ n) = pull_event H env (src_root H +:+ "/" +:+ m) ->
  n = m.
Proof.
  intros Henv Hn Hm Heq. unfold pull_event, git_pull_cmd in Heq.
  injection Heq as Heq.
  assert (Hcmd : n +:+ "; git pull origin "
                   +:+ Py.strip (git_symbolic_ref_out H (src_root H +:+ "/" +:+ n))
                   +:+ "; cd " +:+ CURDIR H +:+ Py.dq =
                 m +:+ "; git pull origin "
                   +:+ Py.strip (git_symbolic_ref_out H (src_root H +:+ "/" +:+ m))
                   +:+ "; cd " +:+ CURDIR H +:+ Py.dq).
  { destruct Henv as [->|(user & ->)]; unfold git_cmdline in Heq;
      cbn [IS_WINDOWS negb SUDO_CMD fmt_user SESSION_USER] in Heq.
    - apply (f_equal (fun s => s +:+ Py.dq)) in Heq. by peel_append Heq.
    - by peel_append Heq. }
  clear Heq. vm_compute in Hn, Hm.
  repeat (apply elem_of_cons in Hn as [->|Hn]);
    try (by apply elem_of_nil in Hn);
    repeat (apply elem_of_cons in Hm as [->|Hm]);
    try (by apply elem_of_nil in Hm);
    try reflexivity;
    exfalso; cbv [String.append] in Hcmd; discriminate Hcmd.
Qed.

Lemma compose_not_pull H env path cmd p :
  env_ok env -> System (compose_cmdline env path cmd) <> pull_event H env p.
Proof.
  intros Henv Heq. unfold pull_event, compose_cmdline in Heq. injection Heq as Heq.
  destruct Henv as [->|(user & ->)]; unfold git_cmdline, git_pull_cmd in Heq;
    cbn [IS_WINDOWS negb SUDO_CMD fmt_user SESSION_USER] in Heq.
  - cbv [String.append] in Heq. discriminate Heq.
  - apply (inj (String.append _)) in Heq. cbv [String.append] in Heq. discriminate Heq.
Qed.

Lemma rm_rf_not_pull H env path p :
  env_ok env -> System (rm_rf_cmdline env path) <> pull_event H env p.
Proof.
  intros Henv Heq. unfold pull_event, rm_rf_cmdline in Heq. injection Heq as Heq.
  destruct Henv as [->|(user & ->)]; unfold git_cmdline, git_pull_cmd in Heq;
    cbn [IS_WINDOWS negb SUDO_CMD fmt_user SESSION_USER] in Heq.
  - cbv [String.append] in Heq. discriminate Heq.
  - apply (inj (String.append _)) in Heq. cbv [String.append] in Heq. discriminate Heq.
Qed.

Lemma setup_not_pull H env p e :
  env_ok env -> e ∈ setup_events -> e <> pull_event H env p.
Proof.
  intros Henv He Heq. subst e. unfold setup_events, pull_event in He.
  repeat (apply elem_of_cons in He as [He|He]; [try discriminate He|]);
    [|by apply elem_of_nil in He].
  injection He as He.
  destruct Henv as [->|(user & ->)]; unfold git_cmdline, git_pull_cmd in He;
    cbn [IS_WINDOWS negb SUDO_CMD fmt_user SESSION_USER] in He;
    cbv [String.append] in He; discriminate He.
Qed.

(** *** Counting *)

Lemma occurrences_app e tr1 tr2 :
  occurrences e (tr1 ++ tr2) = (occurrences e tr1 + occurrences e tr2)%nat.
Proof. unfold occurrences. by rewrite List.filter_app, length_app. Qed.

Lemma occurrences_cons_eq e tr : occurrences e (e :: tr) = S (occurrences e tr).
Proof. unfold occurrences. cbn [List.filter]. by rewrite bool_decide_eq_true_2. Qed.

Lemma occurrences_cons_ne e e' tr : e' <> e -> occurrences e (e' :: tr) = occurrences e tr.
Proof. intros Hne. unfold occurrences. cbn [List.filter]. by rewrite bool_decide_eq_false_2. Qed.

Lemma occurrences_absent e tr : Forall (fun e' => e' <> e) tr -> occurrences e tr = 0%nat.
Proof.
  induction 1 as [|e' tr Hne _ IH]; [done|]. by rewrite occurrences_cons_ne.
Qed.

(** *** Runs that only remove files *)

Lemma shrinks_refl st : shrinks st st.
Proof. by repeat split. Qed.

Lemma shrinks_trans st1 st2 st3 : shrinks st1 st2 -> shrinks st2 st3 -> shrinks st1 st3.
Proof.
  intros (Hp & He & Hd) (Hp' & He' & Hd'). repeat split; [|congruence..].
  intros p Hex. by apply Hp, Hp'.
Qed.

Lemma shrinks_remove_tree root st : shrinks st (with_fs (remove_tree root) st).
Proof.
  repeat split. intros p. unfold os_path_exists, with_fs, remove_tree.
  cbn [fs files dirs].
  intros [Hf|Hd]%orb_true_iff; apply orb_true_iff; [left|right].
  - apply bool_decide_eq_true in Hf. apply bool_decide_eq_true.
    apply elem_of_dom in Hf as [x Hx]. apply elem_of_dom. exists x.
    by apply map_lookup_filter_Some in Hx as [Hx _].
  - apply bool_decide_eq_true in Hd. apply bool_decide_eq_true.
    by apply elem_of_filter in Hd as [_ Hd].
Qed.

(** A loop whose steps are all related by a preorder and emit only
    actions with a given property. *)
Lemma for_each_invariant {A} (R : State -> State -> Prop) (P : Event -> Prop)
      (l : list A) (body : A -> Run unit) st :
  (forall s, R s s) ->
  (forall s1 s2 s3, R s1 s2 -> R s2 s3 -> R s1 s3) ->
  (forall x st', R st' (final (body x st')) /\ Forall P (trace (body x st'))) ->
  R st (final (for_each l body st)) /\ Forall P (trace (for_each l body st)).
Proof.
  intros Hrefl Htrans Hbody. revert st.
  induction l as [|x l IH]; intros st; [by split|].
  rewrite for_each_cons. destruct (Hbody x st) as [Hf Ht].
  destruct (step_cases (body x) st) as [Hr|[(c & Hr)|(e & Hr)]].
  - rewrite (bind_run _ _ _ _ _ _ Hr). cbn [final trace].
    destruct (IH (final (body x st))) as [IHf IHt].
    split; [by eapply Htrans|]. by apply Forall_app.
  - by rewrite (bind_run_exit _ _ _ _ _ _ Hr).
  - by rewrite (bind_run_uncaught _ _ _ _ _ _ Hr).
Qed.

Lemma remove_egg_summary H env path st :
  env_ok env ->
  shrinks st (final (remove_egg env path st)) /\
  Forall (fun e => forall p, e <> pull_event H env p) (trace (remove_egg env path st)).
Proof.
  intros Henv. unfold remove_egg, print, os_system.
  rewrite (bind_run _ _ st tt st [Print ("Removing egg path " +:+ path)]) by done.
  cbn [final trace]. destruct (IS_WINDOWS env); cbn [negb].
  - rewrite (bind_run _ _ st st st []) by done.
    destruct (bool_decide (path ∈ dirs (fs st))).
    + rewrite (bind_run _ _ st tt st [Rmtree path]) by done. cbn [final trace].
      split; [apply shrinks_remove_tree|]. by repeat constructor.
    + split; [apply shrinks_refl|]. by repeat constructor.
  - split; [apply shrinks_refl|].
    repeat constructor; [done|]. intros p. by apply rm_rf_not_pull.
Qed.

Lemma run_compose_cmd_summary H env cmd st :
  env_ok env ->
  final (run_compose_cmd env cmd st) = st /\
  Forall (fun e => forall p, e <> pull_event H env p) (trace (run_compose_cmd env cmd st)).
Proof.
  intros Henv. unfold run_compose_cmd, os_system.
  rewrite (bind_run _ _ st st st []) by done. cbn [final trace].
  destruct (DOCKER_CONFIG_PATH st) as [path|]; [|by split].
  destruct (bool_decide (path = EmptyString)); [by split|].
  destruct (environ st !! "BTC_RELEASE_TAG") as [tag|]; [|by split].
  destruct (bool_decide (tag = EmptyString)); [by split|].
  split; [done|]. repeat constructor. intros p. by apply compose_not_pull.
Qed.

(** *** One checkout directory *)

Lemma egg_cleanup_summary H env (b : string) q st :
  env_ok env ->
  let eggs : Run unit :=
    if bool_decide (b ∈ ["counterparty"; "armory-utxsvr"]) then
      bind get (fun st' => for_each (glob_egg_info (fs st') q) (remove_egg env))
    else ret tt in
  shrinks st (final (eggs st)) /\
  Forall (fun e => forall p, e <> pull_event H env p) (trace (eggs st)).
Proof.
  intros Henv eggs. subst eggs. destruct (bool_decide _).
  - rewrite (bind_run _ _ st st st []) by done. cbn [final trace app].
    apply (for_each_invariant shrinks); [apply shrinks_refl|apply shrinks_trans|].
    intros path st'. by apply remove_egg_summary.
  - split; [apply shrinks_refl|done].
Qed.

Lemma update_service_dir_summary H env b sd st :
  env_ok env ->
  let q := repo_path H sd in
  let r := update_service_dir H env b sd st in
  shrinks st (final r) /\
  (forall p, pull_event H env p <> pull_event H env q ->
             occurrences (pull_event H env p) (trace r) = 0%nat) /\
  (occurrences (pull_event H env q) (trace r) <= 1)%nat /\
  (outcome r = Done tt -> os_path_exists (fs (final r)) q = true ->
   occurrences (pull_event H env q) (trace r) = 1%nat).
Proof.
  intros Henv q r. subst r. unfold update_service_dir. fold (repo_path H sd). fold q.
  rewrite (bind_run _ _ st st st []) by done. cbn [app].
  destruct (os_path_exists (fs st) q) eqn:Hex; cbn [negb]; cycle 1.
  { change (ret tt st) with (mkResult (Done tt) st []).
    cbn [outcome final trace]. split; [apply shrinks_refl|].
    split; [done|]. split; [cbn; lia|]. intros _ Hex'. congruence. }
  assert (Hco : check_output (symbolic_ref_cmd H q) (Some (git_symbolic_ref_out H q)) st
                = mkResult (Done (git_symbolic_ref_out H q)) st
                           [CheckOutput (symbolic_ref_cmd H q)]) by done.
  rewrite (bind_run _ _ _ _ _ _ Hco).
  destruct (bool_decide (Py.strip (git_symbolic_ref_out H q) = EmptyString)).
  { match goal with
    | |- context [bind (print ?msg) ?k st] =>
        change (bind (print msg) k st) with (mkResult (@SysExit unit 1) st [Print msg])
    end.
    cbn [outcome final trace]. split; [apply shrinks_refl|].
    split; [intros p _; by apply occurrences_absent; repeat constructor|].
    split; [|done]. rewrite occurrences_absent; [lia|]. by repeat constructor. }
  unfold run_git, os_system.
  change (System (git_cmdline env (git_pull_cmd H q (Py.strip (git_symbolic_ref_out H q)))))
    with (pull_event H env q).
  rewrite (bind_run _ _ st tt st [pull_event H env q]) by done.
  destruct (egg_cleanup_summary H env b q st Henv) as [Hshr Hegg].
  cbv zeta in Hshr, Hegg.
  match goal with
  | |- context [final (?m st)] => set (eggs := m st) in *
  end.
  cbn [outcome final trace].
  assert (Hnone : forall p, occurrences (pull_event H env p) (trace eggs) = 0%nat).
  { intros p. apply occurrences_absent. eapply Forall_impl; [exact Hegg|].
    intros e He. apply He. }
  split; [done|]. split; [|split].
  - intros p Hne. rewrite !occurrences_app.
    rewrite (occurrences_absent _ [CheckOutput _]) by (by repeat constructor).
    rewrite Hnone. cbn [app]. rewrite occurrences_cons_ne by done. done.
  - rewrite !occurrences_app.
    rewrite (occurrences_absent _ [CheckOutput _]) by (by repeat constructor).
    rewrite Hnone. cbn [app]. rewrite occurrences_cons_eq. cbn. lia.
  - intros _ _. rewrite !occurrences_app.
    rewrite (occurrences_absent _ [CheckOutput _]) by (by repeat constructor).
    rewrite Hnone. cbn [app]. by rewrite occurrences_cons_eq.
Qed.

(** *** The directories of one base service *)

Lemma update_block_summary H env b sds st :
  env_ok env ->
  NoDup (map (fun sd => pull_event H env (repo_path H sd)) sds) ->
  let path := repo_path H in
  let r := for_each sds (update_service_dir H env b) st in
  shrinks st (final r) /\
  (forall p, (forall sd, sd ∈ sds -> pull_event H env p <> pull_event H env (path sd)) ->
             occurrences (pull_event H env p) (trace r) = 0%nat) /\
  (forall sd, sd ∈ sds -> (occurrences (pull_event H env (path sd)) (trace r) <= 1)%nat) /\
  (outcome r = Done tt ->
   forall sd, sd ∈ sds -> os_path_exists (fs (final r)) (path sd) = true ->
              occurrences (pull_event H env (path sd)) (trace r) = 1%nat).
Proof.
  intros Henv Hnd path. subst path. revert st.
  induction sds as [|sd sds IH]; intros st r.
  { subst r. cbn. split; [apply shrinks_refl|]. split; [done|].
    split; intros; by match goal with Hin : _ ∈ [] |- _ => apply elem_of_nil in Hin end. }
  apply NoDup_cons in Hnd as [Hfresh Hnd]. specialize (IH Hnd).
  assert (Hother : forall sd', sd' ∈ sds ->
            pull_event H env (repo_path H sd') <> pull_event H env (repo_path H sd)).
  { intros sd' Hin Heq. apply Hfresh. rewrite <- Heq.
    apply list_elem_of_In, in_map_iff. exists sd'. split; [done|]. by apply list_elem_of_In. }
  destruct (update_service_dir_summary H env b sd st Henv) as (S1 & S2 & S3 & S4).
  cbv zeta in S2, S3, S4.
  subst r. rewrite for_each_cons.
  destruct (step_cases (update_service_dir H env b sd) st) as [Hr|[(c & Hr)|(e & Hr)]].
  - rewrite (bind_run _ _ _ _ _ _ Hr).
    destruct (IH (final (update_service_dir H env b sd st))) as (I1 & I2 & I3 & I4).
    cbn [outcome final trace].
    split; [by eapply shrinks_trans|]. split; [|split].
    + intros p Hp. rewrite occurrences_app, S2, I2; [done| |].
      * intros sd' Hin. apply Hp. by right.
      * apply Hp. by left.
    + intros sd' [->|Hin]%elem_of_cons; rewrite occurrences_app.
      * rewrite I2; [lia|]. intros sd'' Hin Heq. by apply (Hother sd'').
      * rewrite S2 by (by apply Hother). by apply I3.
    + intros Hdone sd' [->|Hin]%elem_of_cons Hex; rewrite occurrences_app.
      * rewrite I2 by (intros sd'' Hin Heq; by apply (Hother sd'')).
        rewrite S4; [done| |].
        -- by rewrite Hr.
        -- destruct I1 as (I1 & _). by apply I1.
      * rewrite S2 by (by apply Hother). by apply I4.
  - rewrite (bind_run_exit _ _ _ _ _ _ Hr). cbn [outcome final trace].
    split; [done|]. split; [|split; [|done]].
    + intros p Hp. apply S2, Hp. by left.
    + intros sd' [->|Hin]%elem_of_cons; [done|]. rewrite S2 by (by apply Hother). lia.
  - rewrite (bind_run_uncaught _ _ _ _ _ _ Hr). cbn [outcome final trace].
    split; [done|]. split; [|split; [|done]].
    + intros p Hp. apply S2, Hp. by left.
    + intros sd' [->|Hin]%elem_of_cons; [done|]. rewrite S2 by (by apply Hother). lia.
Qed.

(** *** Distinct base services have distinct checkouts *)

Lemma repo_names_all b n :
  b ∈ update_bases -> n ∈ repo_names b -> n ∈ flat_map repo_names update_bases.
Proof.
  intros Hb Hn. apply list_elem_of_In, in_flat_map. exists b.
  split; by apply list_elem_of_In.
Qed.

Lemma repo_names_base b b' n :
  b ∈ update_bases -> b' ∈ update_bases -> n ∈ repo_names b -> n ∈ repo_names b' -> b = b'.
Proof.
  intros Hb Hb' Hn Hn'. unfold update_bases in Hb, Hb'.
  repeat (apply elem_of_cons in Hb as [->|Hb]); try (by apply elem_of_nil in Hb);
    repeat (apply elem_of_cons in Hb' as [->|Hb']); try (by apply elem_of_nil in Hb');
    try reflexivity;
    vm_compute in Hn, Hn';
    repeat (apply elem_of_cons in Hn as [->|Hn]); try (by apply elem_of_nil in Hn);
    repeat (apply elem_of_cons in Hn' as [Hn'|Hn']); try (by apply elem_of_nil in Hn');
    discriminate Hn'.
Qed.

Lemma repo_names_NoDup b : b ∈ update_bases -> NoDup (repo_names b).
Proof.
  intros Hb. unfold update_bases in Hb.
  repeat (apply elem_of_cons in Hb as [->|Hb]); try (by apply elem_of_nil in Hb);
    vm_compute; repeat constructor;
    rewrite ?elem_of_cons, ?elem_of_nil; intros Hx; repeat destruct Hx as [Hx|Hx]; done.
Qed.

Lemma pull_event_base H env b b' p q :
  Py.startswith (SCRIPTDIR H) "/" = true ->
  env_ok env ->
  b ∈ update_bases -> b' ∈ update_bases ->
  p ∈ repo_paths H b -> q ∈ repo_paths H b' ->
  pull_event H env p = pull_event H env q ->
  b = b' /\ p = q.
Proof.
  intros Habs Henv Hb Hb' Hp Hq Heq.
  rewrite repo_paths_names in Hp, Hq by done.
  apply list_elem_of_fmap in Hp as (n & -> & Hn).
  apply list_elem_of_fmap in Hq as (m & -> & Hm).
  assert (n = m) as <-.
  { apply (pull_event_inj H env);
      [done|by apply (repo_names_all b)|by apply (repo_names_all b')|done]. }
  split; [|done]. by apply (repo_names_base b b' n).
Qed.

Lemma repo_paths_NoDup H env b :
  Py.startswith (SCRIPTDIR H) "/" = true ->
  env_ok env ->
  b ∈ update_bases ->
  NoDup (map (fun sd => pull_event H env (repo_path H sd)) (service_dirs H b)).
Proof.
  intros Habs Henv Hb.
  assert (Hpaths : NoDup (repo_paths H b)).
  { rewrite repo_paths_names by done.
    apply (NoDup_fmap_2_strong (fun n => src_root H +:+ "/" +:+ n));
      [|by apply repo_names_NoDup].
    intros x y _ _ Hxy. by do 2 apply (inj (String.append _)) in Hxy. }
  rewrite <- (map_map (repo_path H) (pull_event H env)).
  apply (NoDup_fmap_2_strong (pull_event H env)); [|done].
  intros p q Hp Hq Heq.
  by destruct (pull_event_base H env b b p q).
Qed.

(** *** The loop over the services *)

Lemma run_cases {A} (m : Run A) st :
  (exists a, m st = mkResult (Done a) (final (m st)) (trace (m st))) \/
  (exists c, m st = mkResult (SysExit c) (final (m st)) (trace (m st))) \/
  (exists e, m st = mkResult (Uncaught e) (final (m st)) (trace (m st))).
Proof.
  destruct (m st) as [[a|c|e] st1 tr1]; cbn [final trace]; eauto.
Qed.

(** The restart that follows the update of a service. *)
Lemma restart_summary H env (nr : bool) cmd st :
  env_ok env ->
  let m : Run unit := if negb nr then run_compose_cmd env cmd else ret tt in
  final (m st) = st /\
  forall p, occurrences (pull_event H env p) (trace (m st)) = 0%nat.
Proof.
  intros Henv m. subst m. destruct nr; cbn [negb]; [by split|].
  destruct (run_compose_cmd_summary H env cmd st Henv) as [Hf Ht].
  split; [done|]. intros p. apply occurrences_absent.
  eapply Forall_impl; [exact Ht|]. intros e He. apply He.
Qed.

(** The source update of a service whose base was not updated yet. *)
Lemma update_source_summary H env b (ghu : list string) st :
  Py.startswith (SCRIPTDIR H) "/" = true ->
  env_ok env ->
  b ∈ update_bases ->
  let m : Run (list string) :=
    if negb (bool_decide (b ∈ ghu)) then
      bind (for_each (service_dirs H b) (update_service_dir H env b))
           (fun _ => ret (ghu ++ [b]))
    else ret ghu in
  let r := m st in
  shrinks st (final r) /\
  (forall g, outcome r = Done g -> g = if bool_decide (b ∈ ghu) then ghu else ghu ++ [b]) /\
  (forall b0 p, b0 ∈ update_bases -> p ∈ repo_paths H b0 ->
     (occurrences (pull_event H env p) (trace r)
      <= if bool_decide (b0 = b) && negb (bool_decide (b ∈ ghu)) then 1 else 0)%nat) /\
  (forall g p, outcome r = Done g -> b ∉ ghu -> p ∈ repo_paths H b ->
     os_path_exists (fs (final r)) p = true ->
     occurrences (pull_event H env p) (trace r) = 1%nat).
Proof.
  intros Habs Henv Hb m r. subst r m.
  destruct (bool_decide (b ∈ ghu)) eqn:Hin; cbn [negb].
  { apply bool_decide_eq_true in Hin.
    change (ret ghu st) with (mkResult (Done ghu) st []). cbn [outcome final trace].
    split; [apply shrinks_refl|]. split; [by intros g [= <-]|].
    split; [intros; rewrite andb_false_r; by cbn|done]. }
  apply bool_decide_eq_false in Hin.
  destruct (update_block_summary H env b (service_dirs H b) st Henv
              (repo_paths_NoDup H env b Habs Henv Hb)) as (B1 & B2 & B3 & B4).
  cbv zeta in B1, B2, B3, B4.
  set (blk := for_each (service_dirs H b) (update_service_dir H env b) st) in *.
  assert (Hblock : forall b0 p, b0 ∈ update_bases -> p ∈ repo_paths H b0 ->
            (occurrences (pull_event H env p) (trace blk)
             <= if bool_decide (b0 = b) && true then 1 else 0)%nat).
  { intros b0 p Hb0 Hp. rewrite andb_true_r. case_bool_decide as Hbb.
    - subst b0. apply list_elem_of_fmap in Hp as (sd & -> & Hsd). by apply B3.
    - rewrite B2; [done|]. intros sd Hsd Heq.
      destruct (pull_event_base H env b0 b p (repo_path H sd)); try done.
      apply list_elem_of_fmap. by exists sd. }
  destruct (step_cases (for_each (service_dirs H b) (update_service_dir H env b)) st)
    as [Hr|[(c & Hr)|(e & Hr)]]; fold blk in Hr.
  - rewrite (bind_run _ _ _ _ _ _ Hr).
    change (ret (ghu ++ [b]) (final blk)) with (mkResult (Done (ghu ++ [b])) (final blk) []).
    cbn [outcome final trace]. rewrite app_nil_r.
    split; [done|]. split; [by intros g [= <-]|]. split; [done|].
    intros g p _ _ Hp Hex. apply list_elem_of_fmap in Hp as (sd & -> & Hsd).
    apply B4; [by rewrite Hr|done..].
  - rewrite (bind_run_exit _ _ _ _ _ _ Hr). cbn [outcome final trace].
    split; [done|]. split; [done|]. split; [done|done].
  - rewrite (bind_run_uncaught _ _ _ _ _ _ Hr). cbn [outcome final trace].
    split; [done|]. split; [done|]. split; [done|done].
Qed.

Lemma pull_bound_step (b0 b : string) (ghu : list string) (n1 n2 : nat) :
  (n1 <= if bool_decide (b0 = b) && negb (bool_decide (b ∈ ghu)) then 1 else 0)%nat ->
  (n2 <= if bool_decide (b0 ∈ (if bool_decide (b ∈ ghu) then ghu else ghu ++ [b]))
         then 0 else 1)%nat ->
  (n1 + n2 <= if bool_decide (b0 ∈ ghu) then 0 else 1)%nat.
Proof.
  destruct (decide (b ∈ ghu)) as [Hin|Hin].
  - rewrite (bool_decide_eq_true_2 (b ∈ ghu)) by done.
    rewrite andb_false_r. lia.
  - rewrite (bool_decide_eq_false_2 (b ∈ ghu)) by done. rewrite andb_true_r.
    destruct (decide (b0 = b)) as [->|Hne].
    + rewrite (bool_decide_eq_true_2 (b = b)) by done.
      rewrite (bool_decide_eq_true_2 (b ∈ ghu ++ [b]))
        by (apply elem_of_app; right; left).
      rewrite (bool_decide_eq_false_2 (b ∈ ghu)) by done. lia.
    + rewrite (bool_decide_eq_false_2 (b0 = b)) by done.
      assert (Hiff : b0 ∈ ghu ++ [b] <-> b0 ∈ ghu).
      { rewrite elem_of_app, list_elem_of_singleton.
        split; [intros [Hx|Hx]; [done|congruence]|by left]. }
      rewrite (bool_decide_ext _ _ Hiff). lia.
Qed.

Lemma pull_bound_stop (b0 b : string) (ghu : list string) (n1 : nat) :
  (n1 <= if bool_decide (b0 = b) && negb (bool_decide (b ∈ ghu)) then 1 else 0)%nat ->
  (n1 <= if bool_decide (b0 ∈ ghu) then 0 else 1)%nat.
Proof.
  intros Hn. destruct (decide (b0 = b)) as [->|Hne].
  - destruct (decide (b ∈ ghu)) as [Hin|Hin].
    + rewrite (bool_decide_eq_true_2 (b ∈ ghu)) in Hn by done.
      rewrite andb_false_r in Hn. lia.
    + rewrite (bool_decide_eq_false_2 (b ∈ ghu)) by done. destruct (_ && _); lia.
  - rewrite (bool_decide_eq_false_2 (b0 = b)) in Hn by done. cbn in Hn. lia.
Qed.

Lemma update_loop_summary H env nr services :
  Py.startswith (SCRIPTDIR H) "/" = true ->
  env_ok env ->
  forall ghu st,
  (forall s, s ∈ services -> base_of s ∈ update_bases) ->
  let r := update_loop H env nr services ghu st in
  shrinks st (final r) /\
  (forall b0 p, b0 ∈ update_bases -> p ∈ repo_paths H b0 ->
     (occurrences (pull_event H env p) (trace r)
      <= if bool_decide (b0 ∈ ghu) then 0 else 1)%nat) /\
  (forall g s p, outcome r = Done g -> s ∈ services -> base_of s ∉ ghu ->
     p ∈ repo_paths H (base_of s) -> os_path_exists (fs (final r)) p = true ->
     occurrences (pull_event H env p) (trace r) = 1%nat).
Proof.
  intros Habs Henv. induction services as [|s services IH]; intros ghu st Hbases r.
  { subst r. change (update_loop H env nr [] ghu st) with (mkResult (Done ghu) st []).
    cbn [outcome final trace]. split; [apply shrinks_refl|].
    split; [intros; cbn; case_bool_decide; lia|].
    intros g s p _ Hs. by apply elem_of_nil in Hs. }
  assert (Hb : base_of s ∈ update_bases) by (apply Hbases; by left).
  assert (Hbases' : forall s', s' ∈ services -> base_of s' ∈ update_bases)
    by (intros s' Hs'; apply Hbases; by right).
  subst r. cbn [update_loop]. fold (base_of s). set (b := base_of s) in *.
  destruct (update_source_summary H env b ghu st Habs Henv Hb) as (U1 & U2 & U3 & U4).
  cbv zeta in U1, U2, U3, U4.
  match goal with
  | |- context [bind ?m1 _ st] => set (source := m1) in *
  end.
  destruct (run_cases source st) as [(g & Hr1)|[(c & Hr1)|(e & Hr1)]].
  - (* the sources of the service are up to date *)
    rewrite (bind_run _ _ _ _ _ _ Hr1).
    assert (Hg : g = if bool_decide (b ∈ ghu) then ghu else ghu ++ [b])
      by (apply U2; by rewrite Hr1).
    set (st1 := final (source st)) in *. set (tr1 := trace (source st)) in *.
    destruct (restart_summary H env nr ("restart " +:+ s) st1 Henv) as (R1 & R2).
    cbv zeta in R1, R2.
    match goal with
    | |- context [bind ?m2 _ st1] => set (restart := m2) in *
    end.
    destruct (run_cases restart st1) as [(a & Hr2)|[(c & Hr2)|(e & Hr2)]];
      rewrite R1 in Hr2.
    + rewrite (bind_run _ _ _ _ _ _ Hr2).
      destruct (IH g st1 Hbases') as (I1 & I2 & I3). cbv zeta in I1, I2, I3.
      set (rest := update_loop H env nr services g st1) in *.
      cbn [outcome final trace].
      split; [by eapply shrinks_trans|]. split.
      * intros b0 p Hb0 Hp. rewrite !occurrences_app, R2.
        specialize (U3 b0 p Hb0 Hp). specialize (I2 b0 p Hb0 Hp). rewrite Hg in I2.
        cbn [Nat.add]. by apply (pull_bound_step b0 b ghu).
      * intros g' s' p Hdone Hs' Hfresh Hp Hex. rewrite !occurrences_app, R2.
        destruct (decide (base_of s' = b)) as [Hsb|Hsb].
        -- rewrite Hsb in Hp, Hfresh.
           rewrite (U4 g p); [|by rewrite Hr1|done|done|by apply I1].
           assert (Hzero : (occurrences (pull_event H env p) (trace rest) <= 0)%nat).
           { specialize (I2 b p Hb Hp). subst g.
             rewrite (bool_decide_eq_false_2 (b ∈ ghu)) in I2 by done.
             rewrite bool_decide_eq_true_2 in I2; [done|].
             apply elem_of_app. right. by left. }
           lia.
        -- assert (Hs'' : s' ∈ services).
           { apply elem_of_cons in Hs' as [->|Hs']; [done|done]. }
           specialize (U3 (base_of s') p (Hbases' s' Hs'') Hp).
           rewrite (bool_decide_eq_false_2 (base_of s' = b)) in U3 by done.
           cbn in U3.
           rewrite (I3 g' s' p); [lia|done|done| |done|done].
           subst g. case_bool_decide; [done|].
           intros [Hin|Hin%list_elem_of_singleton]%elem_of_app; done.
    + rewrite (bind_run_exit _ _ _ _ _ _ Hr2). cbn [outcome final trace].
      split; [done|]. split; [|done].
      intros b0 p Hb0 Hp. rewrite occurrences_app, R2, Nat.add_0_r.
      by apply (pull_bound_stop b0 b ghu), U3.
    + rewrite (bind_run_uncaught _ _ _ _ _ _ Hr2). cbn [outcome final trace].
      split; [done|]. split; [|done].
      intros b0 p Hb0 Hp. rewrite occurrences_app, R2, Nat.add_0_r.
      by apply (pull_bound_stop b0 b ghu), U3.
  - rewrite (bind_run_exit _ _ _ _ _ _ Hr1). cbn [outcome final trace].
    split; [done|]. split; [|done].
    intros b0 p Hb0 Hp. by apply (pull_bound_stop b0 b ghu), U3.
  - rewrite (bind_run_uncaught _ _ _ _ _ _ Hr1). cbn [outcome final trace].
    split; [done|]. split; [|done].
    intros b0 p Hb0 Hp. by apply (pull_bound_stop b0 b ghu), U3.
Qed.

(** *** The whole verb *)

Lemma base_of_choice s : s ∈ UPDATE_CHOICES -> base_of s ∈ update_bases.
Proof.
  intros Hs. unfold UPDATE_CHOICES in Hs.
  repeat (apply elem_of_cons in Hs as [->|Hs]; [vm_compute; repeat constructor|]).
  by apply elem_of_nil in Hs.
Qed.

Lemma validate_services_summary services st :
  final (validate_services services st) = st /\
  Forall (fun e => exists msg, e = Print msg) (trace (validate_services services st)) /\
  (forall a, outcome (validate_services services st) = Done a ->
     trace (validate_services services st) = [] /\
     (services = [EmptyString] \/ Forall (fun s => s ∈ UPDATE_CHOICES) services)).
Proof.
  unfold validate_services. case_bool_decide as Hne.
  - clear Hne. induction services as [|s services IH].
    { split; [done|]. split; [done|]. intros a _. split; [done|]. by right. }
    rewrite for_each_cons. destruct (decide (s ∈ UPDATE_CHOICES)) as [Hs|Hs].
    + rewrite (bool_decide_eq_true_2 (s ∈ UPDATE_CHOICES)) by done. cbn [negb].
      rewrite (bind_run _ _ st tt st []) by done. cbn [outcome final trace app].
      destruct IH as (I1 & I2 & I3). split; [done|]. split; [done|].
      intros a Ha. destruct (I3 a Ha) as (Ht & Hok). split; [done|].
      right. destruct Hok as [->|Hok]; [|by constructor].
      exfalso. revert Ha. cbn [for_each].
      rewrite (bool_decide_eq_false_2 (EmptyString ∈ UPDATE_CHOICES)); [done|].
      intros Hin. vm_compute in Hin.
      repeat (apply elem_of_cons in Hin as [Hin|Hin]; [discriminate|]).
      by apply elem_of_nil in Hin.
    + rewrite (bool_decide_eq_false_2 (s ∈ UPDATE_CHOICES)) by done. cbn [negb].
      match goal with
      | |- context [bind (bind (print ?msg) ?k) ?k' st] =>
          change (bind (bind (print msg) k) k' st)
            with (mkResult (@SysExit unit 1) st [Print msg])
      end.
      cbn [outcome final trace]. split; [done|].
      split; [repeat constructor; by eexists|done].
  - subst services.
    split; [done|]. split; [done|]. intros a _. split; [done|]. by left.
Qed.

(** C4: [update] pulls no repository twice.  On a host whose script
    directory is absolute (it is a [realpath]), whatever the requested
    list, the pull of each checkout directory of each base service
    occurs at most once in the run, also when the mainnet and the
    testnet variant of the service are both requested; and when the run
    comes to its end, the pull of every checkout directory that exists
    of every requested service has occurred exactly once. *)
Theorem update_pulls_each_repository_once lib H d np nr services st env :
  Py.startswith (SCRIPTDIR H) "/" = true ->
  outcome (setup_env H st) = Done env ->
  let r := main lib H (mkArgs d np (update nr services)) st in
  (forall s p, s ∈ UPDATE_CHOICES -> p ∈ repo_paths H (base_of s) ->
     (occurrences (pull_event H env p) (trace r) <= 1)%nat) /\
  (outcome r = Done tt ->
   forall s p, s ∈ services -> p ∈ repo_paths H (base_of s) ->
     os_path_exists (fs (final r)) p = true ->
     occurrences (pull_event H env p) (trace r) = 1%nat).
Proof.
  intros Habs Hs r. subst r.
  pose proof (setup_env_env_ok H st env Hs) as Henv.
  assert (Hsetup : forall p, occurrences (pull_event H env p) (trace (setup_env H st)) = 0%nat).
  { intros p. apply occurrences_absent.
    eapply Forall_impl; [apply setup_env_events|].
    intros e He. by apply setup_not_pull. }
  destruct (settings_file (fs st)) as [cfg|] eqn:Hcfg; cycle 1.
  { rewrite (main_not_installed lib H d np _ st env) by done.
    cbn [outcome final trace]. split; [|done].
    intros s p _ _. rewrite occurrences_app, Hsetup.
    rewrite occurrences_absent by (by repeat constructor). lia. }
  rewrite (main_installed lib H d np _ st env cfg) by done.
  cbv zeta. unfold dispatch, do_update.
  set (st1 := session_state H cfg (update nr services) st).
  destruct (validate_services_summary services st1) as (V1 & V2 & V3).
  assert (Hvalid : forall p,
            occurrences (pull_event H env p) (trace (validate_services services st1)) = 0%nat).
  { intros p. apply occurrences_absent. eapply Forall_impl; [exact V2|].
    intros e (msg & ->). done. }
  destruct (step_cases (validate_services services) st1) as [Hv|[(c & Hv)|(e & Hv)]];
    rewrite V1 in Hv.
  - rewrite (bind_run _ _ _ _ _ _ Hv).
    destruct (V3 tt) as (Vt & Vok); [by rewrite Hv|].
    set (todo := if negb (bool_decide (0 < length services)%nat)
                 then UPDATE_CHOICES else services).
    assert (Hbases : forall s, s ∈ todo -> base_of s ∈ update_bases).
    { intros s Hin. subst todo. destruct (bool_decide (0 < length services)%nat); cbn [negb] in Hin.
      - destruct Vok as [->|Vok].
        + apply list_elem_of_singleton in Hin as ->. vm_compute. repeat constructor.
        + rewrite Forall_forall in Vok. by apply base_of_choice, Vok.
      - by apply base_of_choice. }
    destruct (update_loop_summary H env nr todo Habs Henv [] st1 Hbases) as (L1 & L2 & L3).
    cbv zeta in L1, L2, L3.
    set (loop := update_loop H env nr todo [] st1) in *.
    assert (Hrun : bind (update_loop H env nr todo []) (fun _ => ret tt) st1 =
                   mkResult (match outcome loop with
                             | Done _ => Done tt
                             | SysExit c => SysExit c
                             | Uncaught e => Uncaught e
                             end) (final loop) (trace loop)).
    { fold loop. unfold bind. destruct (update_loop H env nr todo [] st1) as [[g|c|e] st2 tr2] eqn:E;
        subst loop; rewrite ?E; cbn; by rewrite ?app_nil_r. }
    rewrite Hrun. cbn [outcome final trace]. rewrite Vt. cbn [app].
    split.
    + intros s p Hin Hp. rewrite occurrences_app, Hsetup.
      by apply (L2 (base_of s) p (base_of_choice s Hin) Hp).
    + intros Hdone s p Hin Hp Hex. rewrite occurrences_app, Hsetup.
      destruct (outcome loop) as [g| |] eqn:Hloop; [|done..].
      apply (L3 g s p); [done| |by apply not_elem_of_nil|done|done].
      subst todo. destruct services; [by apply elem_of_nil in Hin|done].
  - rewrite (bind_run_exit _ _ _ _ _ _ Hv). cbn [outcome final trace].
    split; [|done]. intros s p _ _. rewrite occurrences_app, Hsetup, Hvalid. lia.
  - rewrite (bind_run_uncaught _ _ _ _ _ _ Hv). cbn [outcome final trace].
    split; [|done]. intros s p _ _. rewrite occurrences_app, Hsetup, Hvalid. lia.
Qed.

Lemma update_pulls_each_repository_once_witness :
  let r := main Example.lib Example.host
                (mkArgs false false (update false ["counterparty"; "counterparty-testnet"]))
                ExampleRepos.checked_out in
  let lib_pull :=
    System ("sudo -E -u alice bash -c " +:+ Py.dq
            +:+ "cd /opt/fednode/src/counterparty-lib; git pull origin master; cd /home/alice"
            +:+ Py.dq) in
  outcome r = Done tt /\
  base_of "counterparty-testnet" = base_of "counterparty" /\
  repo_paths Example.host (base_of "counterparty")
    = ["/opt/fednode/src/counterparty-lib"; "/opt/fednode/src/counterparty-cli"] /\
  occurrences lib_pull (trace r) = 1%nat.
Proof.
  pose proof (update_pulls_each_repository_once Example.lib Example.host false false false
                ["counterparty"; "counterparty-testnet"] ExampleRepos.checked_out
                Example.env) as W.
  destruct W as (_ & W); [reflexivity|reflexivity|].
  split; [vm_compute; reflexivity|]. split; [reflexivity|]. split; [reflexivity|].
  apply (W ltac:(vm_compute; reflexivity) "counterparty" "/opt/fednode/src/counterparty-lib").
  - by left.
  - vm_compute. by left.
  - vm_compute. reflexivity.
Defined.

(** * Further properties of the script *)

(** ** The probe of the environment *)

Lemma bind_ret_l {A B} (a : A) (k : A -> Run B) st : bind (ret a) k st = k a st.
Proof. unfold bind, ret. by destruct (k a st). Qed.

Lemma bind_ext {A B} (m : Run A) (k k' : A -> Run B) st :
  (forall a st', k a st' = k' a st') -> bind m k st = bind m k' st.
Proof. intros Hk. unfold bind. destruct (m st) as [[a|c|e] st1 tr1]; by rewrite ?Hk. Qed.

(** [setup_env] on a POSIX host with a login name. *)
Lemma setup_env_posix H st out :
  os_name H <> "nt" ->
  logname_out H = Some out ->
  Py.strip out <> EmptyString ->
  setup_env H st =
  if (geteuid H =? 0)%Z then
    mkResult (SysExit 1) st
      [ CheckOutput "logname"; CheckOutput sudo_probe_cmd;
        Print "Please run this script as a non-root user." ]
  else
    mkResult (Done (mkEnv false (Some (Py.strip out)) "sudo -E")) st
      ([ CheckOutput "logname"; CheckOutput sudo_probe_cmd ] ++
       if bool_decide (Py.strip (sudo_uptime_out H) = "1") then [] else sudo_priming).
Proof.
  intros Hos Hlog Hname.
  unfold setup_env, check_output, print, os_system.
  rewrite (bool_decide_eq_false_2 (os_name H = "nt")) by done.
  rewrite Hlog. run_unfold.
  rewrite (bool_decide_eq_false_2 (Py.strip out = EmptyString)) by done.
  destruct (geteuid H =? 0)%Z; [reflexivity|].
  by destruct (bool_decide (Py.strip (sudo_uptime_out H) = "1")).
Qed.

(** [setup_env] looks at the host only: it answers the same in every
    state. *)
Lemma setup_env_state H st st' :
  outcome (setup_env H st') = outcome (setup_env H st) /\
  trace (setup_env H st') = trace (setup_env H st).
Proof. setup_cases H; by split. Qed.

(** X1: on a POSIX host, a run as root (effective user id 0) is
    refused whatever the command line: after the two probes of the
    session the script prints that it wants a non-root user and exits
    with status 1; the arguments are not parsed, nothing is run, not
    even [docker_clean], the sudo password is not asked for, and the
    state is as it was. *)
Theorem root_is_refused lib H argv st out :
  os_name H <> "nt" ->
  geteuid H = 0 ->
  logname_out H = Some out ->
  Py.strip out <> EmptyString ->
  main lib H argv st =
  mkResult (SysExit 1) st
    [ CheckOutput "logname"; CheckOutput sudo_probe_cmd;
      Print "Please run this script as a non-root user." ].
Proof.
  intros Hos Hroot Hlog Hname. unfold main.
  pose proof (setup_env_posix H st out Hos Hlog Hname) as Hsetup.
  rewrite Hroot in Hsetup. cbn [Z.eqb] in Hsetup.
  by rewrite (bind_run_exit _ _ _ _ _ _ Hsetup).
Qed.

Lemma root_is_refused_witness :
  main Example.lib ExampleHosts.root_host (mkArgs false false docker_clean) Example.installed =
  mkResult (SysExit 1) Example.installed
    [ CheckOutput "logname"; CheckOutput sudo_probe_cmd;
      Print "Please run this script as a non-root user." ].
Proof.
  apply (root_is_refused Example.lib ExampleHosts.root_host _ _ ("root" +:+ Py.nl)).
  - discriminate.
  - reflexivity.
  - reflexivity.
  - discriminate.
Defined.

(** X2: on a POSIX host, for a user other than root with a login name,
    [setup_env] succeeds; the session user is the login name without
    the surrounding white space, commands are prefixed with [sudo -E],
    and the sudo password is asked for (a message, then [sudo whoami])
    exactly when the probe of the cached credentials does not print
    [1]. *)
Theorem setup_env_primes_sudo H st out :
  os_name H <> "nt" ->
  geteuid H <> 0 ->
  logname_out H = Some out ->
  Py.strip out <> EmptyString ->
  setup_env H st =
  mkResult (Done (mkEnv false (Some (Py.strip out)) "sudo -E")) st
    ([ CheckOutput "logname"; CheckOutput sudo_probe_cmd ] ++
     if bool_decide (Py.strip (sudo_uptime_out H) = "1") then [] else sudo_priming).
Proof.
  intros Hos Huser Hlog Hname.
  rewrite (setup_env_posix H st out Hos Hlog Hname).
  apply Z.eqb_neq in Huser. by rewrite Huser.
Qed.

Lemma setup_env_primes_sudo_witness :
  setup_env ExampleHosts.unprimed_host Example.fresh =
  mkResult (Done (mkEnv false (Some "alice") "sudo -E")) Example.fresh
    [ CheckOutput "logname"; CheckOutput sudo_probe_cmd;
      Print "This script requires root access (via sudo) to run. Please enter your sudo password below.";
      System "bash -c 'sudo whoami > /dev/null'" ].
Proof.
  apply (setup_env_primes_sudo ExampleHosts.unprimed_host Example.fresh ("alice" +:+ Py.nl)).
  - discriminate.
  - discriminate.
  - reflexivity.
  - discriminate.
Defined.

(** X3: on a POSIX host where [logname] fails or prints only white
    space, every command ends with an uncaught exception
    ([CalledProcessError], respectively the failed assertion on
    [SESSION_USER]) right after that probe: nothing else is run and the
    state is as it was. *)
Theorem no_login_name_stops_every_command lib H argv st :
  os_name H <> "nt" ->
  (forall out, logname_out H = Some out -> Py.strip out = EmptyString) ->
  main lib H argv st =
  mkResult (Uncaught (match logname_out H with
                      | None => "CalledProcessError"
                      | Some _ => "AssertionError"
                      end))
           st [CheckOutput "logname"].
Proof.
  intros Hos Hblank. unfold main.
  assert (Hsetup : setup_env H st =
                   mkResult (Uncaught (match logname_out H with
                                       | None => "CalledProcessError"
                                       | Some _ => "AssertionError"
                                       end))
                            st [CheckOutput "logname"]).
  { unfold setup_env, check_output.
    rewrite (bool_decide_eq_false_2 (os_name H = "nt")) by done.
    destruct (logname_out H) as [out|]; [|reflexivity].
    run_unfold. by rewrite (bool_decide_eq_true_2 _ (Hblank out eq_refl)). }
  by rewrite (bind_run_uncaught _ _ _ _ _ _ Hsetup).
Qed.

Lemma no_login_name_stops_every_command_witness :
  main Example.lib ExampleHosts.no_tty_host (mkArgs false false ps) Example.installed =
  mkResult (Uncaught "CalledProcessError") Example.installed [CheckOutput "logname"].
Proof.
  apply (no_login_name_stops_every_command Example.lib ExampleHosts.no_tty_host).
  - discriminate.
  - discriminate.
Defined.

(** ** Installing twice, uninstalling *)

(** On a host with settings, [install] stops before it does anything. *)
Lemma main_install_installed lib H d np cfg br ssh m nb st env s :
  outcome (setup_env H st) = Done env ->
  choices_ok (install cfg br ssh m nb) = true ->
  settings_file (fs st) = Some s ->
  main lib H (mkArgs d np (install cfg br ssh m nb)) st =
  mkResult (SysExit 1) (session_state H s (install cfg br ssh m nb) st)
           (trace (setup_env H st) ++ [Print already_installed_message]).
Proof.
  intros Hs Hc Hcfg.
  rewrite (main_installed lib H d np _ st env s) by done.
  cbv zeta. unfold dispatch, do_install, print.
  set (st1 := session_state _ _ _ _).
  match goal with
  | |- context [bind ?m ?k st1] =>
      assert (Hstop : m st1 = mkResult (SysExit 1) st1 [Print already_installed_message])
        by reflexivity;
      rewrite (bind_run_exit m k _ _ _ _ Hstop)
  end.
  reflexivity.
Qed.

(** X4: on a host that has a settings file, [install] is refused: it
    prints that a configuration already exists and exits with status 1
    before any port is probed, any repository cloned or any engine
    command run; the settings and every file are as they were. *)
Theorem install_refused_when_installed lib H d np cfg br ssh m nb st env s :
  outcome (setup_env H st) = Done env ->
  cfg ∈ ["base"; "base_extbtc"; "full"] ->
  br ∈ ["master"; "develop"] ->
  settings_file (fs st) = Some s ->
  let r := main lib H (mkArgs d np (install cfg br ssh m nb)) st in
  outcome r = SysExit 1 /\
  trace r = trace (setup_env H st) ++ [Print already_installed_message] /\
  fs (final r) = fs st.
Proof.
  intros Hs Hcfg Hbr Hset r. subst r.
  rewrite (main_install_installed lib H d np cfg br ssh m nb st env s); try done.
  unfold choices_ok. by rewrite !bool_decide_eq_true_2.
Qed.

Lemma install_refused_when_installed_witness :
  let r := main Example.lib Example.lan_host
                (mkArgs false false (install "full" "develop" false "127.0.0.1" false))
                Example.installed in
  outcome r = SysExit 1 /\
  trace r = trace (setup_env Example.lan_host Example.installed)
            ++ [Print "Cannot install, as it appears a configuration already exists. Please run the 'uninstall' command first"] /\
  fs (final r) = fs Example.installed.
Proof.
  apply (install_refused_when_installed Example.lib Example.lan_host false false
           "full" "develop" false "127.0.0.1" false Example.installed Example.env
           Example.settings).
  - reflexivity.
  - vm_compute; repeat constructor.
  - vm_compute; repeat constructor.
  - reflexivity.
Defined.

(** X5: an installation that the port check stopped leaves the host
    counted as installed: a second [install], whatever its profile and
    branch and even once the port is free again, is refused with the
    message that a configuration already exists, and the settings of
    the first attempt stay. *)
Theorem stopped_install_blocks_the_next lib H H' d np cfg br ssh m nb
        d' np' cfg' br' ssh' m' nb' st env env' ports :
  settings_file (fs st) = None ->
  outcome (setup_env H st) = Done env ->
  choices_ok (install cfg br ssh m nb) = true ->
  Py.dict_get HOST_PORTS_USED cfg = Some ports ->
  (exists p, p ∈ ports /\ connect_ex H "127.0.0.1" p = 0) ->
  outcome (setup_env H' st) = Done env' ->
  choices_ok (install cfg' br' ssh' m' nb') = true ->
  let r1 := main lib H (mkArgs d np (install cfg br ssh m nb)) st in
  let r2 := main lib H' (mkArgs d' np' (install cfg' br' ssh' m' nb')) (final r1) in
  outcome r1 = SysExit 1 /\
  outcome r2 = SysExit 1 /\
  trace r2 = trace (setup_env H' st) ++ [Print already_installed_message] /\
  settings_file (fs (final r2)) = Some (mkSettings br cfg).
Proof.
  intros Hcfg Hs Hc Hports Hopen Hs' Hc' r1 r2.
  destruct (install_blocked lib H d np cfg br ssh m nb st env ports)
    as (before & p & after & _ & _ & Hr1); try done.
  subst r2 r1. rewrite Hr1. cbn [outcome final].
  set (st1 := session_state H _ _ _).
  destruct (setup_env_state H' st st1) as [Ho Ht].
  rewrite (main_install_installed lib H' d' np' cfg' br' ssh' m' nb' st1 env' (mkSettings br cfg));
    [|by rewrite Ho|done|done].
  cbn [outcome final trace]. by rewrite Ht.
Qed.

Lemma stopped_install_blocks_the_next_witness :
  let r1 := main Example.lib Example.host
                 (mkArgs false false (install "base" "master" false "127.0.0.1" false))
                 Example.fresh in
  let r2 := main Example.lib Example.lan_host
                 (mkArgs false false (install "base" "master" false "127.0.0.1" false))
                 (final r1) in
  outcome r1 = SysExit 1 /\
  outcome r2 = SysExit 1 /\
  trace r2 = trace (setup_env Example.lan_host Example.fresh)
             ++ [Print already_installed_message] /\
  settings_file (fs (final r2)) = Some (mkSettings "master" "base").
Proof.
  apply (stopped_install_blocks_the_next Example.lib Example.host Example.lan_host
           false false "base" "master" false "127.0.0.1" false
           false false "base" "master" false "127.0.0.1" false
           Example.fresh Example.env Example.env
           [8332; 18332; 8432; 18432; 4000; 14000; 8097; 18097; 8098; 18098]).
  - reflexivity.
  - reflexivity.
  - reflexivity.
  - reflexivity.
  - exists 8332. split; [by left|reflexivity].
  - reflexivity.
  - reflexivity.
Defined.

(** [uninstall] on a host with settings. *)
Lemma main_uninstall lib H d np st env cfg :
  outcome (setup_env H st) = Done env ->
  settings_file (fs st) = Some cfg ->
  branch cfg <> EmptyString ->
  main lib H (mkArgs d np uninstall) st =
  mkResult (Done tt)
    (with_fs (set_settings None) (session_state H cfg uninstall st))
    (trace (setup_env H st) ++
     [ System (compose_cmdline env (docker_config_path_of H (config cfg)) "down");
       Remove (BTC_CONFIG_PATH H) ]).
Proof.
  intros Hs Hcfg Hb.
  rewrite (main_installed lib H d np _ st env cfg) by done.
  pose proof (session_state_ready H cfg uninstall st Hb) as Hready.
  cbv zeta. unfold dispatch.
  rewrite (bind_run _ _ _ _ _ _ (run_compose_cmd_ready _ _ _ _ Hready)).
  set (st1 := session_state _ _ _ _).
  rewrite (bind_run _ _ st1 tt st1 [Remove (BTC_CONFIG_PATH H)]) by done.
  reflexivity.
Qed.

(** X6: on an installed host, [uninstall] asks the orchestration
    engine to take the services [down] and then removes the settings
    file, and that is all: the active config files, the checkouts and
    the links to the data volumes stay as they are. *)
Theorem uninstall_removes_settings_only lib H d np st env cfg :
  outcome (setup_env H st) = Done env ->
  settings_file (fs st) = Some cfg ->
  branch cfg <> EmptyString ->
  let r := main lib H (mkArgs d np uninstall) st in
  outcome r = Done tt /\
  trace r = trace (setup_env H st) ++
            [ System (compose_cmdline env (docker_config_path_of H (config cfg)) "down");
              Remove (BTC_CONFIG_PATH H) ] /\
  settings_file (fs (final r)) = None /\
  files (fs (final r)) = files (fs st) /\
  dirs (fs (final r)) = dirs (fs st) /\
  symlinks (fs (final r)) = symlinks (fs st).
Proof.
  intros Hs Hcfg Hb r. subst r.
  by rewrite (main_uninstall lib H d np st env cfg).
Qed.

Lemma uninstall_removes_settings_only_witness :
  let r := main Example.lib Example.host (mkArgs false false uninstall)
                ExampleFiles.configured in
  outcome r = Done tt /\
  trace r = trace (setup_env Example.host ExampleFiles.configured) ++
            [ System "sudo -E docker-compose -f /opt/fednode/docker-compose.base.yml -p bitcoinprotocols down";
              Remove "/opt/fednode/.btc.config" ] /\
  settings_file (fs (final r)) = None /\
  files (fs (final r)) = ExampleFiles.tree.
Proof.
  pose proof (uninstall_removes_settings_only Example.lib Example.host false false
                ExampleFiles.configured Example.env Example.settings) as W.
  destruct W as (Ho & Ht & Hset & Hf & _).
  - reflexivity.
  - reflexivity.
  - discriminate.
  - split; [exact Ho|]. split; [exact Ht|]. split; [exact Hset | exact Hf].
Defined.

(** X7: after [uninstall] the host is uninstalled for the script: every
    verb other than [install] and [docker_clean] is refused with the
    directive to run [install] first and changes nothing, and [install]
    is accepted again (it writes new settings). *)
Theorem uninstall_then_install_first lib H d np d' np' c st env cfg :
  outcome (setup_env H st) = Done env ->
  settings_file (fs st) = Some cfg ->
  branch cfg <> EmptyString ->
  choices_ok c = true ->
  verb c <> "docker_clean" ->
  let r1 := main lib H (mkArgs d np uninstall) st in
  let r2 := main lib H (mkArgs d' np' c) (final r1) in
  match c with
  | install cfg' br' _ _ _ =>
      exists rest, trace r2 = trace (setup_env H st) ++ WriteConfig (mkSettings br' cfg') :: rest
  | _ =>
      outcome r2 = SysExit 1 /\
      trace r2 = trace (setup_env H st) ++ [Print not_installed_message] /\
      final r2 = final r1
  end.
Proof.
  intros Hs Hcfg Hb Hc Hd r1 r2. subst r2 r1.
  rewrite (main_uninstall lib H d np st env cfg) by done. cbn [final].
  set (st1 := with_fs _ _).
  destruct (setup_env_state H st st1) as [Ho Ht].
  assert (Hs1 : outcome (setup_env H st1) = Done env) by (by rewrite Ho).
  assert (Hnone : settings_file (fs st1) = None) by reflexivity.
  destruct c;
    try (rewrite (main_not_installed lib H d' np' _ st1 env) by done;
         cbn [outcome final trace]; by rewrite Ht).
  - rewrite (main_install_fresh lib H d' np' _ _ _ _ _ st1 env) by done.
    cbv zeta. cbn [trace]. rewrite Ht. by eexists.
Qed.

Lemma uninstall_then_install_first_witness :
  let r1 := main Example.lib Example.host (mkArgs false false uninstall) Example.installed in
  let r2 := main Example.lib Example.host (mkArgs false false (start ["counterparty"]))
                 (final r1) in
  outcome r2 = SysExit 1 /\
  trace r2 = trace (setup_env Example.host Example.installed)
             ++ [Print not_installed_message] /\
  final r2 = final r1.
Proof.
  apply (uninstall_then_install_first Example.lib Example.host false false false false
           (start ["counterparty"]) Example.installed Example.env Example.settings).
  - reflexivity.
  - reflexivity.
  - discriminate.
  - reflexivity.
  - discriminate.
Defined.

(** ** The verbs that hand the work to the engines *)

(** X8: on an installed host, [reparse], [validate] and [vacuum] of a
    counterparty service invoke the orchestration engine exactly twice:
    they stop the service, then run it once with [COMMAND] set to
    [reparse], [checkdb] (for [validate]) and [vacuum]; the files are
    left as they are. *)
Theorem maintenance_stop_then_run lib H d np S c task st env cfg :
  (c, task) ∈ [ (reparse S, "reparse"); (validate S, "checkdb"); (vacuum S, "vacuum") ] ->
  outcome (setup_env H st) = Done env ->
  S ∈ ["counterparty"; "counterparty-testnet"] ->
  settings_file (fs st) = Some cfg ->
  branch cfg <> EmptyString ->
  let r := main lib H (mkArgs d np c) st in
  let compose := compose_cmdline env (docker_config_path_of H (config cfg)) in
  outcome r = Done tt /\
  trace r = trace (setup_env H st) ++
            [ System (compose ("stop " +:+ S));
              System (compose ("run -e COMMAND=" +:+ task +:+ " " +:+ S)) ] /\
  fs (final r) = fs st.
Proof.
  intros Hc Hs HS Hcfg Hb r compose.
  assert (Hok : bool_decide (S ∈ ["counterparty"; "counterparty-testnet"]) = true)
    by (by apply bool_decide_eq_true_2).
  assert (Hrun : forall c', choices_ok c' = true -> verb c' <> "docker_clean" ->
            dispatch lib H env (negb np) true (config cfg) (branch cfg) c' =
            (fun st' => bind (run_compose_cmd env ("stop " +:+ S))
                          (fun _ => run_compose_cmd env ("run -e COMMAND=" +:+ task +:+ " " +:+ S))
                          st') ->
            let r' := main lib H (mkArgs d np c') st in
            outcome r' = Done tt /\
            trace r' = trace (setup_env H st) ++
                       [ System (compose ("stop " +:+ S));
                         System (compose ("run -e COMMAND=" +:+ task +:+ " " +:+ S)) ] /\
            fs (final r') = fs st).
  { intros c' Hc' Hv Hd r'. subst r'.
    rewrite (main_installed lib H d np _ st env cfg) by done.
    pose proof (session_state_ready H cfg c' st Hb) as Hready.
    cbv zeta. rewrite Hd.
    rewrite (bind_run _ _ _ _ _ _ (run_compose_cmd_ready _ _ _ _ Hready)).
    by rewrite (run_compose_cmd_ready _ _ _ _ Hready). }
  subst r.
  repeat (apply elem_of_cons in Hc as [Hc|Hc]; [injection Hc as -> ->; by apply Hrun|]).
  by apply elem_of_nil in Hc.
Qed.

Lemma maintenance_stop_then_run_witness :
  let r := main Example.lib Example.host
                (mkArgs false false (validate "counterparty-testnet")) Example.installed in
  outcome r = Done tt /\
  trace r = trace (setup_env Example.host Example.installed) ++
    [ System "sudo -E docker-compose -f /opt/fednode/docker-compose.base.yml -p bitcoinprotocols stop counterparty-testnet";
      System "sudo -E docker-compose -f /opt/fednode/docker-compose.base.yml -p bitcoinprotocols run -e COMMAND=checkdb counterparty-testnet" ] /\
  fs (final r) = fs Example.installed.
Proof.
  apply (maintenance_stop_then_run Example.lib Example.host false false
           "counterparty-testnet" (validate "counterparty-testnet") "checkdb"
           Example.installed Example.env Example.settings).
  - right; left.
  - reflexivity.
  - right; left.
  - reflexivity.
  - discriminate.
Defined.

(** X9: on an installed host, [start], [stop], [restart], [logs],
    [tail] and [ps] are one invocation of the orchestration engine
    each: the sub-command, followed by the service names as they were
    given, joined by spaces (none for all services; the names are not
    checked); [tail] follows the logs from the given number of lines.
    Nothing else is run and the files are left as they are. *)
Theorem lifecycle_single_command lib H d np c sub st env cfg :
  (exists services n,
     (c, sub) ∈ [ (start services, "start " +:+ Py.join " " services);
                  (stop services, "stop " +:+ Py.join " " services);
                  (restart services, "restart " +:+ Py.join " " services);
                  (logs services, "logs " +:+ Py.join " " services);
                  (tail services n,
                   "logs -f --tail=" +:+ Py.str_int n +:+ " " +:+ Py.join " " services);
                  (ps, "ps") ]) ->
  outcome (setup_env H st) = Done env ->
  settings_file (fs st) = Some cfg ->
  branch cfg <> EmptyString ->
  let r := main lib H (mkArgs d np c) st in
  outcome r = Done tt /\
  trace r = trace (setup_env H st) ++
            [ System (compose_cmdline env (docker_config_path_of H (config cfg)) sub) ] /\
  fs (final r) = fs st.
Proof.
  intros (services & n & Hc) Hs Hcfg Hb r.
  assert (Hrun : forall c', choices_ok c' = true -> verb c' <> "docker_clean" ->
            dispatch lib H env (negb np) true (config cfg) (branch cfg) c' =
            (fun st' => run_compose_cmd env sub st') ->
            let r' := main lib H (mkArgs d np c') st in
            outcome r' = Done tt /\
            trace r' = trace (setup_env H st) ++
                       [ System (compose_cmdline env (docker_config_path_of H (config cfg)) sub) ] /\
            fs (final r') = fs st).
  { intros c' Hc' Hv Hd r'. subst r'.
    rewrite (main_installed lib H d np _ st env cfg) by done.
    pose proof (session_state_ready H cfg c' st Hb) as Hready.
    cbv zeta. rewrite Hd.
    by rewrite (run_compose_cmd_ready _ _ _ _ Hready). }
  subst r.
  repeat (apply elem_of_cons in Hc as [Hc|Hc]; [injection Hc as -> ->; by apply Hrun|]).
  by apply elem_of_nil in Hc.
Qed.

Lemma lifecycle_single_command_witness :
  let r := main Example.lib Example.host
                (mkArgs false false (tail ["counterparty"; "bitcoin"] 50)) Example.installed in
  outcome r = Done tt /\
  trace r = trace (setup_env Example.host Example.installed) ++
    [ System "sudo -E docker-compose -f /opt/fednode/docker-compose.base.yml -p bitcoinprotocols logs -f --tail=50 counterparty bitcoin" ] /\
  fs (final r) = fs Example.installed.
Proof.
  pose proof (lifecycle_single_command Example.lib Example.host false false
           (tail ["counterparty"; "bitcoin"] 50)
           ("logs -f --tail=" +:+ Py.str_int 50 +:+ " " +:+ Py.join " " ["counterparty"; "bitcoin"])
           Example.installed Example.env Example.settings) as W.
  apply W.
  - exists ["counterparty"; "bitcoin"], 50.
    do 4 right. left.
  - reflexivity.
  - reflexivity.
  - discriminate.
Defined.

(** X10: on an installed host, [rebuild] pulls the images of the named
    services unless [--no-pull] was given (it says so then), builds
    them without cache only with [--no-cache], and always ends by
    recreating the containers with [up -d --build --force-recreate
    --no-deps]; the files are left as they are. *)
Theorem rebuild_pull_build_up lib H d np services m no_cache st env cfg :
  outcome (setup_env H st) = Done env ->
  settings_file (fs st) = Some cfg ->
  branch cfg <> EmptyString ->
  let r := main lib H (mkArgs d np (rebuild services m no_cache)) st in
  let compose := compose_cmdline env (docker_config_path_of H (config cfg)) in
  let names := Py.join " " services in
  outcome r = Done tt /\
  trace r = trace (setup_env H st) ++
            [ if np then Print "skipping docker pull command"
              else System (compose ("pull --ignore-pull-failures " +:+ names)) ] ++
            (if no_cache then [ System (compose ("build --no-cache " +:+ names)) ] else []) ++
            [ System (compose ("up -d --build --force-recreate --no-deps " +:+ names)) ] /\
  fs (final r) = fs st.
Proof.
  intros Hs Hcfg Hb r compose names. subst r.
  rewrite (main_installed lib H d np _ st env cfg) by done.
  pose proof (session_state_ready H cfg (rebuild services m no_cache) st Hb) as Hready.
  cbv zeta. unfold dispatch. fold names.
  set (st1 := session_state _ _ _ _) in *.
  assert (Hpull :
    (if negb np then run_compose_cmd env ("pull --ignore-pull-failures " +:+ names)
     else print "skipping docker pull command") st1 =
    mkResult (Done tt) st1
      [ if np then Print "skipping docker pull command"
        else System (compose ("pull --ignore-pull-failures " +:+ names)) ]).
  { destruct np; cbn [negb]; [done|]. by rewrite (run_compose_cmd_ready _ _ _ _ Hready). }
  rewrite (bind_run _ _ _ _ _ _ Hpull).
  assert (Hbuild :
    (if no_cache then run_compose_cmd env ("build --no-cache " +:+ names) else ret tt) st1 =
    mkResult (Done tt) st1
      (if no_cache then [ System (compose ("build --no-cache " +:+ names)) ] else [])).
  { destruct no_cache; [|done]. by rewrite (run_compose_cmd_ready _ _ _ _ Hready). }
  rewrite (bind_run _ _ _ _ _ _ Hbuild).
  by rewrite (run_compose_cmd_ready _ _ _ _ Hready).
Qed.

Lemma rebuild_pull_build_up_witness :
  let r := main Example.lib Example.host
                (mkArgs false true (rebuild ["counterparty"] "127.0.0.1" true))
                Example.installed in
  outcome r = Done tt /\
  trace r = trace (setup_env Example.host Example.installed) ++
    [ Print "skipping docker pull command";
      System "sudo -E docker-compose -f /opt/fednode/docker-compose.base.yml -p bitcoinprotocols build --no-cache counterparty";
      System "sudo -E docker-compose -f /opt/fednode/docker-compose.base.yml -p bitcoinprotocols up -d --build --force-recreate --no-deps counterparty" ] /\
  fs (final r) = fs Example.installed.
Proof.
  apply (rebuild_pull_build_up Example.lib Example.host false true ["counterparty"]
           "127.0.0.1" true Example.installed Example.env Example.settings).
  - reflexivity.
  - reflexivity.
  - discriminate.
Defined.

(** *** [exec]: the quoting of the command *)

Lemma escape_quotes_escaped s b :
  quotes_escaped_go b (Py.replace Py.dq ("\" +:+ Py.dq) s) = true.
Proof.
  unfold Py.replace. revert b. induction s as [|c s IH]; intros b; [done|].
  cbn [Py.replace_go]. unfold Py.dq at 1. cbn [String.prefix].
  destruct (Ascii.ascii_dec "034" c) as [<-|Hc].
  - replace (String.prefix EmptyString s) with true by (by destruct s).
    change (Nat.pred (String.length Py.dq)) with 0%nat.
    change (("\" +:+ Py.dq) +:+ Py.replace_go Py.dq ("\" +:+ Py.dq) 0 s)
      with (String "\" (String "034" (Py.replace_go Py.dq ("\" +:+ Py.dq) 0 s))).
    cbn [quotes_escaped_go].
    rewrite (bool_decide_eq_false_2 ("\"%char = "034"%char)) by done.
    rewrite (bool_decide_eq_true_2 ("\"%char = "\"%char)) by done.
    rewrite (bool_decide_eq_false_2 ("034"%char = "\"%char)) by done.
    cbn [negb orb andb]. rewrite orb_true_r. apply IH.
  - cbn [quotes_escaped_go].
    rewrite (bool_decide_eq_false_2 (c = "034"%char)) by congruence.
    cbn [negb orb andb]. apply IH.
Qed.

Lemma replace_absent old new s :
  old <> EmptyString -> Py.contains old s = false -> Py.replace old new s = s.
Proof.
  intros Hold. unfold Py.replace. induction s as [|c s IH]; [done|].
  cbn [Py.contains Py.replace_go]. intros [Hp Hc]%orb_false_iff.
  rewrite Hp. by rewrite IH.
Qed.

(** X11: on an installed host, [exec] runs one [docker exec -i -t] in
    the container of the service with [bash -c] and the command; it
    does not look whether the container runs.  Unless the command is a
    single word that begins with a quote and holds a further one, the
    words are joined by spaces and put between double quotes, every
    double quote inside being preceded by a backslash (words without
    double quotes are passed as they are); such a single quoted word is
    handed over as the list it is. *)
Theorem exec_quotes_the_command lib H d np S cmd st env cfg :
  outcome (setup_env H st) = Done env ->
  S ∈ SHELL_CHOICES ->
  settings_file (fs st) = Some cfg ->
  let r := main lib H (mkArgs d np (exec S cmd)) st in
  let quoted_word :=
    match cmd with [c0] => Py.re_match_quoted c0 | _ => false end in
  let body := Py.replace Py.dq ("\" +:+ Py.dq) (Py.join " " cmd) in
  outcome r = Done tt /\
  trace r = trace (setup_env H st) ++
            [ System (SUDO_CMD env +:+ " docker exec -i -t " +:+ container_name S
                      +:+ " bash -c "
                      +:+ (if quoted_word then repr_list lib cmd
                           else Py.dq +:+ body +:+ Py.dq)) ] /\
  quotes_escaped body = true /\
  (Py.contains Py.dq (Py.join " " cmd) = false -> body = Py.join " " cmd) /\
  fs (final r) = fs st.
Proof.
  intros Hs HS Hcfg r quoted_word body. subst r.
  rewrite (main_installed lib H d np _ st env cfg); try done;
    [|by apply bool_decide_eq_true_2].
  cbv zeta. unfold dispatch, os_system. fold body.
  split; [done|]. split; [|split; [apply escape_quotes_escaped|split; [|done]]].
  - cbn [trace emit]. do 5 f_equal.
    subst quoted_word. by destruct cmd as [|c0 [|c1 cmd]].
  - intros Hno. by apply replace_absent.
Qed.

Lemma exec_quotes_the_command_witness :
  let r := main Example.lib Example.host
                (mkArgs false false
                   (exec "counterparty" ["echo"; Py.dq +:+ "a b" +:+ Py.dq]))
                Example.installed in
  outcome r = Done tt /\
  trace r = trace (setup_env Example.host Example.installed) ++
    [ System ("sudo -E docker exec -i -t bitcoinprotocols_counterparty_1 bash -c "
              +:+ Py.dq +:+ "echo \" +:+ Py.dq +:+ "a b\" +:+ Py.dq +:+ Py.dq) ].
Proof.
  pose proof (exec_quotes_the_command Example.lib Example.host false false
                "counterparty" ["echo"; Py.dq +:+ "a b" +:+ Py.dq]
                Example.installed Example.env Example.settings) as W.
  destruct W as (Ho & Ht & _).
  - reflexivity.
  - vm_compute; repeat constructor.
  - reflexivity.
  - split; [exact Ho | exact Ht].
Defined.

(** ** [docker_clean] *)

Lemma main_docker_clean lib H d np st env :
  outcome (setup_env H st) = Done env ->
  main lib H (mkArgs d np docker_clean) st =
  let r := do_docker_clean H env st in
  mkResult (outcome r) (final r) (trace (setup_env H st) ++ trace r).
Proof.
  intros Hs. unfold main.
  rewrite (bind_run _ _ _ _ _ _ (setup_env_run H st env Hs)).
  unfold parse_args, command. cbn [choices_ok].
  rewrite (bind_run _ _ st (mkArgs d np docker_clean) st []) by done.
  unfold command. cbn [verb]. rewrite bool_decide_eq_true_2 by done.
  done.
Qed.

(** A loop that removes what the lines of an output name. *)
Lemma for_each_named (f : string -> string) l st :
  for_each l (fun x => if bool_decide (x = EmptyString) then ret tt else os_system (f x)) st =
  mkResult (Done tt) st
    (map (fun x => System (f x))
         (List.filter (fun x => negb (bool_decide (x = EmptyString))) l)).
Proof.
  induction l as [|x l IH]; [done|].
  rewrite for_each_cons. cbn [List.filter].
  destruct (bool_decide (x = EmptyString)); cbn [negb].
  - rewrite (bind_run _ _ st tt st []) by done. by rewrite IH.
  - rewrite (bind_run _ _ st tt st [System (f x)]) by done. by rewrite IH.
Qed.

(** X12: [docker_clean] asks the container engine for all containers
    and all images, removes every container and then every image the
    answers name (their non-empty lines, in order), and exits with
    status 1 even when all of that went well; it does so on installed
    and uninstalled hosts alike and never touches the state of the
    script.  When one of the two listings fails, the run ends with the
    uncaught [CalledProcessError] and nothing is removed. *)
Theorem docker_clean_removes_what_is_listed lib H d np st env :
  outcome (setup_env H st) = Done env ->
  let r := main lib H (mkArgs d np docker_clean) st in
  let ps_cmd := CheckOutput (SUDO_CMD env +:+ " docker ps -a -q") in
  let images_cmd := CheckOutput (SUDO_CMD env +:+ " docker images -q") in
  final r = st /\
  match docker_ps_out H, docker_images_out H with
  | Some containers, Some images =>
      outcome r = SysExit 1 /\
      trace r = trace (setup_env H st) ++ [ps_cmd; images_cmd]
                ++ map (docker_rm_event env) (named_lines containers)
                ++ map (docker_rmi_event env) (named_lines images)
  | Some _, None =>
      outcome r = Uncaught "CalledProcessError" /\
      trace r = trace (setup_env H st) ++ [ps_cmd; images_cmd]
  | None, _ =>
      outcome r = Uncaught "CalledProcessError" /\
      trace r = trace (setup_env H st) ++ [ps_cmd]
  end.
Proof.
  intros Hs r ps_cmd images_cmd. subst r.
  rewrite (main_docker_clean lib H d np st env Hs). cbv zeta.
  unfold do_docker_clean, check_output.
  destruct (docker_ps_out H) as [containers|].
  - rewrite (bind_run _ _ st containers st [ps_cmd]) by done.
    destruct (docker_images_out H) as [images|].
    + rewrite (bind_run _ _ st images st [images_cmd]) by done.
      rewrite (bind_run _ _ _ _ _ _
                 (for_each_named (fun c => SUDO_CMD env +:+ " docker rm " +:+ c) _ st)).
      rewrite (bind_run _ _ _ _ _ _
                 (for_each_named (fun i => SUDO_CMD env +:+ " docker rmi " +:+ i) _ st)).
      cbn [outcome final trace sys_exit]. split; [done|]. split; [done|].
      by rewrite app_nil_r.
    + by rewrite (bind_run_uncaught _ _ st "CalledProcessError" st [images_cmd]).
  - by rewrite (bind_run_uncaught _ _ st "CalledProcessError" st [ps_cmd]).
Qed.

Lemma docker_clean_removes_what_is_listed_witness :
  let r := main Example.lib ExampleHosts.docker_host (mkArgs false false docker_clean)
                Example.fresh in
  outcome r = SysExit 1 /\
  trace r = trace (setup_env ExampleHosts.docker_host Example.fresh) ++
    [ CheckOutput "sudo -E docker ps -a -q"; CheckOutput "sudo -E docker images -q";
      System "sudo -E docker rm c0ffee"; System "sudo -E docker rm decaf0";
      System "sudo -E docker rmi 1mage" ].
Proof.
  pose proof (docker_clean_removes_what_is_listed Example.lib ExampleHosts.docker_host
                false false Example.fresh Example.env) as W.
  destruct W as (_ & W); [reflexivity|]. exact W.
Defined.

(** ** [configcheck]: files that are not there *)








(** ** Runs that only add *)

Lemma grows_refl st : grows st st.
Proof. by repeat split. Qed.

Lemma grows_trans st1 st2 st3 : grows st1 st2 -> grows st2 st3 -> grows st1 st3.
Proof.
  intros (Hf & Hd & Hl & Hs & He & Hp) (Hf' & Hd' & Hl' & Hs' & He' & Hp').
  repeat split; try congruence.
  - by transitivity (files (fs st2)).
  - by transitivity (dirs (fs st2)).
  - by transitivity (symlinks (fs st2)).
Qed.

Lemma keeps_files_grows st st' : keeps_files st st' -> grows st st'.
Proof.
  intros (Hf & Hs & Hd & Hl & He & Hp). repeat split; try done.
  - by rewrite Hd.
  - by rewrite Hl.
Qed.

Lemma os_path_lexists_grows st st' p :
  grows st st' -> os_path_lexists (fs st) p = true -> os_path_lexists (fs st') p = true.
Proof.
  intros (Hf & Hd & Hl & _). unfold os_path_lexists, os_path_exists.
  rewrite !orb_true_iff, !bool_decide_eq_true.
  intros [[Hin|Hin]|Hin].
  - left. left. apply elem_of_dom in Hin as [x Hx]. apply elem_of_dom.
    exists x. by eapply lookup_weaken.
  - left. right. by apply Hd.
  - right. apply elem_of_dom in Hin as [x Hx]. apply elem_of_dom.
    exists x. by eapply lookup_weaken.
Qed.


(** The two halves of a sequence, for a preorder on the states and a
    property of the actions. *)
Lemma bind_invariant {A B} (R : State -> State -> Prop) (P : Event -> Prop)
      (m : Run A) (k : A -> Run B) st :
  (forall s1 s2 s3, R s1 s2 -> R s2 s3 -> R s1 s3) ->
  R st (final (m st)) /\ Forall P (trace (m st)) ->
  (forall a st', R st' (final (k a st')) /\ Forall P (trace (k a st'))) ->
  R st (final (bind m k st)) /\ Forall P (trace (bind m k st)).
Proof.
  intros Htrans [Hf Ht] Hk.
  destruct (run_cases m st) as [(a & Hr)|[(c & Hr)|(e & Hr)]].
  - rewrite (bind_run _ _ _ _ _ _ Hr). cbn [final trace].
    destruct (Hk a (final (m st))) as [Hkf Hkt].
    split; [by eapply Htrans|by apply Forall_app].
  - by rewrite (bind_run_exit _ _ _ _ _ _ Hr).
  - by rewrite (bind_run_uncaught _ _ _ _ _ _ Hr).
Qed.

(** [run_compose_cmd] changes nothing, whatever its end. *)
Lemma run_compose_cmd_frame (P : Event -> Prop) env cmd st :
  (forall c, P (System c)) ->
  final (run_compose_cmd env cmd st) = st /\ Forall P (trace (run_compose_cmd env cmd st)).
Proof.
  intros HP. unfold run_compose_cmd, os_system.
  rewrite (bind_run _ _ st st st []) by done. cbn [final trace app].
  destruct (DOCKER_CONFIG_PATH st) as [path|]; [|by split].
  destruct (bool_decide (path = EmptyString)); [by split|].
  destruct (environ st !! "BTC_RELEASE_TAG") as [tag|]; [|by split].
  destruct (bool_decide (tag = EmptyString)); [by split|].
  split; [done|]. by repeat constructor.
Qed.

(** ** The links to the data volumes *)

Lemma link_volume_run H env dd volume st :
  let link := Py.path_join dd [Py.replace "-data" EmptyString volume] in
  let inspect := CheckOutput (SUDO_CMD env +:+ " docker volume inspect " +:+ volume_name volume) in
  link_volume H env dd volume st =
  match docker_volume_mountpoint H (volume_name volume) with
  | Some mp =>
      if os_path_lexists (fs st) link then mkResult (Done tt) st [inspect]
      else mkResult (Done tt) (with_fs (add_symlink mp link) st)
             [ inspect; Symlink mp link;
               Print ("For convenience, symlinking " +:+ mp +:+ " to " +:+ link) ]
  | None => mkResult (Done tt) st [inspect]
  end.
Proof.
  intros link inspect. unfold link_volume, get_docker_volume_path, print.
  fold link. fold (volume_name volume). fold inspect.
  rewrite (bind_run _ _ st (docker_volume_mountpoint H (volume_name volume)) st [inspect]) by done.
  rewrite (bind_run _ _ st st st []) by done.
  destruct (docker_volume_mountpoint H (volume_name volume)) as [mp|]; [|done].
  destruct (os_path_lexists (fs st) link); cbn [negb]; [done|].
  rewrite (bind_run _ _ st tt st [Symlink mp link]) by done.
  by rewrite (bind_run _ _ st tt (with_fs (add_symlink mp link) st) []).
Qed.

Lemma grows_add_symlink st mp link :
  os_path_lexists (fs st) link = false -> grows st (with_fs (add_symlink mp link) st).
Proof.
  intros Hl. repeat split; try done.
  cbn [with_fs fs add_symlink symlinks]. apply insert_subseteq.
  unfold os_path_lexists in Hl. apply orb_false_iff in Hl as [_ Hl].
  apply bool_decide_eq_false in Hl. by apply not_elem_of_dom.
Qed.

(** The loop over the volumes of the profile. *)
Lemma link_loop H env f0 volumes l st :
  (forall v, v ∈ l -> v ∈ volumes) ->
  (forall p, os_path_lexists f0 p = true -> os_path_lexists (fs st) p = true) ->
  linked_from H f0 volumes st ->
  let r := for_each l (link_volume H env (data_dir H)) st in
  outcome r = Done tt /\
  grows st (final r) /\
  files (fs (final r)) = files (fs st) /\
  dirs (fs (final r)) = dirs (fs st) /\
  linked_from H f0 volumes (final r) /\
  (forall v mp, v ∈ l -> docker_volume_mountpoint H (volume_name v) = Some mp ->
     os_path_lexists (fs (final r)) (volume_link H v) = true) /\
  Forall (fun e => is_removal e = false) (trace r).
Proof.
  revert st. induction l as [|v l IH]; intros st Hl Hmono Hlf r.
  { subst r. cbn. split; [done|]. split; [apply grows_refl|].
    repeat split; try done. intros v mp Hin. by apply elem_of_nil in Hin. }
  subst r. rewrite for_each_cons.
  assert (Hv : v ∈ volumes) by (apply Hl; by left).
  assert (Hl' : forall v', v' ∈ l -> v' ∈ volumes) by (intros v' Hin; apply Hl; by right).
  pose proof (link_volume_run H env (data_dir H) v st) as Hrun. cbv zeta in Hrun.
  fold (volume_link H v) in Hrun.
  destruct (docker_volume_mountpoint H (volume_name v)) as [mp|] eqn:Hmp.
  - destruct (os_path_lexists (fs st) (volume_link H v)) eqn:Hex.
    + (* something is there already *)
      rewrite (bind_run _ _ _ _ _ _ Hrun). cbn [outcome final trace].
      destruct (IH st Hl' Hmono Hlf) as (I1 & I2 & I3 & I4 & I5 & I6 & I7).
      split; [done|]. split; [done|]. split; [done|]. split; [done|]. split; [done|].
      split; [|by constructor].
      intros v' mp' [->|Hin]%elem_of_cons Hmp'; [|by eapply I6].
      by apply (os_path_lexists_grows st).
    + (* the link is made *)
      rewrite (bind_run _ _ _ _ _ _ Hrun). cbn [outcome final trace].
      set (st1 := with_fs (add_symlink mp (volume_link H v)) st).
      pose proof (grows_add_symlink st mp (volume_link H v) Hex) as Hg.
      assert (Hmono1 : forall p, os_path_lexists f0 p = true ->
                         os_path_lexists (fs st1) p = true).
      { intros p Hp. apply (os_path_lexists_grows st); [done|by apply Hmono]. }
      assert (Hlf1 : linked_from H f0 volumes st1).
      { intros link target H0 H1. subst st1.
        cbn [with_fs fs add_symlink symlinks] in H1.
        destruct (decide (volume_link H v = link)) as [<-|Hne].
        - rewrite lookup_insert_eq in H1. injection H1 as <-.
          exists v. split; [done|]. split; [done|]. split; [done|].
          destruct (os_path_lexists f0 (volume_link H v)) eqn:E; [|done].
          by rewrite (Hmono _ E) in Hex.
        - rewrite lookup_insert_ne in H1 by done. by apply Hlf. }
      destruct (IH st1 Hl' Hmono1 Hlf1) as (I1 & I2 & I3 & I4 & I5 & I6 & I7).
      split; [done|]. split; [by eapply grows_trans|].
      split; [by rewrite I3|]. split; [by rewrite I4|]. split; [done|].
      split; [|by repeat constructor].
      intros v' mp' [->|Hin]%elem_of_cons Hmp'; [|by eapply I6].
      apply (os_path_lexists_grows st1); [done|].
      unfold os_path_lexists. apply orb_true_iff. right. apply bool_decide_eq_true.
      apply elem_of_dom. exists mp. subst st1.
      cbn [with_fs fs add_symlink symlinks]. apply lookup_insert_eq.
  - rewrite (bind_run _ _ _ _ _ _ Hrun). cbn [outcome final trace].
    destruct (IH st Hl' Hmono Hlf) as (I1 & I2 & I3 & I4 & I5 & I6 & I7).
    split; [done|]. split; [done|]. split; [done|]. split; [done|]. split; [done|].
    split; [|by constructor].
    intros v' mp' [->|Hin]%elem_of_cons Hmp'; [congruence|by eapply I6].
Qed.

Lemma grows_add_dir st p : grows st (with_fs (add_dir p) st).
Proof.
  repeat split; try done. cbn [with_fs fs add_dir dirs]. apply union_subseteq_r.
Qed.

(** [link_volumes] as a whole. *)
Lemma link_volumes_summary H env build_config st :
  let r := link_volumes H env build_config st in
  let made_dir := negb (IS_WINDOWS env) && negb (os_path_exists (fs st) (data_dir H)) in
  grows st (final r) /\
  files (fs (final r)) = files (fs st) /\
  dirs (fs (final r)) = (if made_dir then {[data_dir H]} ∪ dirs (fs st) else dirs (fs st)) /\
  linked_from H (fs st) (volumes_of build_config) (final r) /\
  Forall (fun e => is_removal e = false) (trace r) /\
  (IS_WINDOWS env = true -> r = mkResult (Done tt) st []) /\
  (is_Some (Py.dict_get VOLUMES_USED build_config) ->
   outcome r = Done tt /\
   (IS_WINDOWS env = false ->
    forall v mp, v ∈ volumes_of build_config ->
      docker_volume_mountpoint H (volume_name v) = Some mp ->
      os_path_lexists (fs (final r)) (volume_link H v) = true)).
Proof.
  intros r made_dir. subst r made_dir. unfold link_volumes. fold (data_dir H).
  destruct (IS_WINDOWS env); cbn [negb andb].
  { change (ret tt st) with (mkResult (Done tt) st []). cbn [outcome final trace].
    split; [apply grows_refl|]. split; [done|]. split; [done|].
    split; [intros link target H0 H1; congruence|]. split; [done|]. split; [done|].
    intros _. split; [done|]. done. }
  rewrite (bind_run _ _ st st st []) by done. cbn [app].
  set (st1 := if os_path_exists (fs st) (data_dir H) then st
              else with_fs (add_dir (data_dir H)) st).
  assert (Hmk : (if negb (os_path_exists (fs st) (data_dir H))
                 then bind (emit (Mkdir (data_dir H))) (fun _ => modify_fs (add_dir (data_dir H)))
                 else ret tt) st =
                mkResult (Done tt) st1
                  (if os_path_exists (fs st) (data_dir H) then [] else [Mkdir (data_dir H)])).
  { subst st1. by destruct (os_path_exists (fs st) (data_dir H)). }
  rewrite (bind_run _ _ _ _ _ _ Hmk).
  assert (Hg1 : grows st st1).
  { subst st1. destruct (os_path_exists (fs st) (data_dir H));
      [apply grows_refl|apply grows_add_dir]. }
  assert (Hf1 : files (fs st1) = files (fs st)).
  { subst st1. by destruct (os_path_exists (fs st) (data_dir H)). }
  assert (Hd1 : dirs (fs st1) =
                if negb (os_path_exists (fs st) (data_dir H))
                then {[data_dir H]} ∪ dirs (fs st) else dirs (fs st)).
  { subst st1. by destruct (os_path_exists (fs st) (data_dir H)). }
  assert (Hl1 : symlinks (fs st1) = symlinks (fs st)).
  { subst st1. by destruct (os_path_exists (fs st) (data_dir H)). }
  assert (Hev1 : Forall (fun e => is_removal e = false)
                   (if os_path_exists (fs st) (data_dir H) then [] else [Mkdir (data_dir H)])).
  { destruct (os_path_exists (fs st) (data_dir H)); by repeat constructor. }
  unfold volumes_of.
  destruct (Py.dict_get VOLUMES_USED build_config) as [volumes|]; cbn [default].
  - destruct (link_loop H env (fs st) volumes volumes st1)
      as (L1 & L2 & L3 & L4 & L5 & L6 & L7); try done.
    { intros p Hp. by apply (os_path_lexists_grows st). }
    { intros link target H0 H1. rewrite Hl1 in H1. congruence. }
    cbn [outcome final trace].
    split; [by eapply grows_trans|]. split; [by rewrite L3|]. split; [by rewrite L4|].
    split; [done|]. split; [by apply Forall_app|]. split; [done|].
    intros _. split; [done|]. intros _ v mp Hv Hmp. by eapply L6.
  - cbn [outcome final trace raise]. rewrite app_nil_r.
    split; [done|]. split; [done|]. split; [done|].
    split; [intros link target H0 H1; rewrite Hl1 in H1; congruence|].
    split; [done|]. split; [done|]. by intros [? ?].
Qed.

(** X15: the links [install] makes to the data volumes never replace
    anything: every link, file and directory that was there stays as it
    was (a link that points elsewhere is not corrected); the only
    directory that can appear is the data directory, when it was
    missing; a link that appears is the link of one of the volumes of
    the profile, was made where nothing was, and points to the mount
    point the container engine reports for that volume; volumes the
    engine does not know get no link.  On Windows nothing is done at
    all.  For a profile of the table the step comes to its end, and
    then every volume the engine knows has something at its link. *)
Theorem link_volumes_never_replaces H env build_config st :
  let r := link_volumes H env build_config st in
  let made_dir := negb (IS_WINDOWS env) && negb (os_path_exists (fs st) (data_dir H)) in
  symlinks (fs st) ⊆ symlinks (fs (final r)) /\
  files (fs (final r)) = files (fs st) /\
  settings_file (fs (final r)) = settings_file (fs st) /\
  dirs (fs (final r)) = (if made_dir then {[data_dir H]} ∪ dirs (fs st) else dirs (fs st)) /\
  linked_from H (fs st) (volumes_of build_config) (final r) /\
  Forall (fun e => is_removal e = false) (trace r) /\
  (IS_WINDOWS env = true -> r = mkResult (Done tt) st []) /\
  (is_Some (Py.dict_get VOLUMES_USED build_config) ->
   outcome r = Done tt /\
   (IS_WINDOWS env = false ->
    forall v mp, v ∈ volumes_of build_config ->
      docker_volume_mountpoint H (volume_name v) = Some mp ->
      os_path_lexists (fs (final r)) (volume_link H v) = true)).
Proof.
  intros r made_dir.
  destruct (link_volumes_summary H env build_config st)
    as ((_ & _ & Hl & Hs & _) & Hf & Hd & Hlf & Hev & Hwin & Hdone).
  done.
Qed.

Example link_volumes_keeps_stale_link :
  let r := link_volumes ExampleHosts.docker_host Example.env "base" ExampleVolumes.stale_link in
  outcome r = Done tt /\
  symlinks (fs (final r)) !! "/opt/fednode/data/counterparty" = Some "/mnt/old" /\
  List.filter (fun e => match e with Symlink _ _ => true | _ => false end) (trace r) = [].
Proof. vm_compute. done. Qed.

Example link_volumes_links_known_volume :
  let r := link_volumes ExampleHosts.docker_host Example.env "base" Example.installed in
  outcome r = Done tt /\
  symlinks (fs (final r)) !! "/opt/fednode/data/counterparty"
    = Some "/var/lib/docker/volumes/bitcoinprotocols_counterparty-data/_data" /\
  symlinks (fs (final r)) !! "/opt/fednode/data/bitcoin" = None /\
  "/opt/fednode/data" ∈ dirs (fs (final r)).
Proof.
  split; [vm_compute; done|]. split; [vm_compute; done|]. split; [vm_compute; done|].
  apply (bool_decide_unpack _). vm_compute. exact I.
Qed.

(** ** [install] on a host whose ports are free *)

Lemma clone_loop_run H env ssh br repos st :
  for_each repos (clone_repo H env ssh br) st =
  mkResult (Done tt) st
    (map (clone_event H env ssh br) (List.filter (repo_missing H (fs st)) repos)).
Proof.
  induction repos as [|repo repos IH]; [done|].
  rewrite for_each_cons. cbn [List.filter]. unfold repo_missing at 1.
  assert (Hstep : clone_repo H env ssh br repo st =
                  mkResult (Done tt) st
                    (if negb (os_path_exists (fs st) (Py.path_join (SCRIPTDIR H) ["src"; repo]))
                     then [clone_event H env ssh br repo] else [])).
  { unfold clone_repo, run_git, os_system.
    rewrite (bind_run _ _ st st st []) by done.
    by destruct (os_path_exists (fs st) (Py.path_join (SCRIPTDIR H) ["src"; repo])). }
  rewrite (bind_run _ _ _ _ _ _ Hstep). rewrite IH. cbn [outcome final trace].
  by destruct (os_path_exists (fs st) (Py.path_join (SCRIPTDIR H) ["src"; repo])).
Qed.

(** The installation up to the pull of the images. *)
Lemma do_install_free H env pulls cfg br ssh ports st path :
  Py.dict_get HOST_PORTS_USED cfg = Some ports ->
  (forall p, p ∈ ports -> connect_ex H "127.0.0.1" p <> 0) ->
  compose_ready st path ->
  do_install H env pulls false cfg br ssh st =
  let rest := bind (materialize_configs H env)
                (fun _ => bind (link_volumes H env cfg)
                            (fun _ => run_compose_cmd env "up -d")) st in
  mkResult (outcome rest) (final rest)
    (map (ConnectEx "127.0.0.1") ports ++
     map (clone_event H env ssh br) (List.filter (repo_missing H (fs st)) REPOS_BASE) ++
     (if pulls then System (compose_cmdline env path "pull --ignore-pull-failures")
      else Print "skipping docker pull command") :: trace rest).
Proof.
  intros Hports Hfree Hready. unfold do_install.
  rewrite (bind_run _ _ st tt st []) by done. rewrite Hports.
  rewrite (bind_run _ _ _ _ _ _ (check_ports_free H ports st Hfree)).
  replace (if bool_decide (cfg = "base") then REPOS_BASE else REPOS_FULL) with REPOS_BASE
    by (by destruct (bool_decide (cfg = "base"))).
  rewrite (bind_run _ _ _ _ _ _ (clone_loop_run H env ssh br REPOS_BASE st)).
  assert (Hpull :
    (if pulls then run_compose_cmd env "pull --ignore-pull-failures"
     else print "skipping docker pull command") st =
    mkResult (Done tt) st
      [ if pulls then System (compose_cmdline env path "pull --ignore-pull-failures")
        else Print "skipping docker pull command" ]).
  { destruct pulls; [|done]. by rewrite (run_compose_cmd_ready _ _ _ _ Hready). }
  rewrite (bind_run _ _ _ _ _ _ Hpull).
  cbv zeta. cbn [outcome final trace app]. done.
Qed.

Lemma choices_install cfg br ssh m nb :
  cfg ∈ ["base"; "base_extbtc"; "full"] ->
  br ∈ ["master"; "develop"] ->
  choices_ok (install cfg br ssh m nb) = true /\ br <> EmptyString /\
  is_Some (Py.dict_get HOST_PORTS_USED cfg) /\
  is_Some (Py.dict_get VOLUMES_USED cfg) /\
  is_Some (Py.dict_get CONFIGCHECK_FILES cfg).
Proof.
  intros Hcfg Hbr. split; [unfold choices_ok; by rewrite !bool_decide_eq_true_2|].
  split.
  { repeat (apply elem_of_cons in Hbr as [->|Hbr]; [done|]). by apply elem_of_nil in Hbr. }
  repeat (apply elem_of_cons in Hcfg as [->|Hcfg]; [by repeat split|]).
  by apply elem_of_nil in Hcfg.
Qed.

(** X16: on a host without settings whose required ports are free,
    [install] writes the settings, probes every port of the profile
    and then clones exactly the repositories whose checkout directory
    is missing - in the order of the list, on the branch given, as the
    session user - and no other; right after that it pulls the images,
    or only says that it skips the pull when [--no-pull] was given. *)
Theorem install_clones_what_is_missing lib H d np cfg br ssh m nb st env ports :
  settings_file (fs st) = None ->
  outcome (setup_env H st) = Done env ->
  cfg ∈ ["base"; "base_extbtc"; "full"] ->
  br ∈ ["master"; "develop"] ->
  Py.dict_get HOST_PORTS_USED cfg = Some ports ->
  (forall p, p ∈ ports -> connect_ex H "127.0.0.1" p <> 0) ->
  let r := main lib H (mkArgs d np (install cfg br ssh m nb)) st in
  exists rest,
    trace r =
      trace (setup_env H st) ++
      WriteConfig (mkSettings br cfg) ::
      map (ConnectEx "127.0.0.1") ports ++
      map (clone_event H env ssh br) (List.filter (repo_missing H (fs st)) REPOS_BASE) ++
      (if np then Print "skipping docker pull command"
       else System (compose_cmdline env (docker_config_path_of H cfg)
                      "pull --ignore-pull-failures")) :: rest.
Proof.
  intros Hnone Hs Hcfg Hbr Hports Hfree r. subst r.
  destruct (choices_install cfg br ssh m nb Hcfg Hbr) as (Hc & Hne & _).
  rewrite (main_install_fresh lib H d np cfg br ssh m nb st env) by done.
  cbv zeta. unfold dispatch.
  set (st1 := session_state _ _ _ _).
  assert (Hready : compose_ready st1 (docker_config_path_of H cfg))
    by (by apply (session_state_ready H (mkSettings br cfg))).
  rewrite (do_install_free H env (negb np) cfg br ssh ports st1 _ Hports Hfree Hready).
  cbv zeta. cbn [trace]. eexists. do 4 f_equal. by destruct np.
Qed.

Lemma install_clones_what_is_missing_witness :
  let r := main Example.lib Example.lan_host
                (mkArgs false true (install "base" "develop" true "127.0.0.1" false))
                ExampleVolumes.checked_out_fresh in
  exists rest,
    trace r =
      trace (setup_env Example.lan_host ExampleVolumes.checked_out_fresh) ++
      WriteConfig (mkSettings "develop" "base") ::
      map (ConnectEx "127.0.0.1")
          [8332; 18332; 8432; 18432; 4000; 14000; 8097; 18097; 8098; 18098] ++
      [ System ("sudo -E -u alice bash -c " +:+ Py.dq +:+
                "git clone -b develop git@github.com:CounterpartyXCP/addrindexrs.git /opt/fednode/src/addrindexrs"
                +:+ Py.dq);
        System ("sudo -E -u alice bash -c " +:+ Py.dq +:+
                "git clone -b develop git@github.com:CounterpartyXCP/xcp-proxy.git /opt/fednode/src/xcp-proxy"
                +:+ Py.dq);
        System ("sudo -E -u alice bash -c " +:+ Py.dq +:+
                "git clone -b develop git@github.com:CounterpartyXCP/http-addrindexrs.git /opt/fednode/src/http-addrindexrs"
                +:+ Py.dq) ] ++
      Print "skipping docker pull command" :: rest.
Proof.
  pose proof (install_clones_what_is_missing Example.lib Example.lan_host false true
                "base" "develop" true "127.0.0.1" false ExampleVolumes.checked_out_fresh
                Example.env
                [8332; 18332; 8432; 18432; 4000; 14000; 8097; 18097; 8098; 18098]) as W.
  apply W.
  - reflexivity.
  - reflexivity.
  - vm_compute; repeat constructor.
  - vm_compute; repeat constructor.
  - reflexivity.
  - intros p Hp. apply connect_ex_refused. intros a Ha.
    apply list_elem_of_singleton in Ha. injection Ha as -> _.
    by exists "192.168.1.5".
Defined.

(** ** What [install] leaves behind *)

Lemma frame_grows {A} (P : Event -> Prop) (m : Run A) st :
  final (m st) = st /\ Forall P (trace (m st)) ->
  grows st (final (m st)) /\ Forall P (trace (m st)).
Proof. intros [Hf Ht]. rewrite Hf. split; [apply grows_refl|done]. Qed.

Lemma check_ports_frame H ports st :
  final (check_ports H ports st) = st /\
  Forall (fun e => is_removal e = false) (trace (check_ports H ports st)).
Proof.
  unfold check_ports. apply for_each_frame. intros port st'.
  rewrite (bind_run _ _ _ _ _ _ (is_port_open_run H port st')).
  destruct (connect_ex H "127.0.0.1" port =? 0)%Z; cbn; split; by repeat constructor.
Qed.

Lemma materialize_config_events H env t st :
  Forall (fun e => is_removal e = false) (trace (materialize_config H env t st)).
Proof.
  rewrite materialize_config_run. cbv zeta.
  destruct (os_path_exists (fs st) _); [done|].
  destruct (files (fs st) !! t); [|by repeat constructor].
  destruct (IS_WINDOWS env); by repeat constructor.
Qed.

Lemma materialize_configs_grows H env st :
  grows st (final (materialize_configs H env st)) /\
  Forall (fun e => is_removal e = false) (trace (materialize_configs H env st)).
Proof.
  unfold materialize_configs. rewrite (bind_run _ _ st st st []) by done.
  cbn [final trace app].
  destruct (for_each_invariant keeps_files (fun e => is_removal e = false)
              (glob_defaults H (fs st)) (materialize_config H env) st) as [Hk Ht].
  - apply keeps_files_refl.
  - apply keeps_files_trans.
  - intros t st'. split; [apply materialize_config_keeps|apply materialize_config_events].
  - split; [by apply keeps_files_grows|done].
Qed.

(** [install], from the port check on: it only adds. *)
Lemma do_install_grows H env pulls existed cfg br ssh st :
  grows st (final (do_install H env pulls existed cfg br ssh st)) /\
  Forall (fun e => is_removal e = false) (trace (do_install H env pulls existed cfg br ssh st)).
Proof.
  unfold do_install.
  apply bind_invariant; [apply grows_trans| |intros _ st1].
  { apply frame_grows. destruct existed; cbn; split; by repeat constructor. }
  apply bind_invariant; [apply grows_trans| |intros _ st2].
  { apply frame_grows. destruct (Py.dict_get HOST_PORTS_USED cfg); [|by split].
    apply check_ports_frame. }
  apply bind_invariant; [apply grows_trans| |intros _ st3].
  { apply frame_grows. rewrite clone_loop_run. cbn [final trace]. split; [done|].
    apply Forall_forall. by intros e (repo & -> & _)%list_elem_of_fmap. }
  apply bind_invariant; [apply grows_trans| |intros _ st4].
  { apply frame_grows. destruct pulls; [|cbn; split; by repeat constructor].
    by apply run_compose_cmd_frame. }
  apply bind_invariant; [apply grows_trans|apply materialize_configs_grows|intros _ st5].
  apply bind_invariant; [apply grows_trans| |intros _ st6].
  { destruct (link_volumes_summary H env cfg st5) as (Hg & _ & _ & _ & Hev & _). by split. }
  apply frame_grows. by apply run_compose_cmd_frame.
Qed.

(** X17: [install] only adds, whatever its end (refused, stopped by
    the port check, failed on the way, or done): every file, directory
    and link that was on the host is there unchanged afterwards, and
    the script itself removes nothing; settings that were there stay
    as they were, and on a host without settings an accepted [install]
    leaves the settings it wrote - profile and branch as given - also
    when it does not come to its end. *)
Theorem install_only_adds lib H d np cfg br ssh m nb st :
  let r := main lib H (mkArgs d np (install cfg br ssh m nb)) st in
  files (fs st) ⊆ files (fs (final r)) /\
  dirs (fs st) ⊆ dirs (fs (final r)) /\
  symlinks (fs st) ⊆ symlinks (fs (final r)) /\
  Forall (fun e => is_removal e = false) (trace r) /\
  (forall s, settings_file (fs st) = Some s -> settings_file (fs (final r)) = Some s) /\
  (forall env, settings_file (fs st) = None ->
     outcome (setup_env H st) = Done env ->
     choices_ok (install cfg br ssh m nb) = true ->
     settings_file (fs (final r)) = Some (mkSettings br cfg)).
Proof.
  intros r. subst r.
  assert (Hsetup : Forall (fun e => is_removal e = false) (trace (setup_env H st))).
  { apply setup_env_Forall. unfold setup_events. by repeat constructor. }
  destruct (setup_env_outcome H st) as [(env & He)|Hfail]; cycle 1.
  { destruct (main_setup_failed lib H (mkArgs d np (install cfg br ssh m nb)) st)
      as (_ & -> & ->).
    - intros env He. destruct Hfail as [Hf|(e & Hf)]; congruence.
    - repeat split; try done. intros env _ He. destruct Hfail as [Hf|(e & Hf)]; congruence. }
  destruct (choices_ok (install cfg br ssh m nb)) eqn:Hc; cycle 1.
  { rewrite (main_parse_failed lib H d np _ st env) by done. cbn [final trace].
    repeat split; try done. }
  destruct (settings_file (fs st)) as [s|] eqn:Hset.
  - rewrite (main_install_installed lib H d np cfg br ssh m nb st env s) by done.
    cbn [final trace session_state fs].
    split; [done|]. split; [done|]. split; [done|]. split; [|split; [|done]].
    + apply Forall_app. split; [done|]. by repeat constructor.
    + intros s0 [= <-]. exact Hset.
  - rewrite (main_install_fresh lib H d np cfg br ssh m nb st env) by done.
    cbv zeta. unfold dispatch. set (st1 := session_state _ _ _ _).
    destruct (do_install_grows H env (negb np) false cfg br ssh st1)
      as ((Hf & Hd & Hl & Hs & _) & Hev).
    cbn [final trace].
    split; [exact Hf|]. split; [exact Hd|]. split; [exact Hl|]. split; [|split].
    + apply Forall_app. split; [done|]. by constructor.
    + by intros s.
    + intros env' _ _ _. by rewrite Hs.
Qed.

Example install_only_adds_after_failure :
  let r := main Example.lib Example.host
                (mkArgs false false (install "base" "master" false "127.0.0.1" false))
                Example.fresh in
  outcome r = SysExit 1 /\
  settings_file (fs (final r)) = Some (mkSettings "master" "base").
Proof. vm_compute. done. Qed.

(** *** An installation that comes to its end *)





(** ** [update]: which services, and their restarts *)

(** X19: [update] without service names is [update] of all the
    services of the allow-list, in the order of that list: the two
    runs are the same in every state and on every host. *)
Theorem update_without_names_updates_all lib H d np nr st :
  main lib H (mkArgs d np (update nr [])) st =
  main lib H (mkArgs d np (update nr UPDATE_CHOICES)) st.
Proof.
  unfold main. apply bind_ext. intros env st1.
  unfold parse_args. cbn [command choices_ok]. rewrite !bind_ret_l.
  cbn [command verb no_pull].
  rewrite (bool_decide_eq_false_2 ("update" = "docker_clean")) by done.
  change (require_settings (update nr UPDATE_CHOICES)) with (require_settings (update nr [])).
  apply bind_ext. intros existed st2.
  change (load_settings H (update nr UPDATE_CHOICES)) with (load_settings H (update nr [])).
  apply bind_ext. intros cfg st3.
  unfold dispatch, do_update.
  rewrite (bind_run _ _ _ _ _ _ (validate_services_accepts [] st3 (Forall_nil_2 _))).
  assert (Hall : Forall (fun s => s ∈ UPDATE_CHOICES) UPDATE_CHOICES)
    by (apply Forall_forall; by intros s Hs).
  rewrite (bind_run _ _ _ _ _ _ (validate_services_accepts UPDATE_CHOICES st3 Hall)).
  reflexivity.
Qed.

Lemma prefix_append p s : String.prefix p (p +:+ s) = true.
Proof.
  induction p as [|c p IH]; [by destruct s|].
  change (String c p +:+ s) with (String c (p +:+ s)). cbn [String.prefix].
  by destruct (Ascii.ascii_dec c c).
Qed.

Lemma compose_cmdline_append env path a b :
  compose_cmdline env path (a +:+ b) = compose_cmdline env path a +:+ b.
Proof. unfold compose_cmdline. by rewrite !append_assoc. Qed.

Lemma is_restart_restart env path s : is_restart env path (restart_event env path s) = true.
Proof.
  unfold is_restart, restart_event, Py.startswith.
  rewrite compose_cmdline_append. apply prefix_append.
Qed.

Lemma shrinks_ready st st' path : shrinks st st' -> compose_ready st path -> compose_ready st' path.
Proof.
  intros (_ & He & Hp) (Hpath & Hne & tag & Htag & Htne).
  split; [congruence|]. split; [done|]. exists tag. by rewrite He.
Qed.

(** The source update of a checkout directory restarts nothing. *)
Lemma update_service_dir_quiet H env path b sd st :
  env_ok env ->
  shrinks st (final (update_service_dir H env b sd st)) /\
  Forall (fun e => is_restart env path e = false) (trace (update_service_dir H env b sd st)).
Proof.
  intros Henv. unfold update_service_dir.
  apply bind_invariant; [apply shrinks_trans|by split; [apply shrinks_refl|]|intros st0 st1].
  destruct (os_path_exists (fs st0) _); cbn [negb]; [|by split; [apply shrinks_refl|]].
  apply bind_invariant; [apply shrinks_trans| |intros out st2].
  { split; [apply shrinks_refl|]. by repeat constructor. }
  destruct (bool_decide (Py.strip out = EmptyString)).
  { split; [apply shrinks_refl|]. by repeat constructor. }
  apply bind_invariant; [apply shrinks_trans| |intros _ st3].
  { split; [apply shrinks_refl|]. repeat constructor.
    unfold is_restart, Py.startswith, compose_cmdline, git_cmdline.
    destruct Henv as [->|(user & ->)]; cbn [IS_WINDOWS negb SUDO_CMD fmt_user SESSION_USER];
      vm_compute; reflexivity. }
  destruct (bool_decide (b ∈ ["counterparty"; "armory-utxsvr"])); [|by split; [apply shrinks_refl|]].
  apply bind_invariant; [apply shrinks_trans|by split; [apply shrinks_refl|]|intros st4 st5].
  apply (for_each_invariant shrinks); [apply shrinks_refl|apply shrinks_trans|].
  intros egg st6. unfold remove_egg.
  apply bind_invariant; [apply shrinks_trans| |intros _ st7].
  { split; [apply shrinks_refl|]. by repeat constructor. }
  destruct (IS_WINDOWS env) eqn:Hwin; cbn [negb].
  - apply bind_invariant; [apply shrinks_trans|by split; [apply shrinks_refl|]|intros st8 st9].
    destruct (bool_decide (egg ∈ dirs (fs st8))); [|by split; [apply shrinks_refl|]].
    apply bind_invariant; [apply shrinks_trans| |intros _ st10].
    + split; [apply shrinks_refl|]. by repeat constructor.
    + split; [apply shrinks_remove_tree|done].
  - split; [apply shrinks_refl|]. repeat constructor.
    unfold is_restart, Py.startswith, compose_cmdline, rm_rf_cmdline.
    destruct Henv as [->|(user & ->)]; [done|].
    cbn [SUDO_CMD]. vm_compute. reflexivity.
Qed.

(** The loop of [update], seen through its restarts. *)
Lemma update_loop_restarts H env nr path services :
  env_ok env ->
  forall ghu st,
  compose_ready st path ->
  let r := update_loop H env nr services ghu st in
  let wanted := if nr then [] else map (restart_event env path) services in
  List.filter (is_restart env path) (trace r) `prefix_of` wanted /\
  ((exists g, outcome r = Done g) -> List.filter (is_restart env path) (trace r) = wanted).
Proof.
  intros Henv. induction services as [|s services IH]; intros ghu st Hready r wanted.
  { subst r wanted. cbn. split; [by destruct nr|]. by destruct nr. }
  subst r. cbn [update_loop].
  match goal with
  | |- context [bind ?m1 _ st] => set (source := m1) in *
  end.
  assert (Hsource : shrinks st (final (source st)) /\
                    Forall (fun e => is_restart env path e = false) (trace (source st))).
  { subst source. destruct (bool_decide _); cbn [negb]; [by split; [apply shrinks_refl|]|].
    apply bind_invariant; [apply shrinks_trans| |intros _ st1; by split; [apply shrinks_refl|]].
    apply (for_each_invariant shrinks); [apply shrinks_refl|apply shrinks_trans|].
    intros sd st1. by apply update_service_dir_quiet. }
  destruct Hsource as [Hshr Hquiet].
  assert (Hnone : List.filter (is_restart env path) (trace (source st)) = []).
  { clear -Hquiet. induction Hquiet as [|e tr He _ IHq]; [done|].
    cbn [List.filter]. by rewrite He. }
  destruct (run_cases source st) as [(g & Hr1)|[(c & Hr1)|(e & Hr1)]].
  - rewrite (bind_run _ _ _ _ _ _ Hr1).
    set (st1 := final (source st)) in *.
    assert (Hready1 : compose_ready st1 path) by (by apply (shrinks_ready st)).
    assert (Hrestart :
      (if negb nr then run_compose_cmd env ("restart " +:+ s) else ret tt) st1 =
      mkResult (Done tt) st1 (if nr then [] else [restart_event env path s])).
    { destruct nr; cbn [negb]; [done|]. by rewrite (run_compose_cmd_ready _ _ _ _ Hready1). }
    rewrite (bind_run _ _ _ _ _ _ Hrestart).
    destruct (IH g st1 Hready1) as [IHp IHd]. cbv zeta in IHp, IHd.
    cbn [outcome final trace]. rewrite !List.filter_app, Hnone. cbn [app].
    subst wanted. destruct nr; cbn [List.filter app map].
    + split; [done|done].
    + rewrite is_restart_restart. split.
      * by apply prefix_cons.
      * intros Hd. by rewrite (IHd Hd).
  - rewrite (bind_run_exit _ _ _ _ _ _ Hr1). cbn [outcome trace]. rewrite Hnone.
    split; [apply prefix_nil|]. by intros (g & Hg).
  - rewrite (bind_run_uncaught _ _ _ _ _ _ Hr1). cbn [outcome trace]. rewrite Hnone.
    split; [apply prefix_nil|]. by intros (g & Hg).
Qed.

Lemma setup_no_restart H env path st :
  env_ok env -> List.filter (is_restart env path) (trace (setup_env H st)) = [].
Proof.
  intros Henv. pose proof (setup_env_events H st) as Hev.
  induction Hev as [|e tr He _ IH]; [done|].
  cbn [List.filter]. rewrite IH.
  unfold setup_events in He.
  repeat (apply elem_of_cons in He as [->|He];
          [destruct Henv as [->|(user & ->)]; vm_compute; reflexivity|]).
  by apply elem_of_nil in He.
Qed.

(** X20: on an installed host, [update] of service names of the
    allow-list restarts the services one by one in the order they were
    named (all of the allow-list when none is named) - also the mainnet
    and the testnet variant of a service, whose sources are pulled
    once - and restarts nothing else; with [--no-restart] it restarts
    nothing.  A run that stops on the way has restarted the services
    before the one it stopped at, and no other. *)
Theorem update_restarts_in_order lib H d np nr services st env cfg :
  outcome (setup_env H st) = Done env ->
  settings_file (fs st) = Some cfg ->
  branch cfg <> EmptyString ->
  Forall (fun s => s ∈ UPDATE_CHOICES) services ->
  let r := main lib H (mkArgs d np (update nr services)) st in
  let path := docker_config_path_of H (config cfg) in
  let restarts := List.filter (is_restart env path) (trace r) in
  let wanted :=
    if nr then [] else map (restart_event env path) (services_to_update services) in
  restarts `prefix_of` wanted /\
  (outcome r = Done tt -> restarts = wanted).
Proof.
  intros Hs Hcfg Hb Hok r path restarts wanted. subst restarts r.
  pose proof (setup_env_env_ok H st env Hs) as Henv.
  rewrite (main_installed lib H d np _ st env cfg) by done.
  cbv zeta. unfold dispatch, do_update.
  set (st1 := session_state H cfg (update nr services) st).
  rewrite (bind_run _ _ _ _ _ _ (validate_services_accepts services st1 Hok)).
  assert (Htodo : (if negb (bool_decide (0 < length services)%nat)
                   then UPDATE_CHOICES else services) = services_to_update services).
  { by destruct services. }
  rewrite Htodo.
  pose proof (session_state_ready H cfg (update nr services) st Hb) as Hready.
  destruct (update_loop_restarts H env nr path (services_to_update services) Henv [] st1 Hready)
    as [Hp Hd].
  cbv zeta in Hp, Hd. fold wanted in Hp, Hd.
  set (loop := update_loop H env nr (services_to_update services) [] st1) in *.
  assert (Hrun : bind (update_loop H env nr (services_to_update services) [])
                      (fun _ => ret tt) st1 =
                 mkResult (match outcome loop with
                           | Done _ => Done tt
                           | SysExit c => SysExit c
                           | Uncaught e => Uncaught e
                           end) (final loop) (trace loop)).
  { fold loop. unfold bind.
    destruct (update_loop H env nr (services_to_update services) [] st1)
      as [[g|c|e] st2 tr2] eqn:E; subst loop; rewrite ?E; cbn; by rewrite ?app_nil_r. }
  rewrite Hrun. cbn [outcome trace app].
  rewrite List.filter_app, (setup_no_restart H env path st Henv). cbn [app].
  split; [done|]. intros Hdone. apply Hd.
  destruct (outcome loop) as [g| |]; [by exists g|done..].
Qed.

Lemma update_restarts_in_order_witness :
  let r := main Example.lib Example.host
                (mkArgs false false (update false ["counterparty"; "counterparty-testnet"]))
                ExampleRepos.checked_out in
  outcome r = Done tt /\
  List.filter (is_restart Example.env "/opt/fednode/docker-compose.base.yml") (trace r) =
  [ System "sudo -E docker-compose -f /opt/fednode/docker-compose.base.yml -p bitcoinprotocols restart counterparty";
    System "sudo -E docker-compose -f /opt/fednode/docker-compose.base.yml -p bitcoinprotocols restart counterparty-testnet" ].
Proof.
  pose proof (update_restarts_in_order Example.lib Example.host false false false
                ["counterparty"; "counterparty-testnet"] ExampleRepos.checked_out
                Example.env Example.settings) as W.
  destruct W as (_ & W).
  - reflexivity.
  - reflexivity.
  - discriminate.
  - repeat constructor.
  - assert (Ho : outcome (main Example.lib Example.host
                   (mkArgs false false (update false ["counterparty"; "counterparty-testnet"]))
                   ExampleRepos.checked_out) = Done tt) by (vm_compute; reflexivity).
    split; [exact Ho|]. exact (W Ho).
Defined.

(** X21: on an installed host, when the checkout of the first service
    to update is there but in detached state ([git symbolic-ref]
    prints no branch), [update] says so and exits with status 1 right
    after that probe: nothing is pulled, nothing restarted, and the
    files are as they were. *)
Theorem update_stops_at_detached_checkout lib H d np nr s services sd sds st env cfg :
  outcome (setup_env H st) = Done env ->
  settings_file (fs st) = Some cfg ->
  Forall (fun s' => s' ∈ UPDATE_CHOICES) (s :: services) ->
  service_dirs H (base_of s) = sd :: sds ->
  os_path_exists (fs st) (repo_path H sd) = true ->
  Py.strip (git_symbolic_ref_out H (repo_path H sd)) = EmptyString ->
  let r := main lib H (mkArgs d np (update nr (s :: services))) st in
  outcome r = SysExit 1 /\
  trace r = trace (setup_env H st) ++
            [ CheckOutput (symbolic_ref_cmd H (repo_path H sd));
              Print "Unknown service git branch name, or repo in detached state" ] /\
  fs (final r) = fs st.
Proof.
  intros Hs Hcfg Hok Hdirs Hex Hdetached r. subst r.
  rewrite (main_installed lib H d np _ st env cfg) by done.
  cbv zeta. unfold dispatch, do_update.
  set (st1 := session_state H cfg (update nr (s :: services)) st).
  rewrite (bind_run _ _ _ _ _ _ (validate_services_accepts (s :: services) st1 Hok)).
  cbn [length negb app]. rewrite (bool_decide_eq_true_2 (0 < S (length services))%nat) by lia.
  cbn [negb update_loop]. fold (base_of s). rewrite Hdirs.
  rewrite (bool_decide_eq_false_2 (base_of s ∈ [])) by apply not_elem_of_nil.
  cbn [negb].
  assert (Hdir : update_service_dir H env (base_of s) sd st1 =
                 mkResult (SysExit 1) st1
                   [ CheckOutput (symbolic_ref_cmd H (repo_path H sd));
                     Print "Unknown service git branch name, or repo in detached state" ]).
  { unfold update_service_dir. fold (repo_path H sd).
    rewrite (bind_run _ _ st1 st1 st1 []) by done.
    change (os_path_exists (fs st1) (repo_path H sd))
      with (os_path_exists (fs st) (repo_path H sd)).
    rewrite Hex. cbn [negb app].
    assert (Hco : check_output (symbolic_ref_cmd H (repo_path H sd))
                    (Some (git_symbolic_ref_out H (repo_path H sd))) st1
                  = mkResult (Done (git_symbolic_ref_out H (repo_path H sd))) st1
                             [CheckOutput (symbolic_ref_cmd H (repo_path H sd))]) by done.
    rewrite (bind_run _ _ _ _ _ _ Hco).
    rewrite (bool_decide_eq_true_2 _ Hdetached). reflexivity. }
  match goal with
  | |- context [bind (bind (bind ?x0 ?k1) ?k2) ?k3 st1] =>
      assert (H1 : x0 st1 = mkResult (SysExit 1) st1
                [ CheckOutput (symbolic_ref_cmd H (repo_path H sd));
                  Print "Unknown service git branch name, or repo in detached state" ])
        by (rewrite for_each_cons; by rewrite (bind_run_exit _ _ _ _ _ _ Hdir));
      assert (H2 : bind x0 k1 st1 = mkResult (SysExit 1) st1
                [ CheckOutput (symbolic_ref_cmd H (repo_path H sd));
                  Print "Unknown service git branch name, or repo in detached state" ])
        by (by rewrite (bind_run_exit _ _ _ _ _ _ H1));
      assert (H3 : bind (bind x0 k1) k2 st1 = mkResult (SysExit 1) st1
                [ CheckOutput (symbolic_ref_cmd H (repo_path H sd));
                  Print "Unknown service git branch name, or repo in detached state" ])
        by (by rewrite (bind_run_exit _ _ _ _ _ _ H2));
      rewrite (bind_run_exit _ _ _ _ _ _ H3)
  end.
  done.
Qed.

Lemma update_stops_at_detached_checkout_witness :
  let r := main Example.lib ExampleHosts.docker_host
                (mkArgs false false (update false ["addrindexrs"; "counterparty"]))
                ExampleHosts.with_addrindexrs in
  outcome r = SysExit 1 /\
  trace r = trace (setup_env ExampleHosts.docker_host ExampleHosts.with_addrindexrs) ++
    [ CheckOutput "cd /opt/fednode/src/addrindexrs;git symbolic-ref --short -q HEAD;cd /home/alice";
      Print "Unknown service git branch name, or repo in detached state" ] /\
  fs (final r) = fs ExampleHosts.with_addrindexrs.
Proof.
  apply (update_stops_at_detached_checkout Example.lib ExampleHosts.docker_host
           false false false "addrindexrs" ["counterparty"] "addrindexrs" []
           ExampleHosts.with_addrindexrs Example.env Example.settings).
  - reflexivity.
  - reflexivity.
  - repeat constructor.
  - reflexivity.
  - vm_compute. reflexivity.
  - reflexivity.
Defined.

(** ** Verbs that leave the files alone *)

Lemma do_docker_clean_frame H env st :
  final (do_docker_clean H env st) = st /\
  Forall (fun e => is_fs_write e = false) (trace (do_docker_clean H env st)).
Proof.
  unfold do_docker_clean, check_output.
  destruct (docker_ps_out H) as [containers|]; cycle 1.
  { rewrite (bind_run_uncaught _ _ st "CalledProcessError" st
               [CheckOutput (SUDO_CMD env +:+ " docker ps -a -q")]) by done.
    split; [done|]. by repeat constructor. }
  rewrite (bind_run _ _ st containers st [CheckOutput (SUDO_CMD env +:+ " docker ps -a -q")])
    by done.
  destruct (docker_images_out H) as [images|]; cycle 1.
  { rewrite (bind_run_uncaught _ _ st "CalledProcessError" st
               [CheckOutput (SUDO_CMD env +:+ " docker images -q")]) by done.
    split; [done|]. by repeat constructor. }
  rewrite (bind_run _ _ st images st [CheckOutput (SUDO_CMD env +:+ " docker images -q")])
    by done.
  rewrite (bind_run _ _ _ _ _ _
             (for_each_named (fun c => SUDO_CMD env +:+ " docker rm " +:+ c) _ st)).
  rewrite (bind_run _ _ _ _ _ _
             (for_each_named (fun i => SUDO_CMD env +:+ " docker rmi " +:+ i) _ st)).
  cbn [final trace sys_exit]. split; [done|].
  constructor; [done|]. constructor; [done|].
  rewrite app_nil_r. apply Forall_app. split; apply Forall_forall;
    by intros e (x & -> & _)%list_elem_of_fmap.
Qed.

(** The two halves of a sequence that leaves the state as it is. *)
Lemma bind_frame {A B} (P : Event -> Prop) (m : Run A) (k : A -> Run B) st :
  final (m st) = st /\ Forall P (trace (m st)) ->
  (forall a, final (k a st) = st /\ Forall P (trace (k a st))) ->
  final (bind m k st) = st /\ Forall P (trace (bind m k st)).
Proof.
  intros [Hf Ht] Hk.
  destruct (run_cases m st) as [(a & Hr)|[(c & Hr)|(e & Hr)]]; rewrite Hf in Hr.
  - rewrite (bind_run _ _ _ _ _ _ Hr). cbn [final trace].
    destruct (Hk a) as [Hkf Hkt]. split; [done|by apply Forall_app].
  - by rewrite (bind_run_exit _ _ _ _ _ _ Hr).
  - by rewrite (bind_run_uncaught _ _ _ _ _ _ Hr).
Qed.

Lemma is_container_running_frame H env service abort st :
  final (is_container_running H env service abort st) = st /\
  Forall (fun e => is_fs_write e = false) (trace (is_container_running H env service abort st)).
Proof.
  unfold is_container_running.
  rewrite (bind_run _ _ st tt st [CheckOutput (inspect_cmdline env service)]) by done.
  cbn [final trace].
  destruct (docker_inspect_out H (container_name service)); [by split; [|repeat constructor]|].
  destruct abort; cbn; split; by repeat constructor.
Qed.

(** The verbs that only talk to the engines. *)
Lemma dispatch_frame lib H env pulls existed cfg br c st :
  verb c ∉ ["install"; "uninstall"; "update"] ->
  final (dispatch lib H env pulls existed cfg br c st) = st /\
  Forall (fun e => is_fs_write e = false) (trace (dispatch lib H env pulls existed cfg br c st)).
Proof.
  intros Hverb.
  assert (Hcompose : forall cmd st',
            final (run_compose_cmd env cmd st') = st' /\
            Forall (fun e => is_fs_write e = false) (trace (run_compose_cmd env cmd st')))
    by (intros cmd st'; by apply run_compose_cmd_frame).
  destruct c; unfold dispatch;
    try (exfalso; apply Hverb; cbn [verb]; by repeat constructor);
    try apply Hcompose;
    try (apply bind_frame; [apply Hcompose|intros _; apply Hcompose]).
  - (* exec *) split; [done|]. by repeat constructor.
  - (* shell *)
    apply bind_frame; [apply is_container_running_frame|intros running].
    destruct running as [[|]|];
      try (split; [done|]; by repeat constructor);
      (apply bind_frame; [split; [done|]; by repeat constructor|intros _; apply Hcompose]).
  - (* rebuild *)
    apply bind_frame.
    { destruct pulls; [apply Hcompose|]. split; [done|]. by repeat constructor. }
    intros _. apply bind_frame; [|intros _; apply Hcompose].
    destruct no_cache; [apply Hcompose|]. by split.
  - (* docker_clean *) by split.
  - (* configcheck *) apply config_check_frame.
Qed.

(** X22: every verb other than [install], [uninstall] and [update]
    leaves the files of the script alone, on every host and in every
    state, whatever its end: the settings, the config files, the
    directories and the links are as they were, and the script itself
    writes, copies, links or removes nothing - all these verbs do is to
    print and to run commands of the engines. *)
Theorem other_verbs_write_nothing lib H d np c st :
  verb c ∉ ["install"; "uninstall"; "update"] ->
  let r := main lib H (mkArgs d np c) st in
  fs (final r) = fs st /\
  Forall (fun e => is_fs_write e = false) (trace r).
Proof.
  intros Hverb r. subst r.
  assert (Hsetup : Forall (fun e => is_fs_write e = false) (trace (setup_env H st))).
  { apply setup_env_Forall. unfold setup_events. by repeat constructor. }
  destruct (setup_env_outcome H st) as [(env & He)|Hfail]; cycle 1.
  { destruct (main_setup_failed lib H (mkArgs d np c) st) as (_ & -> & ->); [|done].
    intros env He. destruct Hfail as [Hf|(e & Hf)]; congruence. }
  destruct (choices_ok c) eqn:Hc; cycle 1.
  { by rewrite (main_parse_failed lib H d np _ st env). }
  destruct (decide (verb c = "docker_clean")) as [Hclean|Hclean].
  { destruct c; try discriminate Hclean.
    rewrite (main_docker_clean lib H d np st env He). cbv zeta. cbn [final trace].
    destruct (do_docker_clean_frame H env st) as [-> Ht].
    split; [done|by apply Forall_app]. }
  destruct (settings_file (fs st)) as [cfg|] eqn:Hcfg.
  - rewrite (main_installed lib H d np _ st env cfg) by done.
    cbv zeta. cbn [final trace].
    destruct (dispatch_frame lib H env (negb np) true (config cfg) (branch cfg) c
                (session_state H cfg c st) Hverb) as [-> Ht].
    split; [done|by apply Forall_app].
  - rewrite (main_not_installed lib H d np _ st env); try done.
    + cbn [final trace]. split; [done|]. apply Forall_app. split; [done|]. by repeat constructor.
    + intros Hi. apply Hverb. rewrite Hi. by left.
Qed.

Lemma other_verbs_write_nothing_witness :
  let r := main Example.lib Example.stopped_host
                (mkArgs false false (shell "counterparty")) ExampleFiles.configured in
  fs (final r) = fs ExampleFiles.configured /\
  Forall (fun e => is_fs_write e = false) (trace r).
Proof.
  apply (other_verbs_write_nothing Example.lib Example.stopped_host false false
           (shell "counterparty") ExampleFiles.configured).
  cbn [verb]. intros Hin.
  repeat (apply elem_of_cons in Hin as [Hin|Hin]; [discriminate Hin|]).
  by apply elem_of_nil in Hin.
Defined.

(** ** The session the commands run in *)

Lemma update_loop_shrinks H env nr services :
  env_ok env ->
  forall ghu st, shrinks st (final (update_loop H env nr services ghu st)).
Proof.
  intros Henv. induction services as [|s services IH]; intros ghu st; [apply shrinks_refl|].
  cbn [update_loop].
  refine (proj1 (bind_invariant shrinks (fun _ => True) _ _ st shrinks_trans _ _)).
  - destruct (bool_decide _); cbn [negb]; [by split; [apply shrinks_refl|]|].
    apply bind_invariant; [apply shrinks_trans| |intros _ st1; by split; [apply shrinks_refl|]].
    apply (for_each_invariant shrinks); [apply shrinks_refl|apply shrinks_trans|].
    intros sd st1. split; [|by apply Forall_forall].
    by apply (update_service_dir_quiet H env EmptyString).
  - intros g st1.
    apply bind_invariant; [apply shrinks_trans| |intros _ st2; split; [apply IH|by apply Forall_forall]].
    destruct nr; cbn [negb]; [by split; [apply shrinks_refl|]|].
    destruct (run_compose_cmd_frame (fun _ => True) env ("restart " +:+ s) st1) as [-> Ht];
      [done|]. split; [apply shrinks_refl|done].
Qed.

(** Whatever the verb, the dispatch leaves the session as [main] set it
    up. *)
Lemma dispatch_session lib H env pulls existed cfg br c st :
  env_ok env ->
  environ (final (dispatch lib H env pulls existed cfg br c st)) = environ st /\
  DOCKER_CONFIG_PATH (final (dispatch lib H env pulls existed cfg br c st))
    = DOCKER_CONFIG_PATH st.
Proof.
  intros Henv.
  destruct (decide (verb c ∈ ["install"; "uninstall"; "update"])) as [Hin|Hout]; cycle 1.
  { by destruct (dispatch_frame lib H env pulls existed cfg br c st Hout) as [-> _]. }
  destruct c; try (exfalso; cbn [verb] in Hin;
                   repeat (apply elem_of_cons in Hin as [Hin|Hin]; [discriminate Hin|]);
                   by apply elem_of_nil in Hin).
  - (* install *)
    unfold dispatch.
    by destruct (do_install_grows H env pulls existed cfg br use_ssh_uris st)
      as ((_ & _ & _ & _ & -> & ->) & _).
  - (* uninstall *)
    unfold dispatch.
    destruct (run_compose_cmd_frame (fun _ => True) env "down" st) as [Hf _]; [done|].
    destruct (run_cases (run_compose_cmd env "down") st) as [(a & Hr)|[(x & Hr)|(e & Hr)]];
      rewrite Hf in Hr.
    + rewrite (bind_run _ _ _ _ _ _ Hr).
      by rewrite (bind_run _ _ st tt st [Remove (BTC_CONFIG_PATH H)]).
    + by rewrite (bind_run_exit _ _ _ _ _ _ Hr).
    + by rewrite (bind_run_uncaught _ _ _ _ _ _ Hr).
  - (* update *)
    unfold dispatch, do_update.
    destruct (validate_services_summary services st) as (Hf & _ & _).
    destruct (run_cases (validate_services services) st) as [(a & Hr)|[(x & Hr)|(e & Hr)]];
      rewrite Hf in Hr.
    + rewrite (bind_run _ _ _ _ _ _ Hr). cbn [final].
      match goal with
      | |- context [bind (update_loop H env no_restart ?todo []) _ st] =>
          pose proof (update_loop_shrinks H env no_restart todo Henv [] st) as (_ & He & Hp);
          destruct (run_cases (update_loop H env no_restart todo []) st)
            as [(g & Hl)|[(y & Hl)|(e & Hl)]]
      end.
      * rewrite (bind_run _ _ _ _ _ _ Hl). by cbn [final].
      * rewrite (bind_run_exit _ _ _ _ _ _ Hl). by cbn [final].
      * rewrite (bind_run_uncaught _ _ _ _ _ _ Hl). by cbn [final].
    + by rewrite (bind_run_exit _ _ _ _ _ _ Hr).
    + by rewrite (bind_run_uncaught _ _ _ _ _ _ Hr).
Qed.

(** X23: on an installed host, whatever the verb does (except
    [docker_clean], which does not read the settings), the session it
    ran in is the one [main] had built from the settings file and the
    command line, and nothing changed it on the way: the compose file
    is [docker-compose.<profile>.yml] beside the script; the release
    tag is [latest] for branch [master] and the branch name otherwise;
    the host name is the one of the machine; the interface of mongodb
    is the one given on this command line to [install] or [rebuild],
    and [127.0.0.1] for every other verb; and the bootstrap is switched
    off only by [install --no-bootstrap].  What the environment held
    for these names before the run does not count. *)
Theorem session_is_rebuilt_from_settings lib H d np c st env cfg :
  outcome (setup_env H st) = Done env ->
  choices_ok c = true ->
  verb c <> "docker_clean" ->
  settings_file (fs st) = Some cfg ->
  let r := main lib H (mkArgs d np c) st in
  DOCKER_CONFIG_PATH (final r)
    = Some (Py.path_join (SCRIPTDIR H) ["docker-compose." +:+ config cfg +:+ ".yml"]) /\
  environ (final r) !! "BTC_RELEASE_TAG"
    = Some (if bool_decide (branch cfg = "master") then "latest" else branch cfg) /\
  environ (final r) !! "HOSTNAME_BASE" = Some (gethostname H) /\
  environ (final r) !! "MONGODB_HOST_INTERFACE"
    = Some (match c with
            | install _ _ _ m _ => m
            | rebuild _ m _ => m
            | _ => "127.0.0.1"
            end) /\
  environ (final r) !! "NO_BOOTSTRAP"
    = Some (match c with
            | install _ _ _ _ true => "true"
            | _ => "false"
            end).
Proof.
  intros Hs Hc Hv Hcfg r. subst r.
  pose proof (setup_env_env_ok H st env Hs) as Henv.
  rewrite (main_installed lib H d np _ st env cfg) by done.
  cbv zeta. cbn [final].
  destruct (dispatch_session lib H env (negb np) true (config cfg) (branch cfg) c
              (session_state H cfg c st) Henv) as [-> ->].
  unfold session_state. cbn [environ DOCKER_CONFIG_PATH].
  split; [done|].
  split; [by rewrite !lookup_insert_ne, lookup_insert_eq by done|].
  split; [by rewrite !lookup_insert_ne, lookup_insert_eq by done|].
  split; [rewrite lookup_insert_ne, lookup_insert_eq by done; by destruct c|].
  rewrite lookup_insert_eq. by destruct c.
Qed.

Lemma session_is_rebuilt_from_settings_witness :
  let r := main Example.lib Example.host
                (mkArgs false false (restart ["counterparty"]))
                ExampleHosts.installed_develop_custom in
  environ ExampleHosts.installed_develop_custom !! "MONGODB_HOST_INTERFACE" = Some "0.0.0.0" /\
  DOCKER_CONFIG_PATH (final r) = Some "/opt/fednode/docker-compose.full.yml" /\
  environ (final r) !! "BTC_RELEASE_TAG" = Some "develop" /\
  environ (final r) !! "MONGODB_HOST_INTERFACE" = Some "127.0.0.1" /\
  environ (final r) !! "NO_BOOTSTRAP" = Some "false".
Proof.
  pose proof (session_is_rebuilt_from_settings Example.lib Example.host false false
                (restart ["counterparty"]) ExampleHosts.installed_develop_custom
                Example.env ExampleHosts.develop_settings) as W.
  destruct W as (Hp & Ht & _ & Hm & Hb).
  - reflexivity.
  - reflexivity.
  - discriminate.
  - reflexivity.
  - split; [reflexivity|]. split; [exact Hp|]. split; [exact Ht|].
    split; [exact Hm | exact Hb].
Defined.

(** ** The port check, port by port *)

Lemma check_ports_first_open H before p after st :
  Forall (fun q => connect_ex H "127.0.0.1" q <> 0) before ->
  connect_ex H "127.0.0.1" p = 0 ->
  check_ports H (before ++ p :: after) st =
  mkResult (SysExit 1) st
    (map (ConnectEx "127.0.0.1") (before ++ [p]) ++ [Print (port_in_use_message p)]).
Proof.
  intros Hclosed Hopen. induction Hclosed as [|q before Hq _ IH].
  - cbn [app]. by rewrite check_ports_cons_open.
  - cbn [app]. rewrite check_ports_cons_closed by done. by rewrite IH.
Qed.

(** X24: on a host without settings, [install] probes the ports of the
    profile in the order of the table and stops at the first one that
    answers: the ports before it were probed and found free, the ports
    after it are not probed at all, the message names that port, and
    the run exits with status 1. *)
Theorem install_stops_at_first_port_in_use lib H d np cfg br ssh m nb st env before p after :
  settings_file (fs st) = None ->
  outcome (setup_env H st) = Done env ->
  br ∈ ["master"; "develop"] ->
  cfg ∈ ["base"; "base_extbtc"; "full"] ->
  Py.dict_get HOST_PORTS_USED cfg = Some (before ++ p :: after) ->
  Forall (fun q => connect_ex H "127.0.0.1" q <> 0) before ->
  connect_ex H "127.0.0.1" p = 0 ->
  let r := main lib H (mkArgs d np (install cfg br ssh m nb)) st in
  outcome r = SysExit 1 /\
  trace r = trace (setup_env H st) ++
            WriteConfig (mkSettings br cfg) ::
            map (ConnectEx "127.0.0.1") before ++
            [ ConnectEx "127.0.0.1" p;
              Print ("Cannot install, as it appears a process is already listening on host port "
                     +:+ Py.str_int p) ].
Proof.
  intros Hnone Hs Hbr Hcfg Hports Hclosed Hopen r. subst r.
  destruct (choices_install cfg br ssh m nb Hcfg Hbr) as (Hc & _).
  rewrite (main_install_fresh lib H d np cfg br ssh m nb st env) by done.
  cbv zeta. unfold dispatch, do_install. rewrite Hports.
  set (st1 := session_state _ _ _ _).
  rewrite (bind_run _ _ st1 tt st1 []) by done.
  rewrite (bind_run_exit _ _ _ _ _ _
             (check_ports_first_open H before p after st1 Hclosed Hopen)).
  cbn [outcome trace app]. split; [done|].
  by rewrite map_app, <- app_assoc.
Qed.

Lemma install_stops_at_first_port_in_use_witness :
  let r := main Example.lib ExampleHosts.testnet_host
                (mkArgs false false (install "full" "master" false "127.0.0.1" false))
                Example.fresh in
  outcome r = SysExit 1 /\
  trace r = trace (setup_env ExampleHosts.testnet_host Example.fresh) ++
            [ WriteConfig (mkSettings "master" "full");
              ConnectEx "127.0.0.1" 8332; ConnectEx "127.0.0.1" 18332;
              Print "Cannot install, as it appears a process is already listening on host port 18332" ].
Proof.
  apply (install_stops_at_first_port_in_use Example.lib ExampleHosts.testnet_host false false
           "full" "master" false "127.0.0.1" false Example.fresh Example.env
           [8332] 18332 [8432; 18432; 4000; 14000; 8097; 18097; 8098; 18098; 80; 443]).
  - reflexivity.
  - reflexivity.
  - vm_compute; repeat constructor.
  - vm_compute; repeat constructor.
  - reflexivity.
  - repeat constructor. vm_compute. discriminate.
  - reflexivity.
Defined.

(** ** The owner of the materialized configs *)



Example materialized_config_owner :
  let r := materialize_configs Example.host Example.env ExampleVolumes.root_templates in
  files (fs (final r)) !! "/opt/fednode/config/counterparty/server.conf"
    = Some (mkFile ("[Default]" +:+ Py.nl) 100 0 0) /\
  geteuid Example.host = 1000.
Proof. vm_compute. done. Qed.

(** ** [update]: one checkout directory *)

Lemma strip_prefix_Some p s r : Py.strip_prefix p s = Some r -> s = p +:+ r.
Proof.
  revert s. induction p as [|a p IH]; intros s; cbn [Py.strip_prefix].
  - by intros [= ->].
  - destruct s as [|b s]; [done|]. case_bool_decide as Hab; [|done].
    subst b. intros Hr. change (String a p +:+ r) with (String a (p +:+ r)).
    f_equal. by apply IH.
Qed.

(** What the glob of the egg-info directories finds lies directly
    inside the checkout. *)
Lemma glob_egg_info_inside f dir egg :
  egg ∈ glob_egg_info f dir ->
  os_path_exists f egg = true /\
  exists name, egg = Py.path_join dir [EmptyString] +:+ name /\
               Py.endswith name ".egg-info" = true /\
               Py.contains "/" name = false.
Proof.
  unfold glob_egg_info, all_paths. intros Hegg%list_elem_of_In.
  apply filter_In in Hegg as [Hin%list_elem_of_In Hmatch]. split.
  - apply elem_of_elements, elem_of_union in Hin as [Hin|Hin];
      unfold os_path_exists; apply orb_true_iff; [left|right]; by apply bool_decide_eq_true.
  - unfold matches_egg_info in Hmatch.
    destruct (Py.strip_prefix (Py.path_join dir [EmptyString]) egg) as [name|] eqn:Hname;
      [|done].
    apply andb_true_iff in Hmatch as [[_ Hslash]%andb_true_iff Hend].
    exists name. split; [by apply strip_prefix_Some|]. split; [done|].
    by apply negb_true_iff.
Qed.

Lemma egg_loop_posix env eggs st :
  IS_WINDOWS env = false ->
  for_each eggs (remove_egg env) st =
  mkResult (Done tt) st
    (flat_map (fun egg => [ Print ("Removing egg path " +:+ egg);
                            System (rm_rf_cmdline env egg) ]) eggs).
Proof.
  intros Hposix. induction eggs as [|egg eggs IH]; [done|].
  rewrite for_each_cons.
  assert (Hstep : remove_egg env egg st =
                  mkResult (Done tt) st
                    [ Print ("Removing egg path " +:+ egg); System (rm_rf_cmdline env egg) ]).
  { unfold remove_egg, print, os_system. rewrite Hposix. cbn [negb].
    by rewrite (bind_run _ _ st tt st [Print ("Removing egg path " +:+ egg)]). }
  rewrite (bind_run _ _ _ _ _ _ Hstep). by rewrite IH.
Qed.

(** X26: on a POSIX host, the source update of a checkout directory
    of [update] is skipped without a word when the directory is not
    there; when it is there and on a branch, the script reads the
    branch, pulls that branch from [origin] as the session user, and
    then - for the checkouts of [counterparty] only - announces and
    removes, with [sudo rm -rf], every [*.egg-info] entry found
    directly inside the checkout, and nothing else; the state of the
    script is left as it is. *)
Theorem update_checkout_on_posix H env b sd st :
  IS_WINDOWS env = false ->
  let path := repo_path H sd in
  let on_branch := Py.strip (git_symbolic_ref_out H path) in
  let eggs := glob_egg_info (fs st) path in
  on_branch <> EmptyString ->
  update_service_dir H env b sd st =
  mkResult (Done tt) st
    (if os_path_exists (fs st) path then
       [ CheckOutput (symbolic_ref_cmd H path);
         System (git_cmdline env (git_pull_cmd H path on_branch)) ] ++
       (if bool_decide (b ∈ ["counterparty"; "armory-utxsvr"])
        then flat_map (fun egg => [ Print ("Removing egg path " +:+ egg);
                                    System (rm_rf_cmdline env egg) ]) eggs
        else [])
     else []) /\
  (forall egg, egg ∈ eggs ->
     os_path_exists (fs st) egg = true /\
     exists name, egg = Py.path_join path [EmptyString] +:+ name /\
                  Py.endswith name ".egg-info" = true /\
                  Py.contains "/" name = false).
Proof.
  intros Hposix path on_branch eggs Hbranch.
  split; [|intros egg; apply glob_egg_info_inside].
  unfold update_service_dir. fold (repo_path H sd). fold path.
  rewrite (bind_run _ _ st st st []) by done. cbn [app].
  destruct (os_path_exists (fs st) path); cbn [negb]; [|done].
  assert (Hco : check_output (symbolic_ref_cmd H path) (Some (git_symbolic_ref_out H path)) st
                = mkResult (Done (git_symbolic_ref_out H path)) st
                           [CheckOutput (symbolic_ref_cmd H path)]) by done.
  rewrite (bind_run _ _ _ _ _ _ Hco). fold on_branch.
  rewrite (bool_decide_eq_false_2 (on_branch = EmptyString)) by done.
  unfold run_git, os_system.
  rewrite (bind_run _ _ st tt st [System (git_cmdline env (git_pull_cmd H path on_branch))])
    by done.
  destruct (bool_decide (b ∈ ["counterparty"; "armory-utxsvr"])); [|done].
  rewrite (bind_run _ _ st st st []) by done. fold eggs.
  by rewrite (egg_loop_posix env eggs st Hposix).
Qed.

Lemma update_checkout_on_posix_witness :
  update_service_dir Example.host Example.env "counterparty"
    "/opt/fednode/src/counterparty-lib" ExampleVolumes.with_egg =
  mkResult (Done tt) ExampleVolumes.with_egg
    [ CheckOutput "cd /opt/fednode/src/counterparty-lib;git symbolic-ref --short -q HEAD;cd /home/alice";
      System ("sudo -E -u alice bash -c " +:+ Py.dq +:+
              "cd /opt/fednode/src/counterparty-lib; git pull origin master; cd /home/alice"
              +:+ Py.dq);
      Print "Removing egg path /opt/fednode/src/counterparty-lib/counterparty_lib.egg-info";
      System ("sudo -E bash -c " +:+ Py.dq +:+
              "rm -rf /opt/fednode/src/counterparty-lib/counterparty_lib.egg-info" +:+ Py.dq) ].
Proof.
  pose proof (update_checkout_on_posix Example.host Example.env "counterparty"
                "/opt/fednode/src/counterparty-lib" ExampleVolumes.with_egg) as W.
  destruct W as (W & _).
  - reflexivity.
  - discriminate.
  - rewrite W. vm_compute. reflexivity.
Defined.

(** ** The profile for an external bitcoind *)

Lemma connect_ex_no_listener H dest port :
  (forall a, (a, port) ∉ listeners H) -> connect_ex H dest port <> 0.
Proof.
  intros Hnone. apply connect_ex_refused. intros a Ha. by destruct (Hnone a).
Qed.

(** X27: the profile [base_extbtc] leaves the RPC ports of bitcoind
    alone: on a host without settings where nothing listens except on
    the ports 8332 and 18332 (an external bitcoind, on whatever
    address), [install base_extbtc] is not stopped by the port check -
    it probes the eight other ports of the profile only, finds them
    free and goes on to clone the missing repositories and to pull the
    images. *)
Theorem base_extbtc_ignores_bitcoin_ports lib H d np br ssh m nb st env :
  settings_file (fs st) = None ->
  outcome (setup_env H st) = Done env ->
  br ∈ ["master"; "develop"] ->
  (forall a p, (a, p) ∈ listeners H -> p = 8332 \/ p = 18332) ->
  let r := main lib H (mkArgs d np (install "base_extbtc" br ssh m nb)) st in
  exists rest,
    trace r =
      trace (setup_env H st) ++
      WriteConfig (mkSettings br "base_extbtc") ::
      map (ConnectEx "127.0.0.1") [8432; 18432; 4000; 14000; 8097; 18097; 8098; 18098] ++
      map (clone_event H env ssh br) (List.filter (repo_missing H (fs st)) REPOS_BASE) ++
      (if np then Print "skipping docker pull command"
       else System (compose_cmdline env (docker_config_path_of H "base_extbtc")
                      "pull --ignore-pull-failures")) :: rest.
Proof.
  intros Hnone Hs Hbr Hlisten r. subst r.
  assert (Hcfg : "base_extbtc" ∈ ["base"; "base_extbtc"; "full"]) by (right; left).
  destruct (choices_install "base_extbtc" br ssh m nb Hcfg Hbr) as (Hc & Hne & _).
  rewrite (main_install_fresh lib H d np "base_extbtc" br ssh m nb st env) by done.
  cbv zeta. unfold dispatch.
  set (st1 := session_state _ _ _ _).
  assert (Hready : compose_ready st1 (docker_config_path_of H "base_extbtc"))
    by (by apply (session_state_ready H (mkSettings br "base_extbtc"))).
  assert (Hfree : forall p, p ∈ [8432; 18432; 4000; 14000; 8097; 18097; 8098; 18098] ->
                    connect_ex H "127.0.0.1" p <> 0).
  { intros p Hp. apply connect_ex_no_listener. intros a Ha.
    destruct (Hlisten a p Ha) as [->| ->];
      repeat (apply elem_of_cons in Hp as [Hp|Hp]; [discriminate Hp|]);
      by apply elem_of_nil in Hp. }
  rewrite (do_install_free H env (negb np) "base_extbtc" br ssh
             [8432; 18432; 4000; 14000; 8097; 18097; 8098; 18098] st1 _ eq_refl Hfree Hready).
  cbv zeta. cbn [trace]. eexists. do 4 f_equal. by destruct np.
Qed.

Lemma base_extbtc_ignores_bitcoin_ports_witness :
  let r := main Example.lib Example.host
                (mkArgs false true (install "base_extbtc" "master" false "127.0.0.1" false))
                ExampleVolumes.all_checked_out in
  connect_ex Example.host "127.0.0.1" 8332 = 0 /\
  exists rest,
    trace r =
      trace (setup_env Example.host ExampleVolumes.all_checked_out) ++
      WriteConfig (mkSettings "master" "base_extbtc") ::
      map (ConnectEx "127.0.0.1") [8432; 18432; 4000; 14000; 8097; 18097; 8098; 18098] ++
      Print "skipping docker pull command" :: rest.
Proof.
  split; [reflexivity|].
  apply (base_extbtc_ignores_bitcoin_ports Example.lib Example.host false true
           "master" false "127.0.0.1" false ExampleVolumes.all_checked_out Example.env).
  - reflexivity.
  - reflexivity.
  - vm_compute; repeat constructor.
  - intros a p Ha. apply list_elem_of_singleton in Ha. injection Ha as _ ->. by left.
Defined.

(** ** On Windows *)

Lemma bind_events {A B} (P : Event -> Prop) (m : Run A) (k : A -> Run B) st :
  Forall P (trace (m st)) ->
  (forall a st', Forall P (trace (k a st'))) ->
  Forall P (trace (bind m k st)).
Proof.
  intros Hm Hk.
  refine (proj2 (bind_invariant (fun _ _ => True) P m k st _ _ _)); [done|done|].
  intros a st'. by split.
Qed.

Lemma for_each_events {A} (P : Event -> Prop) (l : list A) (body : A -> Run unit) st :
  (forall x st', Forall P (trace (body x st'))) ->
  Forall P (trace (for_each l body st)).
Proof.
  intros Hbody.
  refine (proj2 (for_each_invariant (fun _ _ => True) P l body st _ _ _)); [done|done|].
  intros x st'. by split.
Qed.

Lemma setup_env_windows H st :
  os_name H = "nt" ->
  setup_env H st = mkResult (Done (mkEnv true None EmptyString)) st [].
Proof.
  intros Hnt. unfold setup_env. rewrite (bool_decide_eq_true_2 _ Hnt). reflexivity.
Qed.

Lemma run_compose_cmd_windows cmd st :
  Forall (fun e => is_posix_only e = false)
         (trace (run_compose_cmd (mkEnv true None EmptyString) cmd st)).
Proof.
  unfold run_compose_cmd, os_system.
  rewrite (bind_run _ _ st st st []) by done. cbn [trace app].
  destruct (DOCKER_CONFIG_PATH st) as [path|]; [|done].
  destruct (bool_decide (path = EmptyString)); [done|].
  destruct (environ st !! "BTC_RELEASE_TAG") as [tag|]; [|done].
  destruct (bool_decide (tag = EmptyString)); [done|].
  by repeat constructor.
Qed.

Lemma update_service_dir_windows H b sd st :
  Forall (fun e => is_posix_only e = false)
         (trace (update_service_dir H (mkEnv true None EmptyString) b sd st)).
Proof.
  unfold update_service_dir.
  apply bind_events; [done|intros st0 st1].
  destruct (os_path_exists (fs st0) _); cbn [negb]; [|done].
  apply bind_events; [by repeat constructor|intros out st2].
  destruct (bool_decide (Py.strip out = EmptyString)); [by repeat constructor|].
  apply bind_events; [by repeat constructor|intros _ st3].
  destruct (bool_decide (b ∈ ["counterparty"; "armory-utxsvr"])); [|done].
  apply bind_events; [done|intros st4 st5].
  apply for_each_events. intros egg st6. unfold remove_egg. cbn [IS_WINDOWS negb].
  apply bind_events; [by repeat constructor|intros _ st7].
  apply bind_events; [done|intros st8 st9].
  destruct (bool_decide (egg ∈ dirs (fs st8))); [|done].
  by repeat constructor.
Qed.

Lemma update_loop_windows H nr services ghu st :
  Forall (fun e => is_posix_only e = false)
         (trace (update_loop H (mkEnv true None EmptyString) nr services ghu st)).
Proof.
  revert ghu st. induction services as [|s services IH]; intros ghu st; [done|].
  cbn [update_loop].
  apply bind_events.
  - destruct (bool_decide _); cbn [negb]; [done|].
    apply bind_events; [|done].
    apply for_each_events. intros sd st1. apply update_service_dir_windows.
  - intros g st1. apply bind_events; [|intros _ st2; apply IH].
    destruct nr; cbn [negb]; [done|]. apply run_compose_cmd_windows.
Qed.

Lemma do_install_windows H pulls existed cfg br ssh st :
  Forall (fun e => is_posix_only e = false)
         (trace (do_install H (mkEnv true None EmptyString) pulls existed cfg br ssh st)).
Proof.
  unfold do_install.
  apply bind_events; [destruct existed; by repeat constructor|intros _ st1].
  apply bind_events; [|intros _ st2].
  { destruct (Py.dict_get HOST_PORTS_USED cfg) as [ports|]; [|done].
    unfold check_ports. apply for_each_events. intros port st'.
    rewrite (bind_run _ _ _ _ _ _ (is_port_open_run H port st')).
    destruct (connect_ex H "127.0.0.1" port =? 0)%Z; by repeat constructor. }
  apply bind_events; [|intros _ st3].
  { rewrite clone_loop_run. cbn [trace]. apply Forall_forall.
    by intros e (repo & -> & _)%list_elem_of_fmap. }
  apply bind_events; [|intros _ st4].
  { destruct pulls; [apply run_compose_cmd_windows|by repeat constructor]. }
  apply bind_events; [|intros _ st5].
  { unfold materialize_configs. apply bind_events; [done|intros st' st''].
    apply for_each_events. intros t st6. rewrite materialize_config_run. cbv zeta.
    destruct (os_path_exists (fs st6) _); [done|].
    destruct (files (fs st6) !! t); by repeat constructor. }
  apply bind_events; [done|intros _ st6]. apply run_compose_cmd_windows.
Qed.

Lemma config_check_pair_prints lib H spec st :
  Forall (fun e => exists msg, e = Print msg) (trace (config_check_pair lib H spec st)).
Proof.
  destruct spec as [[dirname fromfile] tofile]. unfold config_check_pair, print.
  rewrite (bind_run _ _ st st st []) by done. cbn [trace app].
  repeat (match goal with
          | |- context [if ?b then _ else _] => destruct b
          | |- context [match ?o with Some _ => _ | None => _ end] => destruct o
          end; cbn [negb]);
    try done; repeat constructor; by eexists.
Qed.

Lemma dispatch_windows lib H pulls existed cfg br c st :
  Forall (fun e => is_posix_only e = false)
         (trace (dispatch lib H (mkEnv true None EmptyString) pulls existed cfg br c st)).
Proof.
  destruct c; unfold dispatch;
    try apply run_compose_cmd_windows;
    try (apply bind_events; [apply run_compose_cmd_windows|intros _ st';
                             apply run_compose_cmd_windows]).
  - (* install *) apply do_install_windows.
  - (* uninstall *)
    apply bind_events; [apply run_compose_cmd_windows|intros _ st'].
    by repeat constructor.
  - (* exec *) by repeat constructor.
  - (* shell *)
    apply bind_events.
    { unfold is_container_running.
      apply bind_events; [by repeat constructor|intros _ st'].
      destruct (docker_inspect_out H (container_name service)); [done|by repeat constructor]. }
    intros running st'. destruct running as [[|]|];
      try (by repeat constructor);
      (apply bind_events; [by repeat constructor|intros _ st''; apply run_compose_cmd_windows]).
  - (* update *)
    unfold do_update. apply bind_events; [|intros _ st'].
    { destruct (validate_services_summary services st) as (_ & Hprints & _).
      eapply Forall_impl; [exact Hprints|]. by intros e (msg & ->). }
    apply bind_events; [apply update_loop_windows|done].
  - (* rebuild *)
    apply bind_events.
    { destruct pulls; [apply run_compose_cmd_windows|by repeat constructor]. }
    intros _ st'. apply bind_events; [|intros _ st''; apply run_compose_cmd_windows].
    destruct no_cache; [apply run_compose_cmd_windows|done].
  - (* docker_clean *) done.
  - (* configcheck *)
    unfold config_check. destruct (Py.dict_get CONFIGCHECK_FILES cfg) as [pairs|]; [|done].
    apply for_each_events. intros spec st'.
    eapply Forall_impl; [apply config_check_pair_prints|]. by intros e (msg & ->).
Qed.

(** X28: on Windows ([os.name] is [nt]) the script works without
    [sudo] and leaves owners and the data directory alone: whatever the
    command line and the state, the environment is not probed, no
    command it runs or reads from starts with [sudo] - the engines and
    git are invoked directly -, and it changes no owner, makes no
    directory and no link. *)
Theorem windows_runs_without_sudo lib H argv st :
  os_name H = "nt" ->
  let r := main lib H argv st in
  trace (setup_env H st) = [] /\
  Forall (fun e => is_posix_only e = false) (trace r).
Proof.
  intros Hnt r. subst r.
  pose proof (setup_env_windows H st Hnt) as Hsetup.
  rewrite Hsetup. split; [done|].
  unfold main. rewrite (bind_run _ _ _ _ _ _ Hsetup). cbn [trace app].
  apply bind_events.
  { unfold parse_args. by destruct (choices_ok (command argv)). }
  intros args st1. destruct (bool_decide (verb (command args) = "docker_clean")).
  - unfold do_docker_clean, check_output.
    apply bind_events; [|intros out st2].
    { apply bind_events; [by repeat constructor|intros _ st2].
      by destruct (docker_ps_out H). }
    apply bind_events; [|intros out' st3].
    { apply bind_events; [by repeat constructor|intros _ st3].
      by destruct (docker_images_out H). }
    apply bind_events; [|intros _ st4].
    { rewrite for_each_named. cbn [trace]. apply Forall_forall.
      by intros e (x & -> & _)%list_elem_of_fmap. }
    apply bind_events; [|done].
    rewrite for_each_named. cbn [trace]. apply Forall_forall.
    by intros e (x & -> & _)%list_elem_of_fmap.
  - apply bind_events; [|intros existed st2].
    { unfold require_settings. apply bind_events; [done|intros st' st''].
      apply bind_events; [|done].
      destruct (config_exists (fs st')); cbn [negb]; [done|].
      destruct (command args); by repeat constructor. }
    apply bind_events; [|intros cfg st3; apply dispatch_windows].
    unfold load_settings. apply bind_events; [done|intros st' st''].
    by destruct (settings_file (fs st')).
Qed.

Lemma windows_runs_without_sudo_witness :
  let r := main Example.lib ExampleHosts.windows_host
                (mkArgs false false (update false ["counterparty"]))
                ExampleVolumes.windows_checkout in
  outcome r = Done tt /\
  Exists (fun e => exists path, e = Rmtree path) (trace r) /\
  Forall (fun e => is_posix_only e = false) (trace r).
Proof.
  pose proof (windows_runs_without_sudo Example.lib ExampleHosts.windows_host
                (mkArgs false false (update false ["counterparty"]))
                ExampleVolumes.windows_checkout) as W.
  destruct W as (_ & W); [reflexivity|].
  split; [vm_compute; reflexivity|]. split; [|exact W].
  vm_compute. do 3 apply Exists_cons_tl. apply Exists_cons_hd. by eexists.
Defined.
